(** * requests.sessions: session defaults, kwarg merging and cookie reconciliation

    A shallow embedding of [src/requests/sessions.py].  Python objects that
    the code mutates or shares (dicts, cookie jars, instances) live in an
    explicit store and are referred to by location, so that aliasing between
    the caller's arguments, the session's attributes and the per-call values
    is visible.  Exceptions are results; the store survives a raise. *)

From Stdlib Require Import ZArith Ascii String.
From stdpp Require Import base option list gmap strings fin_maps.

Open Scope string_scope.
Open Scope list_scope.

Set Warnings "-register-all".
Set Default Proof Using "Type".

(** ** Values and objects *)

(** A location in the store. *)
Definition loc := nat.

(** The exceptions the code can end in. *)
Inductive exn :=
| KeyError (k : string)
| TypeError
| AttributeError
| TransportError (code : nat).

(** Immutable Python values; [VRef] points to a mutable object, [VFun] is a
    callable, [VExn] an exception instance held as a value. *)
Inductive value :=
| VNone
| VBool (b : bool)
| VInt (n : Z)
| VStr (s : string)
| VSeq (items : list value)
| VFun (f : nat)
| VExn (e : exn)
| VRef (l : loc).

(** A cookie jar: cookies keyed by (domain, path, name), each with a value. *)
Abbreviation jar := (gmap (string * string * string) value).

(** Mutable objects. *)
Inductive object :=
| ODict (d : gmap string value)
| OJar (j : jar)
| OPool (num_pools maxsize : value)
| OInst (attrs : gmap string value).

Abbreviation heap := (list object).

(** ** Exceptions and the store monad *)

(** A call returns a value or raises; either way it leaves a store. *)
Inductive res (A : Type) :=
| Ok (a : A)
| Raise (e : exn).
Arguments Ok {A} a.
Arguments Raise {A} e.

Definition M (A : Type) : Type := heap → res A * heap.

Definition ret {A} (a : A) : M A := fun h => (Ok a, h).

Definition raise {A} (e : exn) : M A := fun h => (Raise e, h).

Definition bind {A B} (m : M A) (k : A → M B) : M B :=
  fun h => match m h with
           | (Ok a, h') => k a h'
           | (Raise e, h') => (Raise e, h')
           end.

Notation "'let*' x := m 'in' k" := (bind m (fun x => k))
  (at level 10, x name, m at level 100, k at level 200,
   format "'[v' 'let*'  x  :=  m  'in'  '/' k ']'").
Notation "m ;;; k" := (bind m (fun _ => k))
  (at level 100, right associativity).

(** [for x in xs: body x] *)
Fixpoint for_ {A} (xs : list A) (body : A → M unit) : M unit :=
  match xs with
  | [] => ret tt
  | x :: xs' => body x ;;; for_ xs' body
  end.

(** Allocation of a new object: it gets the next free location. *)
Definition alloc (o : object) : M value :=
  fun h => (Ok (VRef (length h)), h ++ [o]).

(** The current store, and the replacement of the object at a location. *)
Definition read_heap : M heap := fun h => (Ok h, h).

Definition store (l : loc) (o : object) : M unit :=
  fun h => (Ok tt, <[l := o]> h).

(** ** Dict primitives *)

(** [v is None] and [isinstance(v, str)] *)
Definition is_none (v : value) : bool :=
  match v with VNone => true | _ => false end.

Definition is_str (v : value) : bool :=
  match v with VStr _ => true | _ => false end.

(** The dict a value refers to, if it refers to one. *)
Definition as_dict (h : heap) (v : value) : option (gmap string value) :=
  match v with
  | VRef l => match h !! l with Some (ODict d) => Some d | _ => None end
  | _ => None
  end.

(** [hasattr(v, 'items')] *)
Definition hasattr_items (v : value) : M bool :=
  fun h => (Ok (bool_decide (is_Some (as_dict h v))), h).

(** [list(v.items())]: a snapshot of the dict's entries. *)
Definition dict_items (v : value) : M (list (string * value)) :=
  fun h => match as_dict h v with
           | Some d => (Ok (map_to_list d), h)
           | None => (Raise AttributeError, h)
           end.

(** [v.copy()] *)
Definition dict_copy (v : value) : M value :=
  fun h => match as_dict h v with
           | Some d => alloc (ODict d) h
           | None => (Raise AttributeError, h)
           end.

(** [v[k] = x] *)
Definition dict_setitem (v : value) (k : string) (x : value) : M unit :=
  fun h => match v, as_dict h v with
           | VRef l, Some d => store l (ODict (<[k := x]> d)) h
           | _, _ => (Raise TypeError, h)
           end.

(** [v.setdefault(k, x)] *)
Definition dict_setdefault (v : value) (k : string) (x : value) : M unit :=
  fun h => match v, as_dict h v with
           | VRef l, Some d =>
               match d !! k with
               | Some _ => (Ok tt, h)
               | None => store l (ODict (<[k := x]> d)) h
               end
           | _, _ => (Raise AttributeError, h)
           end.

(** [del v[k]]: raises [KeyError] when the key is not there. *)
Definition dict_delitem (v : value) (k : string) : M unit :=
  fun h => match v, as_dict h v with
           | VRef l, Some d =>
               match d !! k with
               | Some _ => store l (ODict (delete k d)) h
               | None => (Raise (KeyError k), h)
               end
           | _, _ => (Raise TypeError, h)
           end.

(** [v.update(w)] for a dict [w]. *)
Definition dict_update (v w : value) : M unit :=
  let* its := dict_items w in
  for_ its (fun '(k, x) => dict_setitem v k x).

(** ** KeyValueNormalizer *)

(** A sequence of 2-element (key, value) pairs. *)
Fixpoint as_pairs (l : list value) : option (list (string * value)) :=
  match l with
  | [] => Some []
  | VSeq [VStr k; x] :: l' =>
      match as_pairs l' with
      | Some ps => Some ((k, x) :: ps)
      | None => None
      end
  | _ => None
  end.

(** The mapping built from pairs, later pairs overwriting earlier ones. *)
Definition dict_of_pairs (ps : list (string * value)) : gmap string value :=
  fold_left (fun d '(k, x) => <[k := x]> d) ps ∅.

(** Modelled from the spec: [utils.from_key_val_list] is imported by
    sessions.py but its module is not part of the sources.  Section 4.1:
    an absent input gives an empty mapping, an existing mapping is returned
    as it is (not copied), a sequence of pairs is built into a mapping, and
    any other shape fails with a type error. *)
Definition from_key_val_list (v : value) : M value :=
  match v with
  | VNone => alloc (ODict ∅)
  | VSeq l =>
      match as_pairs l with
      | Some ps => alloc (ODict (dict_of_pairs ps))
      | None => raise TypeError
      end
  | VRef l =>
      let* h := read_heap in
      match as_dict h v with
      | Some _ => ret v
      | None => raise TypeError
      end
  | _ => raise TypeError
  end.

(** ** merge_kwargs (sessions.py, lines 23-54) *)

Definition merge_kwargs (local_kwarg default_kwarg : value) : M value :=
  if is_none default_kwarg then ret local_kwarg
  else if is_str local_kwarg then ret local_kwarg
  else if is_none local_kwarg then ret default_kwarg
  else
    let* has_items := hasattr_items default_kwarg in
    if negb has_items then ret local_kwarg
    else
      let* default_kwarg := from_key_val_list default_kwarg in
      let* local_kwarg := from_key_val_list local_kwarg in
      let* kwargs := dict_copy default_kwarg in
      dict_update kwargs local_kwarg ;;;
      let* its := dict_items local_kwarg in
      for_ its (fun '(k, v) =>
        if is_none v then dict_delitem kwargs k else ret tt) ;;;
      ret kwargs.



(** The pure effect of a loop of upserts, of the deletion loop of
    [merge_kwargs], and of a loop of [setdefault]s. *)
Definition upd_all `{Countable K} {V} (its : list (K * V)) (d : gmap K V)
  : gmap K V :=
  fold_left (fun d '(k, x) => <[k := x]> d) its d.

Definition seed_all (its : list (string * value)) (d : gmap string value) :=
  fold_left (fun d '(k, x) =>
    match d !! k with Some _ => d | None => <[k := x]> d end) its d.

(** The pure effect of removing cookies by name, one name after another. *)
Definition remove_names (names : list string) (j : jar) : jar :=
  fold_left (fun j name => filter (λ c, c.1.2 ≠ name) j) names j.

Definition purge (its : list (string * value)) (d : gmap string value) :=
  fold_left (fun d '(k, v) => if is_none v then delete k d else d) its d.

(** The merge of section 4.3, step 5, written per key: a local [None]
    removes the key, any other local value wins, and a key the local
    mapping does not mention keeps the session default. *)
Definition merge_entry (lv dv : option value) : option value :=
  match lv with
  | Some VNone => None
  | Some v => Some v
  | None => dv
  end.

Definition merged (dl dd : gmap string value) : gmap string value :=
  merge merge_entry dl dd.

(** ** Instances, truthiness *)

Definition as_inst (h : heap) (l : loc) : option (gmap string value) :=
  match h !! l with Some (OInst attrs) => Some attrs | _ => None end.

(** [self.name] *)
Definition getattr (self : loc) (name : string) : M value :=
  fun h => match as_inst h self with
           | Some attrs =>
               match attrs !! name with
               | Some v => (Ok v, h)
               | None => (Raise AttributeError, h)
               end
           | None => (Raise AttributeError, h)
           end.

(** [getattr(self, name, dflt)] *)
Definition getattr_default (self : loc) (name : string) (dflt : value)
  : M value :=
  fun h => match as_inst h self with
           | Some attrs => (Ok (default dflt (attrs !! name)), h)
           | None => (Ok dflt, h)
           end.

(** [self.name = v] *)
Definition setattr (self : loc) (name : string) (v : value) : M unit :=
  fun h => match as_inst h self with
           | Some attrs => store self (OInst (<[name := v]> attrs)) h
           | None => (Raise AttributeError, h)
           end.

(** [v.get(k)] *)
Definition dict_get (v : value) (k : string) : M value :=
  fun h => match as_dict h v with
           | Some d => (Ok (default VNone (d !! k)), h)
           | None => (Raise AttributeError, h)
           end.

(** [bool(v)] *)
Definition truthy (v : value) : M bool :=
  fun h =>
    (Ok match v with
        | VNone => false
        | VBool b => b
        | VInt n => negb (Z.eqb n 0)
        | VStr s => negb (String.eqb s "")
        | VSeq l => negb (Nat.eqb (length l) 0)
        | VFun _ | VExn _ => true
        | VRef l =>
            match h !! l with
            | Some (ODict d) => negb (Nat.eqb (size d) 0)
            | Some (OJar j) => negb (Nat.eqb (size j) 0)
            | _ => true
            end
        end, h).

Fixpoint mapM {A B} (f : A → M B) (xs : list A) : M (list B) :=
  match xs with
  | [] => ret []
  | x :: xs' =>
      let* y := f x in
      let* ys := mapM f xs' in
      ret (y :: ys)
  end.

Fixpoint foldM {A S} (f : S → A → M S) (s : S) (xs : list A) : M S :=
  match xs with
  | [] => ret s
  | x :: xs' => let* s' := f s x in foldM f s' xs'
  end.

(** [str.upper()] on ASCII strings: the letters a-z are raised, every
    other character stays.  HTTP method names are ASCII tokens; on a
    string with other letters Python's [upper] does more than this, so a
    statement on the upper-cased method is made for ASCII names only. *)
Definition upper_ascii (c : ascii) : ascii :=
  let n := nat_of_ascii c in
  if Nat.leb 97 n && Nat.leb n 122 then ascii_of_nat (n - 32) else c.

Fixpoint upper (s : string) : string :=
  match s with
  | EmptyString => EmptyString
  | String c s' => String (upper_ascii c) (upper s')
  end.

(** A string of ASCII characters only. *)
Definition is_ascii (s : string) : bool :=
  forallb (λ c, Nat.ltb (nat_of_ascii c) 128) (list_ascii_of_string s).

(** ** CookieJarAdapter *)

Definition as_jar (h : heap) (v : value) : option jar :=
  match v with
  | VRef l => match h !! l with Some (OJar j) => Some j | _ => None end
  | _ => None
  end.

(** [isinstance(v, cookielib.CookieJar)] *)
Definition isinstance_CookieJar (v : value) : M bool :=
  fun h => (Ok (bool_decide (is_Some (as_jar h v))), h).

(** The key of a cookie made from a bare name: default domain and path. *)
Definition cookie_key (name : string) : string * string * string :=
  ("", "/", name).

#[global] Instance cookie_key_inj : Inj (=) (=) cookie_key.
Proof. by intros n1 n2 [= ->]. Qed.

(** Modelled from the spec: [cookies.cookiejar_from_dict] is imported by
    sessions.py but its module is not part of the sources.  Section 4.2,
    fromMapping: a fresh jar with one cookie per mapping entry (name,
    value) under the default domain and path; [request] also calls it on
    an absent mapping, which gives an empty jar. *)
Definition cookiejar_from_dict (cookie_dict : value) : M value :=
  match cookie_dict with
  | VNone => alloc (OJar ∅)
  | _ =>
      let* h := read_heap in
      match as_dict h cookie_dict with
      | Some d => alloc (OJar (kmap cookie_key d))
      | None => raise TypeError
      end
  end.

(** Modelled from the spec: iteration over a jar (section 3, Cookie jar)
    yields its cookies, each a key with its value. *)
Definition jar_cookies (v : value)
  : M (list (string * string * string * value)) :=
  fun h => match as_jar h v with
           | Some j => (Ok (map_to_list j), h)
           | None => (Raise TypeError, h)
           end.

(** Modelled from the spec: [set(cookie)] is an upsert by key (section 3). *)
Definition set_cookie (v : value) (c : string * string * string * value)
  : M unit :=
  fun h => match v, as_jar h v with
           | VRef l, Some j => store l (OJar (<[c.1 := c.2]> j)) h
           | _, _ => (Raise AttributeError, h)
           end.

(** Modelled from the spec: [cookies.remove_cookie_by_name] is imported by
    sessions.py but its module is not part of the sources.  Section 4.2,
    removeByName: deletes every cookie of the jar whose name matches,
    whatever its domain and path. *)
Definition remove_cookie_by_name (v : value) (name : string) : M unit :=
  fun h => match v, as_jar h v with
           | VRef l, Some j =>
               store l (OJar (filter (λ c, c.1.2 ≠ name) j)) h
           | _, _ => (Raise TypeError, h)
           end.

(** The names a dict maps to [None]:
    [[name for name in cookies if cookies[name] is None]]. *)
Definition none_names (its : list (string * value)) : list string :=
  (filter (λ kv, is_none kv.2 = true) its).*1.

(** ** Session *)

Definition __attrs__ : list string :=
  ["headers"; "cookies"; "auth"; "timeout"; "proxies"; "hooks";
   "params"; "config"; "verify"; "cert"; "prefetch"].

(** Modelled from the spec: [PoolManager] comes from the bundled urllib3,
    which is not part of the sources.  Section 2, ConnectionPoolHandle: an
    opaque handle parameterized by pool count and per-pool maximum size. *)
Definition PoolManager (num_pools maxsize : value) : M value :=
  alloc (OPool num_pools maxsize).

(** sessions.py, lines 143-147 *)
Definition init_poolmanager (self : loc) : M unit :=
  let* config := getattr self "config" in
  let* num_pools := dict_get config "pool_connections" in
  let* config := getattr self "config" in
  let* maxsize := dict_get config "pool_maxsize" in
  let* pm := PoolManager num_pools maxsize in
  setattr self "poolmanager" pm.

(** sessions.py, lines 428-429 *)
Definition __getstate__ (self : loc) : M value :=
  let* its := mapM (fun attr =>
                let* v := getattr_default self attr VNone in
                ret (attr, v)) __attrs__ in
  alloc (ODict (dict_of_pairs its)).

(** sessions.py, lines 431-435 *)
Definition __setstate__ (self : loc) (state : value) : M unit :=
  let* its := dict_items state in
  for_ its (fun '(attr, v) => setattr self attr v) ;;;
  init_poolmanager self.

(** The entries [__getstate__] collects: each tracked attribute with its
    value, [None] standing for a missing one. *)
Definition state_items (attrs : gmap string value) (names : list string)
  : list (string * value) :=
  (λ a, (a, default VNone (attrs !! a))) <$> names.

(** Restoring from a snapshot: the unpickling protocol makes a blank
    instance of the class and hands the snapshot to [__setstate__]. *)
Definition restore (state : value) : M value :=
  let* new := alloc (OInst ∅) in
  match new with
  | VRef l => __setstate__ l state ;;; ret new
  | _ => raise TypeError
  end.

(** The keyword parameters of [request] (lines 170-185). *)
Definition request_params : list string :=
  ["params"; "data"; "headers"; "cookies"; "files"; "auth"; "timeout";
   "allow_redirects"; "proxies"; "hooks"; "return_response"; "config";
   "prefetch"; "verify"; "cert"].

(** A keyword argument, or the default of the signature. *)
Definition kwarg (kw : gmap string value) (name : string) (dflt : value)
  : value :=
  default dflt (kw !! name).

(** The keys of the [args] that [request] prepares (lines 248-266). *)
Definition args_keys : list string :=
  ["method"; "url"; "data"; "params"; "headers"; "cookies"; "files";
   "auth"; "hooks"; "timeout"; "allow_redirects"; "proxies"; "config";
   "prefetch"; "verify"; "cert"; "_poolmanager"].

(** [kwargs.setdefault(k, v)] on the keyword arguments of a call. *)
Definition kw_setdefault (kw : gmap string value) (k : string) (v : value)
  : gmap string value :=
  match kw !! k with
  | Some _ => kw
  | None => <[k := v]> kw
  end.

(** [args[k]] *)
Definition args_item (args : gmap string value) (k : string) : M value :=
  match args !! k with
  | Some v => ret v
  | None => raise (KeyError k)
  end.


(** ** Frames *)

(** [kept Φ h h']: [h'] has every object of [h] that [Φ] selects, at the
    same location and unchanged; objects may have been added. *)
Definition kept (Φ : loc → object → Prop) (h h' : heap) : Prop :=
  (length h ≤ length h')%nat ∧
  ∀ l o, h !! l = Some o → Φ l o → h' !! l = Some o.

(** [frames Φ m]: no run of [m], returning or raising, changes an object
    that [Φ] selects. *)
Definition frames (Φ : loc → object → Prop) {A} (m : M A) : Prop :=
  ∀ h, kept Φ h (m h).2.

(** Operations that only read the store. *)
Definition reads {A} (m : M A) : Prop := ∀ h, (m h).2 = h.

(** Every object, every object but the dicts, every object but the jars. *)
Definition any_object : loc → object → Prop := λ _ _, True.

Definition not_dict : loc → object → Prop :=
  λ _ o, match o with ODict _ => False | _ => True end.

Definition not_jar : loc → object → Prop :=
  λ _ o, match o with OJar _ => False | _ => True end.

(** The dicts other than the one at [lc], and everything that is not a
    dict. *)
Definition dict_only_at (lc : loc) : loc → object → Prop :=
  λ l o, match o with ODict _ => l = lc | _ => True end.

(** Everything but the jars and the dict a value refers to. *)
Definition not_jar_nor (v : value) : loc → object → Prop :=
  λ l o, match o with
         | OJar _ => False
         | ODict _ => VRef l ≠ v
         | _ => True
         end.

(** Every object but the one at [self]. *)
Definition other_than (self : loc) : loc → object → Prop := λ l _, l ≠ self.

(** An operation that returns from every store, and only adds objects. *)
Definition only_allocates {A} (m : M A) : Prop :=
  ∀ h, ∃ a t, m h = (Ok a, h ++ t).

(** The instances and the pool handles. *)
Definition inst_or_pool : loc → object → Prop :=
  λ _ o, match o with OInst _ | OPool _ _ => True | _ => False end.

(** Whether a run returned, and whether a run of [request_build] returned
    a descriptor object. *)
Definition is_ok {A} (r : res A) : bool :=
  match r with Ok _ => true | Raise _ => false end.

Definition is_built (r : res (value * gmap string value)) : bool :=
  match r with Ok (VRef _, _) => true | _ => false end.

(** ** Well-formed sessions and calls *)

(** Two objects of the same kind; instances and pool handles only count
    as the same kind when they are equal. *)
Definition same_kind (o o' : object) : Prop :=
  match o, o' with
  | ODict _, ODict _ => True
  | OJar _, OJar _ => True
  | _, _ => o = o'
  end.

(** [evolves h h']: every object of [h] is still there in [h'], as an
    object of the same kind. *)
Definition evolves (h h' : heap) : Prop :=
  (length h ≤ length h')%nat ∧
  ∀ l o, h !! l = Some o → ∃ o', h' !! l = Some o' ∧ same_kind o o'.


(** A value that is not a reference. *)
Definition scalar (v : value) : Prop := ∀ l, v ≠ VRef l.

(** A dict, or [None]. *)
Definition dict_or_none (h : heap) (v : value) : Prop :=
  v = VNone ∨ is_Some (as_dict h v).




(** The keyword parameters of the constructor (lines 68-79). *)
Definition init_params : list string :=
  ["headers"; "cookies"; "auth"; "timeout"; "proxies"; "hooks"; "params";
   "config"; "prefetch"; "verify"; "cert"].

(** Constructor arguments of the expected shapes: parameters of the
    constructor only, a dict or nothing for each mapping, a dict, a jar
    or nothing for the cookies, and plain values for the rest. *)
Definition wf_init (h : heap) (kw : gmap string value) : Prop :=
  forallb (λ k, bool_decide (k ∈ init_params)) (map_to_list kw).*1 = true
  ∧ (∀ k, k ∈ ["headers"; "proxies"; "hooks"; "params"; "config"] →
          dict_or_none h (kwarg kw k VNone))
  ∧ (dict_or_none h (kwarg kw "cookies" VNone)
     ∨ is_Some (as_jar h (kwarg kw "cookies" VNone)))
  ∧ (∀ a, a ∈ ["auth"; "timeout"; "verify"; "cert"; "prefetch"] →
          scalar (kwarg kw a VNone)).

(** ** A concrete session and call *)

(** A session with two cookies, one hook and the pool sizes in its
    config; then the dicts a caller passes as cookies, headers and hooks. *)
Definition ex_attrs : gmap string value :=
  list_to_map
    [("headers", VRef 0); ("cookies", VRef 1); ("auth", VNone);
     ("timeout", VNone); ("proxies", VRef 2); ("hooks", VRef 3);
     ("params", VRef 4); ("config", VRef 5); ("verify", VBool true);
     ("cert", VNone); ("prefetch", VBool true); ("poolmanager", VRef 6)].

Definition ex_store : heap :=
  [ODict ∅;
   OJar {[ ("", "/", "a") := VInt 1; ("", "/", "b") := VInt 2 ]};
   ODict ∅;
   ODict {[ "response" := VFun 0; "pre_request" := VFun 3 ]};
   ODict ∅;
   ODict {[ "pool_connections" := VInt 10; "pool_maxsize" := VInt 10 ]};
   OPool (VInt 10) (VInt 10);
   OInst ex_attrs;
   ODict {[ "b" := VNone; "c" := VInt 3 ]};
   ODict {[ "Accept" := VSeq [VStr "text/html"; VStr "text/plain"] ]};
   ODict {[ "response" := VFun 1; "args" := VFun 2 ]};
   ODict {[ "a" := VInt 9; "b" := VNone ]}].

Definition ex_kwargs : gmap string value :=
  {[ "cookies" := VRef 8; "headers" := VRef 9; "hooks" := VRef 10 ]}.

(** The same store with a jar of the caller's besides, and calls that
    pass that jar, a timeout and params, or an unknown keyword. *)
Definition ex_jar : jar :=
  {[ ("", "/", "a") := VInt 7; ("", "/", "z") := VInt 8 ]}.

Definition ex_store_jar : heap := ex_store ++ [OJar ex_jar].

Definition ex_kwargs_jar : gmap string value := {[ "cookies" := VRef 12 ]}.

Definition ex_kwargs_plain : gmap string value :=
  {[ "timeout" := VInt 30; "params" := VRef 11 ]}.


(** Default configuration entries, a copy operation for plain values, and
    constructor arguments: a config dict and a cookie jar of the caller's. *)
Definition ex_defaults : list (string * value) :=
  [("pool_connections", VInt 10); ("pool_maxsize", VInt 10);
   ("max_retries", VInt 0)].

Definition ex_deepcopy (v : value) : M value := ret v.

Definition ex_init_store : heap :=
  [ODict {[ "pool_maxsize" := VInt 4 ]}; OJar ex_jar].

Definition ex_init_kwargs : gmap string value :=
  {[ "config" := VRef 0; "cookies" := VRef 1; "timeout" := VInt 30 ]}.

Definition ex_header_expand (v : value) : value := VSeq [v].

Definition ex_dispatch_hook (key : string) (hooks : value)
    (hook_data : gmap string value) : M (gmap string value) :=
  ret hook_data.

Definition ex_send (r : loc) (prefetch : value) : M unit :=
  raise (TransportError 7).

(** ** Session.request and the verb methods *)

Section Request.

(** [utils.header_expand]: the wire form of a header value; an external
    capability of which only the call is in scope.  The embedding takes
    the call to return: a header value on which it raises (line 246) is
    outside the model, so the theorems on calls with headers to expand
    are about the runs that return. *)
Variable header_expand : value → value.

(** [hooks.dispatch_hook(key, hooks, hook_data)]: the external hook chain. *)
Variable dispatch_hook :
  string → value → gmap string value → M (gmap string value).

(** [Request.send(prefetch=...)]: the external send step, which may raise. *)
Variable send : loc → value → M unit.

(** The process-wide safe mode toggle. *)
Variable safe_mode : bool.

(** [defaults.defaults]: the items of the module-level default
    configuration, as [list(defaults.items())] yields them. *)
Variable defaults : list (string * value).

(** [copy.deepcopy]: an external capability of which only the call is in
    scope. *)
Variable deepcopy : value → M value.

(** Lines 239-241: use session's hooks as defaults. *)
Definition seed_hooks (self : loc) (hooks : value) : M unit :=
  let* session_hooks := getattr self "hooks" in
  let* its := dict_items session_hooks in
  for_ its (fun '(key, cb) => dict_setdefault hooks key cb).

(** Lines 243-246: expand header values. *)
Definition expand_headers (headers : value) : M unit :=
  let* nonempty := truthy headers in
  if nonempty then
    let* its := dict_items headers in
    for_ its (fun '(k, v) => dict_setitem headers k (header_expand v))
  else ret tt.

(** Lines 268-285: merge session cookies into passed-in ones.  Returns
    [args] with its ["cookies"] entry set to the jar used for the call. *)
Definition merge_cookies (self : loc) (cookies : value)
    (args : gmap string value) : M (gmap string value) :=
  let* is_jar := isinstance_CookieJar cookies in
  let* found :=
    (if negb is_jar then
       let* j := cookiejar_from_dict cookies in
       let args := <["cookies" := j]> args in
       if negb (is_none cookies) then
         let* its := dict_items cookies in
         ret (args, Some (none_names its))
       else ret (args, None)
     else ret (args, None)) in
  let args := found.1 in
  let dead_cookies := found.2 in
  let* session_cookies := getattr self "cookies" in
  let* cs := jar_cookies session_cookies in
  for_ cs (fun cookie =>
    let* j := args_item args "cookies" in set_cookie j cookie) ;;;
  match dead_cookies with
  | Some names =>
      for_ names (fun name =>
        let* j := args_item args "cookies" in remove_cookie_by_name j name)
  | None => ret tt
  end ;;;
  ret args.

(** Lines 289-295: the body of the loop over the tracked attributes. *)
Definition merge_attr (self : loc) (args : gmap string value)
    (attr : string) : M (gmap string value) :=
  if String.eqb attr "cookies" then ret args
  else
    let* session_val := getattr_default self attr VNone in
    let local_val := default VNone (args !! attr) in
    let* v := merge_kwargs local_val session_val in
    ret (<[attr := v]> args).

(** Lines 287-295: merge local kwargs with session kwargs. *)
Definition merge_attrs (self : loc) (args : gmap string value)
  : M (gmap string value) :=
  foldM (merge_attr self) args __attrs__.

(** Lines 248-266: the provisional [args]. *)
Definition request_dict (method url : string)
    (data params headers cookies files auth hooks timeout allow_redirects
     proxies config prefetch verify cert poolmanager : value)
  : gmap string value :=
  <["method" := VStr method]> (
  <["url" := VStr url]> (
  <["data" := data]> (
  <["params" := params]> (
  <["headers" := headers]> (
  <["cookies" := cookies]> (
  <["files" := files]> (
  <["auth" := auth]> (
  <["hooks" := hooks]> (
  <["timeout" := timeout]> (
  <["allow_redirects" := allow_redirects]> (
  <["proxies" := proxies]> (
  <["config" := config]> (
  <["prefetch" := prefetch]> (
  <["verify" := verify]> (
  <["cert" := cert]> (
  <["_poolmanager" := poolmanager]> ∅)))))))))))))))).

(** A dict-valued parameter, or a new empty dict when it is [None]. *)
Definition or_new_dict (v : value) : M value :=
  if is_none v then alloc (ODict ∅) else ret v.

(** Lines 229-295 of [request]: from the keyword arguments of the call to
    the merged [args], before the hook chain sees them. *)
Definition request_args (self : loc) (method url : string)
    (kw : gmap string value) : M (gmap string value) :=
  if negb (forallb (λ k, bool_decide (k ∈ request_params))
             (map_to_list kw).*1)
  then raise TypeError
  else
    let method := upper method in
    let data := kwarg kw "data" VNone in
    let data := if is_none data then VSeq [] else data in
    let files := kwarg kw "files" VNone in
    let files := if is_none files then VSeq [] else files in
    let* headers := or_new_dict (kwarg kw "headers" VNone) in
    let* params := or_new_dict (kwarg kw "params" VNone) in
    let* hooks := or_new_dict (kwarg kw "hooks" VNone) in
    let prefetch := kwarg kw "prefetch" VNone in
    let* prefetch :=
      (if negb (is_none prefetch) then ret prefetch
       else getattr self "prefetch") in
    seed_hooks self hooks ;;;
    expand_headers headers ;;;
    let cookies := kwarg kw "cookies" VNone in
    let* a_params := from_key_val_list params in
    let* a_headers := from_key_val_list headers in
    let* a_hooks := from_key_val_list hooks in
    let* a_proxies := from_key_val_list (kwarg kw "proxies" VNone) in
    let* a_config := from_key_val_list (kwarg kw "config" VNone) in
    let* poolmanager := getattr self "poolmanager" in
    let args :=
      request_dict method url data a_params a_headers cookies files
        (kwarg kw "auth" VNone) a_hooks (kwarg kw "timeout" VNone)
        (kwarg kw "allow_redirects" (VBool true)) a_proxies a_config
        prefetch (kwarg kw "verify" VNone) (kwarg kw "cert" VNone)
        poolmanager in
    let* args := merge_cookies self cookies args in
    merge_attrs self args.

(** Modelled from the spec: [models.Request] is not part of the sources.
    Section 4.4, step 8: a request descriptor constructed from [args]. *)
Definition Request (args : gmap string value) : M value :=
  alloc (OInst args).

(** Modelled from the spec: [safe_mode.catch_exceptions_if_in_safe_mode]
    is imported by sessions.py but its module is not part of the sources.
    Section 7: with safe mode active the transport error is caught and a
    response carrying the error is returned instead; with safe mode
    inactive the error propagates unhandled. *)
Definition catch_exceptions_if_in_safe_mode (function : M value) : M value :=
  fun h =>
    if safe_mode then
      match function h with
      | (Raise (TransportError c), h') =>
          alloc (OInst {[ "error" := VExn (TransportError c) ]}) h'
      | other => other
      end
    else function h.

(** Lines 313-319. *)
Definition _send_request (self : loc) (r : value)
    (kwargs : gmap string value) : M value :=
  catch_exceptions_if_in_safe_mode
    (match r with
     | VRef lr =>
         send lr (default VNone (kwargs !! "prefetch")) ;;;
         getattr lr "response"
     | _ => raise AttributeError
     end).

(** Lines 297-304 of [request]: the hook chain, then the descriptor with
    its back-reference to the session. *)
Definition request_build (self : loc) (method url : string)
    (kw : gmap string value) : M (value * gmap string value) :=
  let* args := request_args self method url kw in
  let* hooks := args_item args "hooks" in
  let* args := dispatch_hook "args" hooks args in
  let* r := Request args in
  match r with
  | VRef lr => setattr lr "session" (VRef self)
  | _ => raise AttributeError
  end ;;;
  ret (r, args).

(** Lines 170-311. *)
Definition request (self : loc) (method url : string)
    (kw : gmap string value) : M value :=
  let* built := request_build self method url kw in
  let r := built.1 in
  let args := built.2 in
  let* send_it := truthy (kwarg kw "return_response" (VBool true)) in
  if negb send_it then ret r
  else _send_request self r args.

(** Lines 321-334. *)
Definition get (self : loc) (url : string) (kwargs : gmap string value)
  : M value :=
  let kwargs := kw_setdefault kwargs "allow_redirects" (VBool true) in
  request self "get" url kwargs.

(** Lines 336-349. *)
Definition options (self : loc) (url : string) (kwargs : gmap string value)
  : M value :=
  let kwargs := kw_setdefault kwargs "allow_redirects" (VBool true) in
  request self "options" url kwargs.

(** Lines 351-364. *)
Definition head (self : loc) (url : string) (kwargs : gmap string value)
  : M value :=
  let kwargs := kw_setdefault kwargs "allow_redirects" (VBool false) in
  request self "head" url kwargs.

(** Lines 366-380; [data] is a named parameter, so it is never in [kwargs]. *)
Definition post (self : loc) (url : string) (data : value)
    (kwargs : gmap string value) : M value :=
  request self "post" url (<["data" := data]> kwargs).

(** Lines 382-396. *)
Definition put (self : loc) (url : string) (data : value)
    (kwargs : gmap string value) : M value :=
  request self "put" url (<["data" := data]> kwargs).

(** Lines 398-412. *)
Definition patch (self : loc) (url : string) (data : value)
    (kwargs : gmap string value) : M value :=
  request self "patch" url (<["data" := data]> kwargs).

(** Lines 414-426. *)
Definition delete_ (self : loc) (url : string) (kwargs : gmap string value)
  : M value :=
  request self "delete" url kwargs.

(** The seven verb methods as one family, for statements about all of
    them; [data] is only looked at by post, put and patch. *)
Inductive verb := GET | OPTIONS | HEAD | POST | PUT | PATCH | DELETE.

Definition call_verb (v : verb) (self : loc) (url : string) (data : value)
    (kwargs : gmap string value) : M value :=
  match v with
  | GET => get self url kwargs
  | OPTIONS => options self url kwargs
  | HEAD => head self url kwargs
  | POST => post self url data kwargs
  | PUT => put self url data kwargs
  | PATCH => patch self url data kwargs
  | DELETE => delete_ self url kwargs
  end.

(** The method name and the keyword arguments a verb method hands to
    [request]. *)
Definition verb_method (v : verb) : string :=
  match v with
  | GET => "get" | OPTIONS => "options" | HEAD => "head" | POST => "post"
  | PUT => "put" | PATCH => "patch" | DELETE => "delete"
  end.


Definition verb_kwargs (v : verb) (data : value) (kwargs : gmap string value)
  : gmap string value :=
  match v with
  | GET | OPTIONS => kw_setdefault kwargs "allow_redirects" (VBool true)
  | HEAD => kw_setdefault kwargs "allow_redirects" (VBool false)
  | POST | PUT | PATCH => <["data" := data]> kwargs
  | DELETE => kwargs
  end.

(** [self.name = from_key_val_list(v or dflt)]: the form of lines 86,
    102, 106, 113 and 118, with [[]] or [{}] as [dflt]. *)
Definition init_mapping (self : loc) (name : string) (v : value)
    (dflt : M value) : M unit :=
  let* nonempty := truthy v in
  let* x := (if nonempty then ret v else dflt) in
  let* d := from_key_val_list x in
  setattr self name d.

(** Lines 132-133: seed the config with the defaults it does not have. *)
Definition seed_config (self : loc) : M unit :=
  for_ defaults (fun '(k, v) =>
    let* config := getattr self "config" in
    let* v' := deepcopy v in
    dict_setdefault config k v').

(** Lines 68-141. *)
Definition __init__ (self : loc) (kw : gmap string value) : M unit :=
  if negb (forallb (λ k, bool_decide (k ∈ init_params))
             (map_to_list kw).*1)
  then raise TypeError
  else
    init_mapping self "headers" (kwarg kw "headers" VNone)
      (ret (VSeq [])) ;;;
    setattr self "auth" (kwarg kw "auth" VNone) ;;;
    setattr self "timeout" (kwarg kw "timeout" VNone) ;;;
    init_mapping self "proxies" (kwarg kw "proxies" VNone)
      (ret (VSeq [])) ;;;
    init_mapping self "hooks" (kwarg kw "hooks" VNone)
      (alloc (ODict ∅)) ;;;
    init_mapping self "params" (kwarg kw "params" VNone)
      (ret (VSeq [])) ;;;
    init_mapping self "config" (kwarg kw "config" VNone)
      (alloc (ODict ∅)) ;;;
    setattr self "prefetch" (kwarg kw "prefetch" (VBool true)) ;;;
    setattr self "verify" (kwarg kw "verify" (VBool true)) ;;;
    setattr self "cert" (kwarg kw "cert" VNone) ;;;
    seed_config self ;;;
    init_poolmanager self ;;;
    let cookies := kwarg kw "cookies" VNone in
    let* is_jar := isinstance_CookieJar cookies in
    if is_jar then setattr self "cookies" cookies
    else
      let* j := cookiejar_from_dict cookies in
      setattr self "cookies" j.

(** A call of the class [Session] with keyword arguments: a blank
    instance, initialised by [__init__]. *)
Definition Session (kwargs : gmap string value) : M value :=
  let* new := alloc (OInst ∅) in
  match new with
  | VRef l => __init__ l kwargs ;;; ret new
  | _ => raise TypeError
  end.

(** Lines 438-445. *)
Definition session (kwargs : gmap string value) : M value :=
  Session kwargs.

(** The hook chain of a call gave the entry [key] of the arguments back
    as it got it: [args], the arguments after the chain, agree on [key]
    with the arguments lines 229-295 prepared. *)
Definition hook_kept (key : string) (self : loc) (method url : string)
    (kw : gmap string value) (h : heap) (args : gmap string value) : Prop :=
  ∀ args0 h0,
    request_args self method url kw h = (Ok args0, h0) →
    args !! key = args0 !! key.

(** ** Reasoning about the store *)

Lemma bind_ok {A B} (m : M A) (k : A → M B) h a h' :
  m h = (Ok a, h') → bind m k h = k a h'.
Proof. intros E. unfold bind. by rewrite E. Qed.


(** Run the first step of a sequence with a known result. *)
Ltac mrun E := unfold bind at 1; rewrite E.

(** Decide the tests on the shape of a value. *)
Ltac msimpl := cbv beta iota delta [is_none is_str negb].

Lemma as_dict_lookup h l d :
  h !! l = Some (ODict d) → as_dict h (VRef l) = Some d.
Proof. intros E. simpl. by rewrite E. Qed.

Lemma as_dict_inv h v d :
  as_dict h v = Some d → ∃ l, v = VRef l ∧ h !! l = Some (ODict d).
Proof.
  destruct v as [| | | | | | |l]; simpl; try discriminate.
  destruct (h !! l) as [[]|] eqn:E; try discriminate.
  intros [= ->]. eauto.
Qed.

Lemma lookup_alloc_old (h : heap) o l x :
  h !! l = Some x → (h ++ [o]) !! l = Some x.
Proof. intros E. by apply lookup_app_l_Some. Qed.

Lemma lookup_alloc_new (h : heap) o : (h ++ [o]) !! length h = Some o.
Proof. by rewrite list_lookup_middle. Qed.

Lemma insert_alloc_new (h : heap) o o' :
  <[length h := o']> (h ++ [o]) = h ++ [o'].
Proof.
  replace (length h) with (length h + 0) at 1 by lia.
  by rewrite insert_app_r.
Qed.

Lemma lookup_store_eq (h : heap) l o x :
  h !! l = Some x → <[l := o]> h !! l = Some o.
Proof. intros E. apply list_lookup_insert_eq. by eapply lookup_lt_Some. Qed.

Lemma for_setitem its : ∀ h l (d : gmap string value),
  h !! l = Some (ODict d) →
  for_ its (fun '(k, x) => dict_setitem (VRef l) k x) h
  = (Ok tt, <[l := ODict (upd_all its d)]> h).
Proof.
  induction its as [|[k x] its IH]; intros h l d E; simpl.
  - unfold ret. by rewrite list_insert_id.
  - unfold bind, dict_setitem at 1. rewrite (as_dict_lookup _ _ _ E).
    unfold store. rewrite (IH _ l (<[k:=x]> d)).
    + by rewrite list_insert_insert_eq.
    + by eapply lookup_store_eq.
Qed.

Lemma for_delitem its : ∀ h l d,
  h !! l = Some (ODict d) →
  NoDup its.*1 →
  (∀ k v, (k, v) ∈ its → is_Some (d !! k)) →
  for_ its (fun '(k, v) =>
    if is_none v then dict_delitem (VRef l) k else ret tt) h
  = (Ok tt, <[l := ODict (purge its d)]> h).
Proof.
  induction its as [|[k x] its IH]; intros h l d E ND Hin; simpl.
  - unfold ret. by rewrite list_insert_id.
  - apply NoDup_cons in ND as [Hk ND].
    destruct (is_none x) eqn:Ex.
    + unfold bind, dict_delitem at 1. rewrite (as_dict_lookup _ _ _ E).
      destruct (Hin k x) as [y Hy]; [left|]. rewrite Hy.
      unfold store. rewrite (IH _ l (delete k d)); auto.
      * by rewrite list_insert_insert_eq.
      * by eapply lookup_store_eq.
      * intros k' v' Hk'. rewrite lookup_delete_ne.
        { apply (Hin k' v'). by right. }
        intros ->. apply Hk. apply list_elem_of_fmap. by exists (k', v').
    + unfold bind, ret. apply IH; auto.
      intros k' v' Hk'. apply (Hin k' v'). by right.
Qed.

Lemma lookup_upd_all_notin `{Countable K} {V} (its : list (K * V)) :
  ∀ (d : gmap K V) k,
  k ∉ its.*1 → upd_all its d !! k = d !! k.
Proof.
  induction its as [|[k' x] its IH]; intros d k Hk; simpl; [done|].
  rewrite IH.
  - rewrite lookup_insert_ne; [done|]. intros ->. apply Hk. by left.
  - intros Hin. apply Hk. by right.
Qed.

Lemma lookup_upd_all_in `{Countable K} {V} (its : list (K * V)) :
  ∀ (d : gmap K V) k v,
  NoDup its.*1 → (k, v) ∈ its → upd_all its d !! k = Some v.
Proof.
  induction its as [|[k' x] its IH]; intros d k v ND Hin.
  - by apply elem_of_nil in Hin.
  - apply NoDup_cons in ND as [Hk ND]. simpl.
    apply elem_of_cons in Hin as [[= -> ->]|Hin].
    + rewrite lookup_upd_all_notin; [|done]. by rewrite lookup_insert_eq.
    + by apply IH.
Qed.

Lemma lookup_purge_none its : ∀ d k,
  (k, VNone) ∈ its → purge its d !! k = None.
Proof.
  assert (Hgone : ∀ its d k, d !! k = None → purge its d !! k = None).
  { clear. intros its.
    induction its as [|[k' x] its IH]; intros d k E; simpl; [exact E|].
    apply IH. destruct (is_none x); [|done].
    destruct (decide (k' = k)) as [->|Hne];
      [by rewrite lookup_delete_eq | by rewrite lookup_delete_ne]. }
  induction its as [|[k' x] its IH]; intros d k Hin.
  - by apply elem_of_nil in Hin.
  - simpl. apply elem_of_cons in Hin as [[= <- <-]|Hin].
    + simpl. apply Hgone. by rewrite lookup_delete_eq.
    + by apply IH.
Qed.

Lemma lookup_purge_keep its : ∀ d k,
  (k, VNone) ∉ its → purge its d !! k = d !! k.
Proof.
  induction its as [|[k' x] its IH]; intros d k Hk; simpl; [done|].
  rewrite IH.
  - destruct (is_none x) eqn:Ex; [|done].
    rewrite lookup_delete_ne; [done|]. intros ->. apply Hk.
    destruct x; try discriminate. by left.
  - intros H. apply Hk. by right.
Qed.

Lemma value_none_dec (v : value) : v = VNone ∨ v ≠ VNone.
Proof. destruct v; (by left) || (by right). Qed.

Lemma upd_all_map_to_list `{Countable K} {V} (dl dd : gmap K V) :
  upd_all (map_to_list dl) dd = dl ∪ dd.
Proof.
  apply map_eq. intros k. rewrite lookup_union.
  destruct (dl !! k) as [v|] eqn:E.
  - rewrite (lookup_upd_all_in _ _ k v).
    + by destruct (dd !! k).
    + apply NoDup_fst_map_to_list.
    + by apply elem_of_map_to_list.
  - rewrite lookup_upd_all_notin.
    + by destruct (dd !! k).
    + intros Hin. apply list_elem_of_fmap in Hin as [[k' v] [-> Hin]].
      apply elem_of_map_to_list in Hin. simpl in E. congruence.
Qed.

Lemma lookup_merged dl dd k :
  merged dl dd !! k = merge_entry (dl !! k) (dd !! k).
Proof.
  unfold merged. rewrite lookup_merge.
  by destruct (dl !! k), (dd !! k).
Qed.

Lemma purge_upd_all_merged (dl dd : gmap string value) :
  purge (map_to_list dl) (upd_all (map_to_list dl) dd) = merged dl dd.
Proof.
  apply map_eq. intros k. rewrite lookup_merged.
  destruct (dl !! k) as [v|] eqn:E.
  - destruct (value_none_dec v) as [->|Hv].
    + rewrite lookup_purge_none; [done|]. by apply elem_of_map_to_list.
    + rewrite lookup_purge_keep.
      * rewrite upd_all_map_to_list, lookup_union, E.
        destruct v, (dd !! k); done.
      * intros Hin. apply elem_of_map_to_list in Hin. congruence.
  - rewrite lookup_purge_keep.
    + rewrite upd_all_map_to_list, lookup_union, E. by destruct (dd !! k).
    + intros Hin. apply elem_of_map_to_list in Hin. congruence.
Qed.

(** The overlay-and-delete step of [merge_kwargs] on two dicts of the
    store: a new dict is allocated and nothing else changes. *)
Lemma merge_overlay h ll ld dl dd :
  h !! ll = Some (ODict dl) →
  h !! ld = Some (ODict dd) →
  (let* kwargs := dict_copy (VRef ld) in
   dict_update kwargs (VRef ll) ;;;
   let* its := dict_items (VRef ll) in
   for_ its (fun '(k, v) =>
     if is_none v then dict_delitem kwargs k else ret tt) ;;;
   ret kwargs) h
  = (Ok (VRef (length h)), h ++ [ODict (merged dl dd)]).
Proof.
  intros El Ed.
  assert (El' : ∀ o, (h ++ [o]) !! ll = Some (ODict dl))
    by (intros; by apply lookup_alloc_old).
  unfold bind at 1, dict_copy. rewrite (as_dict_lookup _ _ _ Ed).
  unfold alloc.
  unfold bind at 1, dict_update, bind at 1, dict_items at 1.
  rewrite (as_dict_lookup _ _ _ (El' _)).
  rewrite (for_setitem _ _ _ dd) by apply lookup_alloc_new.
  rewrite insert_alloc_new.
  unfold bind at 1, dict_items at 1.
  rewrite (as_dict_lookup _ _ _ (El' _)).
  unfold bind at 1.
  rewrite (for_delitem _ _ _ (upd_all (map_to_list dl) dd)).
  - rewrite insert_alloc_new, purge_upd_all_merged. done.
  - apply lookup_alloc_new.
  - apply NoDup_fst_map_to_list.
  - intros k v Hin. apply elem_of_map_to_list in Hin.
    rewrite upd_all_map_to_list, lookup_union, Hin.
    destruct (dd !! k); eauto.
Qed.

Lemma from_key_val_list_dict h l d :
  h !! l = Some (ODict d) →
  from_key_val_list (VRef l) h = (Ok (VRef l), h).
Proof.
  intros E. unfold from_key_val_list, bind, read_heap.
  by rewrite (as_dict_lookup _ _ _ E).
Qed.

Lemma hasattr_items_dict h l d :
  h !! l = Some (ODict d) → hasattr_items (VRef l) h = (Ok true, h).
Proof.
  intros E. unfold hasattr_items. rewrite (as_dict_lookup _ _ _ E).
  rewrite bool_decide_eq_true_2; eauto.
Qed.

Lemma merge_kwargs_dicts h ll ld dl dd :
  h !! ll = Some (ODict dl) →
  h !! ld = Some (ODict dd) →
  merge_kwargs (VRef ll) (VRef ld) h
  = (Ok (VRef (length h)), h ++ [ODict (merged dl dd)]).
Proof.
  intros El Ed. unfold merge_kwargs. msimpl.
  mrun (hasattr_items_dict _ _ _ Ed). msimpl.
  mrun (from_key_val_list_dict _ _ _ Ed).
  mrun (from_key_val_list_dict _ _ _ El).
  by apply merge_overlay.
Qed.

Lemma merge_kwargs_pairs h l ps ld dd :
  as_pairs l = Some ps →
  h !! ld = Some (ODict dd) →
  merge_kwargs (VSeq l) (VRef ld) h
  = (Ok (VRef (S (length h))),
     h ++ [ODict (dict_of_pairs ps); ODict (merged (dict_of_pairs ps) dd)]).
Proof.
  intros El Ed. unfold merge_kwargs. msimpl.
  mrun (hasattr_items_dict _ _ _ Ed). msimpl.
  mrun (from_key_val_list_dict _ _ _ Ed).
  unfold bind at 1, from_key_val_list. rewrite El. unfold alloc at 1.
  rewrite (merge_overlay _ _ _ (dict_of_pairs ps) dd).
  - rewrite length_app, <- app_assoc. simpl.
    by replace (length h + 1) with (S (length h)) by lia.
  - apply lookup_alloc_new.
  - by apply lookup_alloc_old.
Qed.

Lemma hasattr_items_other h v :
  as_dict h v = None → hasattr_items v h = (Ok false, h).
Proof.
  intros E. unfold hasattr_items. rewrite E.
  rewrite bool_decide_eq_false_2; [done|]. by intros [? ?].
Qed.

Lemma from_key_val_list_not_dict h l :
  as_dict h (VRef l) = None →
  from_key_val_list (VRef l) h = (Raise TypeError, h).
Proof.
  intros E. unfold from_key_val_list, bind, read_heap. by rewrite E.
Qed.

(** Every run of [merge_kwargs] leaves the objects of the store as they
    were (it only allocates), and never ends in a [KeyError]. *)
Lemma merge_kwargs_run local_kwarg default_kwarg h :
  ∃ r t, merge_kwargs local_kwarg default_kwarg h = (r, h ++ t)
         ∧ ∀ k, r ≠ Raise (KeyError k).
Proof.
  assert (Hsame : ∀ r : res value, (∀ k, r ≠ Raise (KeyError k)) →
            ∃ r' t, (r, h) = (r', h ++ t) ∧ ∀ k, r' ≠ Raise (KeyError k)).
  { intros r Hr. exists r, []. by rewrite app_nil_r. }
  destruct (as_dict h default_kwarg) as [dd|] eqn:Ed.
  - apply as_dict_inv in Ed as (ld & -> & Ed).
    destruct local_kwarg as [| | | |l| | |ll];
      try (unfold merge_kwargs; msimpl; by apply Hsame);
      try (unfold merge_kwargs; msimpl;
           mrun (hasattr_items_dict _ _ _ Ed); msimpl;
           mrun (from_key_val_list_dict _ _ _ Ed);
           unfold bind at 1, from_key_val_list, raise; by apply Hsame).
    + destruct (as_pairs l) as [ps|] eqn:El.
      * rewrite (merge_kwargs_pairs _ _ _ _ _ El Ed). eauto.
      * unfold merge_kwargs; msimpl.
        mrun (hasattr_items_dict _ _ _ Ed); msimpl.
        mrun (from_key_val_list_dict _ _ _ Ed).
        unfold bind at 1, from_key_val_list, raise. rewrite El.
        by apply Hsame.
    + destruct (as_dict h (VRef ll)) as [dl|] eqn:El.
      * apply as_dict_inv in El as (? & [= <-] & El).
        rewrite (merge_kwargs_dicts _ _ _ _ _ El Ed). eauto.
      * unfold merge_kwargs; msimpl.
        mrun (hasattr_items_dict _ _ _ Ed); msimpl.
        mrun (from_key_val_list_dict _ _ _ Ed).
        mrun (from_key_val_list_not_dict _ _ El). by apply Hsame.
  - unfold merge_kwargs.
    destruct (is_none default_kwarg); [by apply Hsame|].
    destruct (is_str local_kwarg); [by apply Hsame|].
    destruct (is_none local_kwarg); [by apply Hsame|].
    mrun (hasattr_items_other _ _ Ed). msimpl. by apply Hsame.
Qed.

(** ** Claims on [merge_kwargs] *)

(** C2. For a local mapping and a session-default mapping, [merge_kwargs]
    returns a new mapping in which every key the local mapping sets to
    [None] is absent (also when the session default has it), every other
    local key carries the local value, and every key the local mapping
    does not mention keeps its session-default entry; the two inputs and
    the rest of the store are left as they were. *)
Theorem merge_kwargs_none_deletes h ll ld (dl dd : gmap string value) :
  h !! ll = Some (ODict dl) →
  h !! ld = Some (ODict dd) →
  ∃ m, merge_kwargs (VRef ll) (VRef ld) h
       = (Ok (VRef (length h)), h ++ [ODict m])
     ∧ (∀ k, dl !! k = Some VNone → m !! k = None)
     ∧ (∀ k v, dl !! k = Some v → v ≠ VNone → m !! k = Some v)
     ∧ (∀ k, dl !! k = None → m !! k = dd !! k).
Proof.
  intros El Ed. exists (merged dl dd). split; [by apply merge_kwargs_dicts|].
  repeat split.
  - intros k E. by rewrite lookup_merged, E.
  - intros k v E Hv. rewrite lookup_merged, E. by destruct v.
  - intros k E. by rewrite lookup_merged, E.
Qed.

(** C3 (amended). With the session default absent ([None]),
    [merge_kwargs] returns the local value unchanged, whatever it is
    (also [None]), and does not touch the store. *)
Theorem merge_kwargs_default_absent local_kwarg h :
  merge_kwargs local_kwarg VNone h = (Ok local_kwarg, h).
Proof. reflexivity. Qed.

(** C6. No run of [merge_kwargs] ends in a [KeyError]: whenever the
    deletion loop is reached, each key it deletes was put into the new
    dict by the preceding update. *)
Theorem merge_kwargs_no_KeyError local_kwarg default_kwarg h k :
  (merge_kwargs local_kwarg default_kwarg h).1 ≠ Raise (KeyError k).
Proof.
  destruct (merge_kwargs_run local_kwarg default_kwarg h) as (r & t & E & Hr).
  rewrite E. apply Hr.
Qed.

(** ** Snapshot export and restore *)

Lemma getattr_default_inst h self attrs name dflt :
  h !! self = Some (OInst attrs) →
  getattr_default self name dflt h = (Ok (default dflt (attrs !! name)), h).
Proof. intros E. unfold getattr_default, as_inst. by rewrite E. Qed.

Lemma getattr_inst h self attrs name v :
  h !! self = Some (OInst attrs) →
  attrs !! name = Some v →
  getattr self name h = (Ok v, h).
Proof. intros E Ev. unfold getattr, as_inst. by rewrite E, Ev. Qed.

Lemma dict_get_dict h l d k :
  h !! l = Some (ODict d) →
  dict_get (VRef l) k h = (Ok (default VNone (d !! k)), h).
Proof. intros E. unfold dict_get. by rewrite (as_dict_lookup _ _ _ E). Qed.

Lemma setattr_inst h self attrs name v :
  h !! self = Some (OInst attrs) →
  setattr self name v h = (Ok tt, <[self := OInst (<[name := v]> attrs)]> h).
Proof. intros E. unfold setattr, as_inst. by rewrite E. Qed.

Lemma for_setattr its : ∀ h l attrs,
  h !! l = Some (OInst attrs) →
  for_ its (fun '(attr, v) => setattr l attr v) h
  = (Ok tt, <[l := OInst (upd_all its attrs)]> h).
Proof.
  induction its as [|[k x] its IH]; intros h l attrs E; simpl.
  - unfold ret. by rewrite list_insert_id.
  - mrun (setattr_inst _ _ _ k x E).
    rewrite (IH _ l (<[k:=x]> attrs)).
    + by rewrite list_insert_insert_eq.
    + by eapply lookup_store_eq.
Qed.

Lemma mapM_getattr h self attrs names :
  h !! self = Some (OInst attrs) →
  mapM (fun attr =>
          let* v := getattr_default self attr VNone in ret (attr, v))
       names h
  = (Ok (state_items attrs names), h).
Proof.
  intros E. induction names as [|a names IH]; simpl; [done|].
  unfold bind at 1. unfold bind at 1.
  rewrite (getattr_default_inst _ _ _ a VNone E). unfold ret at 1.
  by mrun IH.
Qed.

Lemma NoDup_attrs : NoDup __attrs__.
Proof. apply (bool_decide_unpack _). by vm_compute. Qed.

Lemma state_items_fst attrs names : (state_items attrs names).*1 = names.
Proof.
  unfold state_items.
  induction names as [|a names IH]; [done|]. rewrite !fmap_cons. simpl.
  by f_equal.
Qed.

Lemma lookup_state attrs names a :
  NoDup names →
  dict_of_pairs (state_items attrs names) !! a
  = if bool_decide (a ∈ names) then Some (default VNone (attrs !! a))
    else None.
Proof.
  intros ND. change (dict_of_pairs ?ps) with (upd_all ps ∅).
  case_bool_decide as Ha.
  - apply lookup_upd_all_in.
    + by rewrite state_items_fst.
    + unfold state_items. apply list_elem_of_fmap. eauto.
  - rewrite lookup_upd_all_notin; [done|]. by rewrite state_items_fst.
Qed.

(** C8. Exporting the snapshot of a session and restoring a session from
    it: the snapshot holds exactly the tracked attributes (so never the
    pool handle), the restored instance is a new object whose tracked
    attributes equal the original's, and its pool handle is a newly
    constructed one sized from the restored config. *)
Theorem getstate_setstate_round_trip h self attrs lcfg cfg :
  h !! self = Some (OInst attrs) →
  (∀ a, a ∈ __attrs__ → is_Some (attrs !! a)) →
  attrs !! "config" = Some (VRef lcfg) →
  h !! lcfg = Some (ODict cfg) →
  ∃ state attrs',
    __getstate__ self h = (Ok (VRef (length h)), h ++ [ODict state])
    ∧ (∀ a, is_Some (state !! a) ↔ a ∈ __attrs__)
    ∧ state !! "poolmanager" = None
    ∧ restore (VRef (length h)) (h ++ [ODict state])
      = (Ok (VRef (S (length h))),
         h ++ [ODict state; OInst attrs';
               OPool (default VNone (cfg !! "pool_connections"))
                     (default VNone (cfg !! "pool_maxsize"))])
    ∧ (∀ a, a ∈ __attrs__ → attrs' !! a = attrs !! a)
    ∧ attrs' !! "poolmanager" = Some (VRef (S (S (length h)))).
Proof.
  intros Eself Hall Ecfg Ed.
  set (state := dict_of_pairs (state_items attrs __attrs__)).
  assert (Hstate : ∀ a, state !! a
            = if bool_decide (a ∈ __attrs__)
              then Some (default VNone (attrs !! a)) else None)
    by (intros; apply lookup_state, NoDup_attrs).
  assert (Hin : ∀ a, a ∈ __attrs__ → state !! a = attrs !! a).
  { intros a Ha. rewrite Hstate, bool_decide_eq_true_2 by done.
    by destruct (Hall a Ha) as [v ->]. }
  exists state, (<["poolmanager" := VRef (S (S (length h)))]> state).
  split; [|split; [|split; [|split; [|split]]]].
  - unfold __getstate__. mrun (mapM_getattr _ _ _ __attrs__ Eself).
    reflexivity.
  - intros a. rewrite Hstate. case_bool_decide; split; eauto; try done.
  - by rewrite Hstate.
  - set (h1 := h ++ [ODict state]).
    assert (Elen1 : length h1 = S (length h))
      by (unfold h1; rewrite length_app; simpl; lia).
    rewrite <- !Elen1.
    assert (Est : (h1 ++ [OInst ∅]) !! length h = Some (ODict state))
      by apply lookup_alloc_old, lookup_alloc_new.
    unfold restore. unfold bind at 1, alloc at 1.
    unfold bind at 1, __setstate__.
    unfold bind at 1. unfold bind at 1, dict_items at 1.
    rewrite (as_dict_lookup _ _ _ Est).
    rewrite (for_setattr _ _ _ ∅ (lookup_alloc_new h1 _)).
    rewrite upd_all_map_to_list, (right_id_L ∅ (∪)), insert_alloc_new.
    set (h2 := h1 ++ [OInst state]).
    assert (Enew2 : h2 !! length h1 = Some (OInst state))
      by apply lookup_alloc_new.
    assert (Ecfg2 : state !! "config" = Some (VRef lcfg)).
    { rewrite Hin, Ecfg; [done|].
      apply (bool_decide_unpack _). by vm_compute. }
    assert (Ed2 : h2 !! lcfg = Some (ODict cfg))
      by (by do 2 apply lookup_alloc_old).
    unfold init_poolmanager.
    mrun (getattr_inst _ _ _ _ _ Enew2 Ecfg2).
    mrun (dict_get_dict _ _ _ "pool_connections" Ed2).
    mrun (getattr_inst _ _ _ _ _ Enew2 Ecfg2).
    mrun (dict_get_dict _ _ _ "pool_maxsize" Ed2).
    unfold bind at 1, PoolManager, alloc.
    assert (Elen2 : length h2 = S (length h1))
      by (unfold h2; rewrite length_app; simpl; lia).
    rewrite Elen2.
    rewrite (setattr_inst
            (h2 ++ [OPool (default VNone (cfg !! "pool_connections"))
                          (default VNone (cfg !! "pool_maxsize"))])
            (length h1) state "poolmanager" (VRef (S (length h1)))
            (lookup_alloc_old _ _ _ _ Enew2)).
    unfold ret. f_equal. unfold h2.
    rewrite insert_app_l by (rewrite length_app; simpl; lia).
    rewrite insert_alloc_new. unfold h1. by rewrite <- !app_assoc.
  - intros a Ha. rewrite lookup_insert_ne; [by apply Hin|].
    intros <-. revert Ha. apply (bool_decide_unpack _). by vm_compute.
  - by rewrite lookup_insert_eq.
Qed.

(** ** Rules for frames *)

Lemma ok_run {A} (m : M A) h :
  is_ok (m h).1 = true → ∃ a h', m h = (Ok a, h').
Proof. destruct (m h) as [[a|e] h']; [eauto|discriminate]. Qed.

Lemma built_run (m : M (value * gmap string value)) h :
  is_built (m h).1 = true → ∃ lr args h', m h = (Ok (VRef lr, args), h').
Proof.
  destruct (m h) as [[[r args]|e] h']; [|discriminate].
  destruct r; try discriminate. eauto.
Qed.

Lemma kept_refl Φ h : kept Φ h h.
Proof. by split. Qed.

Lemma kept_trans Φ h1 h2 h3 : kept Φ h1 h2 → kept Φ h2 h3 → kept Φ h1 h3.
Proof. intros [L1 K1] [L2 K2]. split; [lia|]. eauto. Qed.


Lemma kept_app Φ h t : kept Φ h (h ++ t).
Proof.
  split; [rewrite length_app; lia|].
  intros l o E _. by apply lookup_app_l_Some.
Qed.

Lemma kept_store Φ h l x :
  (∀ o, h !! l = Some o → ¬ Φ l o) → kept Φ h (<[l := x]> h).
Proof.
  intros Hl. split; [by rewrite length_insert|].
  intros l' o E HΦ. rewrite list_lookup_insert_ne; [done|].
  intros ->. by eapply Hl.
Qed.

Lemma kept_lookup Φ h h' l o :
  kept Φ h h' → h !! l = Some o → Φ l o → h' !! l = Some o.
Proof. intros [_ K]. apply K. Qed.

Lemma frames_ret Φ {A} (a : A) : frames Φ (ret a).
Proof. intros h. apply kept_refl. Qed.

Lemma frames_raise Φ {A} e : frames Φ (@raise A e).
Proof. intros h. apply kept_refl. Qed.

Lemma frames_alloc Φ o : frames Φ (alloc o).
Proof. intros h. apply kept_app. Qed.

Lemma frames_bind Φ {A B} (m : M A) (k : A → M B) :
  frames Φ m → (∀ a, frames Φ (k a)) → frames Φ (bind m k).
Proof.
  intros Hm Hk h. specialize (Hm h). unfold bind.
  destruct (m h) as [[a|e] h1]; [|done].
  eapply kept_trans; [exact Hm|apply Hk].
Qed.

Lemma frames_for Φ {A} (xs : list A) (body : A → M unit) :
  (∀ x, frames Φ (body x)) → frames Φ (for_ xs body).
Proof.
  intros Hb. induction xs as [|x xs IH]; simpl.
  - apply frames_ret.
  - apply frames_bind; [apply Hb|done].
Qed.

Lemma frames_foldM Φ {A S} (f : S → A → M S) (xs : list A) :
  (∀ s x, frames Φ (f s x)) → ∀ s, frames Φ (foldM f s xs).
Proof.
  intros Hf. induction xs as [|x xs IH]; intros s; simpl.
  - apply frames_ret.
  - apply frames_bind; [apply Hf|done].
Qed.


Lemma frames_reads Φ {A} (m : M A) : reads m → frames Φ m.
Proof. intros Hm h. rewrite Hm. apply kept_refl. Qed.

Lemma reads_getattr self name : reads (getattr self name).
Proof.
  intros h. unfold getattr. destruct (as_inst h self) as [attrs|]; [|done].
  by destruct (attrs !! name).
Qed.

Lemma reads_getattr_default self name dflt :
  reads (getattr_default self name dflt).
Proof.
  intros h. unfold getattr_default. by destruct (as_inst h self).
Qed.

Lemma reads_dict_items v : reads (dict_items v).
Proof. intros h. unfold dict_items. by destruct (as_dict h v). Qed.

Lemma reads_truthy v : reads (truthy v).
Proof. by intros h. Qed.

Lemma reads_isinstance_CookieJar v : reads (isinstance_CookieJar v).
Proof. by intros h. Qed.

Lemma reads_jar_cookies v : reads (jar_cookies v).
Proof. intros h. unfold jar_cookies. by destruct (as_jar h v). Qed.

Lemma reads_args_item args k : reads (args_item args k).
Proof. intros h. unfold args_item. by destruct (args !! k). Qed.

Lemma as_jar_inv h v j :
  as_jar h v = Some j → ∃ l, v = VRef l ∧ h !! l = Some (OJar j).
Proof.
  destruct v as [| | | | | | |l]; simpl; try discriminate.
  destruct (h !! l) as [[]|] eqn:E; try discriminate.
  intros [= ->]. eauto.
Qed.

Lemma as_jar_lookup h l j :
  h !! l = Some (OJar j) → as_jar h (VRef l) = Some j.
Proof. intros E. simpl. by rewrite E. Qed.

(** Writes to a dict leave alone whatever [Φ] selects, as long as [Φ]
    does not select the dict written to. *)
Lemma frames_dict_setitem Φ v k x :
  (∀ l d, v = VRef l → ¬ Φ l (ODict d)) → frames Φ (dict_setitem v k x).
Proof.
  intros HΦ h. unfold dict_setitem.
  destruct v as [| | | | | | |l]; try apply kept_refl.
  destruct (as_dict h (VRef l)) as [d|] eqn:E; [|apply kept_refl].
  apply as_dict_inv in E as (? & [= <-] & E).
  apply kept_store. intros o Eo. rewrite E in Eo. injection Eo as <-.
  by eapply HΦ.
Qed.

Lemma frames_dict_setdefault Φ v k x :
  (∀ l d, v = VRef l → ¬ Φ l (ODict d)) → frames Φ (dict_setdefault v k x).
Proof.
  intros HΦ h. unfold dict_setdefault.
  destruct v as [| | | | | | |l]; try apply kept_refl.
  destruct (as_dict h (VRef l)) as [d|] eqn:E; [|apply kept_refl].
  apply as_dict_inv in E as (? & [= <-] & E).
  destruct (d !! k); [apply kept_refl|].
  apply kept_store. intros o Eo. rewrite E in Eo. injection Eo as <-.
  by eapply HΦ.
Qed.

Lemma frames_set_cookie Φ v c :
  (∀ l j, ¬ Φ l (OJar j)) → frames Φ (set_cookie v c).
Proof.
  intros HΦ h. unfold set_cookie.
  destruct v as [| | | | | | |l]; try apply kept_refl.
  destruct (as_jar h (VRef l)) as [d|] eqn:E; [|apply kept_refl].
  apply as_jar_inv in E as (? & [= <-] & E).
  apply kept_store. intros o Eo. rewrite E in Eo. injection Eo as <-.
  by eapply HΦ.
Qed.

Lemma frames_remove_cookie_by_name Φ v name :
  (∀ l j, ¬ Φ l (OJar j)) → frames Φ (remove_cookie_by_name v name).
Proof.
  intros HΦ h. unfold remove_cookie_by_name.
  destruct v as [| | | | | | |l]; try apply kept_refl.
  destruct (as_jar h (VRef l)) as [d|] eqn:E; [|apply kept_refl].
  apply as_jar_inv in E as (? & [= <-] & E).
  apply kept_store. intros o Eo. rewrite E in Eo. injection Eo as <-.
  by eapply HΦ.
Qed.

Lemma frames_from_key_val_list Φ v : frames Φ (from_key_val_list v).
Proof.
  intros h. unfold from_key_val_list.
  destruct v as [| | | |l| | |l]; try apply kept_refl.
  - apply kept_app.
  - destruct (as_pairs l); [apply kept_app|apply kept_refl].
  - unfold bind, read_heap. destruct (as_dict h (VRef l)); apply kept_refl.
Qed.

Lemma frames_cookiejar_from_dict Φ v : frames Φ (cookiejar_from_dict v).
Proof.
  intros h. unfold cookiejar_from_dict.
  destruct v as [| | | |l| | |l]; try apply kept_app;
    unfold bind, read_heap; simpl; try apply kept_refl.
  destruct (h !! l) as [[]|]; try apply kept_refl. apply kept_app.
Qed.

Lemma frames_merge_kwargs Φ local_kwarg default_kwarg :
  frames Φ (merge_kwargs local_kwarg default_kwarg).
Proof.
  intros h.
  destruct (merge_kwargs_run local_kwarg default_kwarg h) as (r & t & E & _).
  rewrite E. apply kept_app.
Qed.

(** ** The stages of [request] *)

Lemma bind_Ok_inv {A B} (m : M A) (k : A → M B) h b h' :
  bind m k h = (Ok b, h') →
  ∃ a h1, m h = (Ok a, h1) ∧ k a h1 = (Ok b, h').
Proof.
  unfold bind. destruct (m h) as [[a|e] h1]; [eauto|discriminate].
Qed.

Lemma lookup_seed_all_old its : ∀ d k v,
  d !! k = Some v → seed_all its d !! k = Some v.
Proof.
  induction its as [|[k' x] its IH]; intros d k v E; simpl; [done|].
  apply IH. destruct (d !! k') eqn:E'; [done|].
  rewrite lookup_insert_ne; [done|]. congruence.
Qed.

Lemma lookup_seed_all_notin its : ∀ d k,
  d !! k = None → k ∉ its.*1 → seed_all its d !! k = None.
Proof.
  induction its as [|[k' x] its IH]; intros d k E Hk; simpl; [done|].
  apply IH.
  - destruct (d !! k') eqn:E'; [done|].
    rewrite lookup_insert_ne; [done|]. intros ->. apply Hk. by left.
  - intros Hin. apply Hk. by right.
Qed.

Lemma lookup_seed_all_new its : ∀ d k v,
  d !! k = None → NoDup its.*1 → (k, v) ∈ its →
  seed_all its d !! k = Some v.
Proof.
  induction its as [|[k' x] its IH]; intros d k v E ND Hin.
  - by apply elem_of_nil in Hin.
  - apply NoDup_cons in ND as [Hk ND]. simpl.
    apply elem_of_cons in Hin as [[= -> ->]|Hin].
    + rewrite E. apply lookup_seed_all_old. by rewrite lookup_insert_eq.
    + apply IH; [|done|done].
      destruct (d !! k') eqn:E'; [done|].
      rewrite lookup_insert_ne; [done|]. intros ->. apply Hk.
      apply list_elem_of_fmap. by exists (k, v).
Qed.

Lemma seed_all_map_to_list (ds dh : gmap string value) :
  seed_all (map_to_list ds) dh = dh ∪ ds.
Proof.
  apply map_eq. intros k. rewrite lookup_union.
  destruct (dh !! k) as [v|] eqn:E.
  - rewrite (lookup_seed_all_old _ _ _ v E). by destruct (ds !! k).
  - destruct (ds !! k) as [v|] eqn:Es.
    + rewrite (lookup_seed_all_new _ _ k v); [done|done| |].
      * apply NoDup_fst_map_to_list.
      * by apply elem_of_map_to_list.
    + rewrite lookup_seed_all_notin; [done|done|].
      intros Hin. apply list_elem_of_fmap in Hin as [[k' v] [-> Hin]].
      apply elem_of_map_to_list in Hin. simpl in Es. congruence.
Qed.

Lemma for_setdefault its : ∀ h l d,
  h !! l = Some (ODict d) →
  for_ its (fun '(key, cb) => dict_setdefault (VRef l) key cb) h
  = (Ok tt, <[l := ODict (seed_all its d)]> h).
Proof.
  induction its as [|[k x] its IH]; intros h l d E; simpl.
  - unfold ret. by rewrite list_insert_id.
  - unfold bind, dict_setdefault at 1. rewrite (as_dict_lookup _ _ _ E).
    destruct (d !! k) eqn:Ek.
    + by apply IH.
    + unfold store. rewrite (IH _ l (<[k:=x]> d)).
      * by rewrite list_insert_insert_eq.
      * by eapply lookup_store_eq.
Qed.

(** Seeding the hooks of the call from the session's hooks: the dict the
    call works on ends up holding its own entries plus the session's
    entries for the event names it did not have. *)
Lemma seed_hooks_exact h self attrs ls ds lh dh :
  h !! self = Some (OInst attrs) →
  attrs !! "hooks" = Some (VRef ls) →
  h !! ls = Some (ODict ds) →
  h !! lh = Some (ODict dh) →
  seed_hooks self (VRef lh) h = (Ok tt, <[lh := ODict (dh ∪ ds)]> h).
Proof.
  intros Eself Ehooks Es Eh. unfold seed_hooks.
  mrun (getattr_inst _ _ _ _ _ Eself Ehooks).
  unfold bind, dict_items. rewrite (as_dict_lookup _ _ _ Es).
  rewrite (for_setdefault _ _ _ dh Eh). by rewrite seed_all_map_to_list.
Qed.

Lemma for_setitem_expand its : ∀ h l (d : gmap string value),
  h !! l = Some (ODict d) →
  for_ its (fun '(k, v) => dict_setitem (VRef l) k (header_expand v)) h
  = (Ok tt,
     <[l := ODict (upd_all (prod_map id header_expand <$> its) d)]> h).
Proof.
  induction its as [|[k x] its IH]; intros h l d E; simpl.
  - unfold ret. by rewrite list_insert_id.
  - unfold bind, dict_setitem at 1. rewrite (as_dict_lookup _ _ _ E).
    unfold store. rewrite (IH _ l (<[k:=header_expand x]> d)).
    + by rewrite list_insert_insert_eq.
    + by eapply lookup_store_eq.
Qed.

Lemma upd_all_expand (d : gmap string value) :
  upd_all (prod_map id header_expand <$> map_to_list d) d
  = header_expand <$> d.
Proof.
  assert (Hfst : (prod_map id header_expand <$> map_to_list d).*1
                 = (map_to_list d).*1).
  { rewrite <- list_fmap_compose. apply list_fmap_ext. by intros ? [? ?]. }
  apply map_eq. intros k. rewrite lookup_fmap.
  destruct (d !! k) as [v|] eqn:E; simpl.
  - apply lookup_upd_all_in.
    + rewrite Hfst. apply NoDup_fst_map_to_list.
    + apply list_elem_of_fmap. exists (k, v). split; [done|].
      by apply elem_of_map_to_list.
  - rewrite lookup_upd_all_notin; [done|]. rewrite Hfst.
    intros Hin. apply list_elem_of_fmap in Hin as [[k' v] [-> Hin]].
    apply elem_of_map_to_list in Hin. simpl in E. congruence.
Qed.

(** Expanding the header values rewrites the very dict it is given. *)
Lemma expand_headers_exact h l d :
  h !! l = Some (ODict d) →
  expand_headers (VRef l) h
  = (Ok tt, <[l := ODict (header_expand <$> d)]> h).
Proof.
  intros E. unfold expand_headers, bind, truthy. rewrite E.
  destruct (size d =? 0)%nat eqn:Esz; simpl.
  - apply Nat.eqb_eq, map_size_empty_inv in Esz. subst d.
    unfold ret. by rewrite fmap_empty, list_insert_id.
  - unfold dict_items. rewrite (as_dict_lookup _ _ _ E).
    rewrite (for_setitem_expand _ _ _ d E). by rewrite upd_all_expand.
Qed.

Ltac frames_step :=
  match goal with
  | |- frames _ (bind _ _) => apply frames_bind; [|intros ?]
  | |- frames _ (ret _) => apply frames_ret
  | |- frames _ (raise _) => apply frames_raise
  | |- frames _ (alloc _) => apply frames_alloc
  | |- frames _ (for_ _ _) => apply frames_for; intros ?
  | |- frames _ (getattr _ _) => apply frames_reads, reads_getattr
  | |- frames _ (getattr_default _ _ _) =>
      apply frames_reads, reads_getattr_default
  | |- frames _ (dict_items _) => apply frames_reads, reads_dict_items
  | |- frames _ (truthy _) => apply frames_reads, reads_truthy
  | |- frames _ (isinstance_CookieJar _) =>
      apply frames_reads, reads_isinstance_CookieJar
  | |- frames _ (jar_cookies _) => apply frames_reads, reads_jar_cookies
  | |- frames _ (args_item _ _) => apply frames_reads, reads_args_item
  | |- frames _ (from_key_val_list _) => apply frames_from_key_val_list
  | |- frames _ (cookiejar_from_dict _) => apply frames_cookiejar_from_dict
  | |- frames _ (merge_kwargs _ _) => apply frames_merge_kwargs
  | |- frames _ (if ?b then _ else _) => destruct b
  | |- frames _ (match ?x with _ => _ end) => destruct x
  end.

Lemma frames_seed_hooks Φ self hooks :
  (∀ l d, hooks = VRef l → ¬ Φ l (ODict d)) →
  frames Φ (seed_hooks self hooks).
Proof.
  intros HΦ. unfold seed_hooks. repeat frames_step.
  by apply frames_dict_setdefault.
Qed.

Lemma frames_expand_headers Φ headers :
  (∀ l d, headers = VRef l → ¬ Φ l (ODict d)) →
  frames Φ (expand_headers headers).
Proof.
  intros HΦ. unfold expand_headers. repeat frames_step.
  by apply frames_dict_setitem.
Qed.

Lemma frames_merge_cookies Φ self cookies args :
  (∀ l j, ¬ Φ l (OJar j)) →
  frames Φ (merge_cookies self cookies args).
Proof.
  intros HΦ. unfold merge_cookies. repeat frames_step;
    by (apply frames_set_cookie || apply frames_remove_cookie_by_name).
Qed.

Lemma frames_merge_attr Φ self args attr :
  frames Φ (merge_attr self args attr).
Proof. unfold merge_attr. repeat frames_step. Qed.

Lemma frames_merge_attrs Φ self args : frames Φ (merge_attrs self args).
Proof.
  unfold merge_attrs. apply frames_foldM. intros s x.
  apply frames_merge_attr.
Qed.

Lemma frames_or_new_dict Φ v : frames Φ (or_new_dict v).
Proof. unfold or_new_dict. repeat frames_step. Qed.

Lemma frames_run Φ {A} (m : M A) h r h' :
  frames Φ m → m h = (r, h') → kept Φ h h'.
Proof. intros Hm E. specialize (Hm h). by rewrite E in Hm. Qed.

(** The jar of the call when the cookies argument is a dict. *)
Lemma lookup_filter_name (j : jar) name key :
  filter (λ c, c.1.2 ≠ name) j !! key
  = if bool_decide (key.2 = name) then None else j !! key.
Proof.
  apply option_eq. intros v. rewrite map_lookup_filter_Some. simpl.
  case_bool_decide as Hk; split.
  - by intros [_ ?].
  - done.
  - by intros [? _].
  - done.
Qed.

Lemma lookup_remove_names names : ∀ (j : jar) key,
  remove_names names j !! key
  = if bool_decide (key.2 ∈ names) then None else j !! key.
Proof.
  induction names as [|n names IH]; intros j key.
  - change (remove_names [] j) with j.
    case_bool_decide as Hk; [by apply elem_of_nil in Hk|done].
  - change (remove_names (n :: names) j)
      with (remove_names names (filter (λ c, c.1.2 ≠ n) j)).
    rewrite IH, lookup_filter_name.
    destruct (decide (key.2 ∈ names)) as [Hin|Hout].
    + rewrite !bool_decide_eq_true_2; [done| |done].
      apply elem_of_cons. by right.
    + rewrite (bool_decide_eq_false_2 _ Hout).
      destruct (decide (key.2 = n)) as [Heq|Hne].
      * rewrite !bool_decide_eq_true_2; [done| |done].
        apply elem_of_cons. by left.
      * rewrite !bool_decide_eq_false_2; [done| |done].
        rewrite elem_of_cons. by intros [?|?].
Qed.

Lemma for_set_cookie cs : ∀ h l j (args : gmap string value),
  args !! "cookies" = Some (VRef l) →
  h !! l = Some (OJar j) →
  for_ cs (fun cookie =>
    let* j := args_item args "cookies" in set_cookie j cookie) h
  = (Ok tt, <[l := OJar (upd_all cs j)]> h).
Proof.
  induction cs as [|[k x] cs IH]; intros h l j args Ea E; simpl.
  - unfold ret. by rewrite list_insert_id.
  - unfold bind at 1. unfold bind at 1, args_item at 1. rewrite Ea.
    unfold ret at 1, set_cookie at 1. rewrite (as_jar_lookup _ _ _ E).
    unfold store. simpl. rewrite (IH _ l (<[k:=x]> j)); [|done|].
    + by rewrite list_insert_insert_eq.
    + by eapply lookup_store_eq.
Qed.

Lemma for_remove_cookie names : ∀ h l j (args : gmap string value),
  args !! "cookies" = Some (VRef l) →
  h !! l = Some (OJar j) →
  for_ names (fun name =>
    let* j := args_item args "cookies" in remove_cookie_by_name j name) h
  = (Ok tt, <[l := OJar (remove_names names j)]> h).
Proof.
  induction names as [|n names IH]; intros h l j args Ea E; simpl.
  - unfold ret. by rewrite list_insert_id.
  - unfold bind at 1. unfold bind at 1, args_item at 1. rewrite Ea.
    unfold ret at 1, remove_cookie_by_name at 1.
    rewrite (as_jar_lookup _ _ _ E).
    unfold store. rewrite (IH _ l (filter (λ c, c.1.2 ≠ n) j)); [|done|].
    + by rewrite list_insert_insert_eq.
    + by eapply lookup_store_eq.
Qed.

(** Cookie reconciliation for a cookies argument that is a dict: a new
    jar is made from the dict, the session's cookies are upserted into
    it, the names the dict maps to [None] are removed from it, and
    nothing else in the store changes. *)
Lemma merge_cookies_dict h self attrs lj js lc dc args :
  h !! self = Some (OInst attrs) →
  attrs !! "cookies" = Some (VRef lj) →
  h !! lj = Some (OJar js) →
  h !! lc = Some (ODict dc) →
  merge_cookies self (VRef lc) args h
  = (Ok (<["cookies" := VRef (length h)]> args),
     h ++ [OJar (remove_names (none_names (map_to_list dc))
                   (js ∪ kmap cookie_key dc))]).
Proof.
  intros Eself Ecookies Ej Ec. unfold merge_cookies.
  unfold bind at 1, isinstance_CookieJar. simpl as_jar. rewrite Ec.
  rewrite bool_decide_eq_false_2 by (by intros [? ?]).
  msimpl.
  unfold bind at 1. unfold bind at 1. unfold cookiejar_from_dict at 1.
  unfold bind at 1, read_heap. rewrite (as_dict_lookup _ _ _ Ec).
  unfold alloc at 1.
  unfold bind at 1, dict_items at 1.
  rewrite (as_dict_lookup _ _ _ (lookup_alloc_old h (OJar (kmap cookie_key dc)) _ _ Ec)).
  unfold ret at 1. cbv beta iota. simpl fst. simpl snd.
  mrun (getattr_inst _ _ _ _ _ (lookup_alloc_old h (OJar (kmap cookie_key dc)) _ _ Eself) Ecookies).
  unfold bind at 1, jar_cookies at 1.
  rewrite (as_jar_lookup _ _ _ (lookup_alloc_old h (OJar (kmap cookie_key dc)) _ _ Ej)).
  unfold bind at 1.
  rewrite (for_set_cookie _ _ (length h) (kmap cookie_key dc));
    [|by rewrite lookup_insert_eq|by apply lookup_alloc_new].
  rewrite insert_alloc_new, upd_all_map_to_list.
  unfold bind at 1.
  rewrite (for_remove_cookie _ _ (length h) (js ∪ kmap cookie_key dc));
    [|by rewrite lookup_insert_eq|by apply lookup_alloc_new].
  by rewrite insert_alloc_new.
Qed.

(** Cookie reconciliation for a cookies argument that is already a jar:
    the jar is used as it is, the session's cookies are upserted into
    it, and nothing is removed. *)
Lemma merge_cookies_jar h self attrs lj js lc jc args :
  h !! self = Some (OInst attrs) →
  attrs !! "cookies" = Some (VRef lj) →
  h !! lj = Some (OJar js) →
  h !! lc = Some (OJar jc) →
  args !! "cookies" = Some (VRef lc) →
  merge_cookies self (VRef lc) args h
  = (Ok args, <[lc := OJar (js ∪ jc)]> h).
Proof.
  intros Eself Ecookies Ej Ec Ea. unfold merge_cookies.
  unfold bind at 1, isinstance_CookieJar. rewrite (as_jar_lookup _ _ _ Ec).
  rewrite bool_decide_eq_true_2 by eauto.
  msimpl. unfold bind at 1, ret at 1. simpl fst. simpl snd.
  mrun (getattr_inst _ _ _ _ _ Eself Ecookies).
  unfold bind at 1, jar_cookies at 1. rewrite (as_jar_lookup _ _ _ Ej).
  unfold bind at 1. rewrite (for_set_cookie _ _ lc jc); [|done|done].
  by rewrite upd_all_map_to_list.
Qed.

(** ** Runs of [request_args] that return *)

(** The steps of a returning run of [request_args], with the stores in
    between. *)
Lemma request_args_inv self method url kw h args' h' :
  request_args self method url kw h = (Ok args', h') →
  ∃ headers params hooks prefetch a_params a_headers a_hooks a_proxies
    a_config poolmanager data files args1 h1 h2 h3 h4 h5 h6 h7 h8 h9 h10 h11,
    or_new_dict (kwarg kw "headers" VNone) h = (Ok headers, h1)
    ∧ or_new_dict (kwarg kw "params" VNone) h1 = (Ok params, h2)
    ∧ or_new_dict (kwarg kw "hooks" VNone) h2 = (Ok hooks, h3)
    ∧ seed_hooks self hooks h3 = (Ok tt, h4)
    ∧ expand_headers headers h4 = (Ok tt, h5)
    ∧ from_key_val_list params h5 = (Ok a_params, h6)
    ∧ from_key_val_list headers h6 = (Ok a_headers, h7)
    ∧ from_key_val_list hooks h7 = (Ok a_hooks, h8)
    ∧ from_key_val_list (kwarg kw "proxies" VNone) h8 = (Ok a_proxies, h9)
    ∧ from_key_val_list (kwarg kw "config" VNone) h9 = (Ok a_config, h10)
    ∧ merge_cookies self (kwarg kw "cookies" VNone)
        (request_dict (upper method) url data a_params a_headers
           (kwarg kw "cookies" VNone) files (kwarg kw "auth" VNone) a_hooks
           (kwarg kw "timeout" VNone)
           (kwarg kw "allow_redirects" (VBool true)) a_proxies a_config
           prefetch (kwarg kw "verify" VNone) (kwarg kw "cert" VNone)
           poolmanager) h10
      = (Ok args1, h11)
    ∧ merge_attrs self args1 h11 = (Ok args', h').
Proof.
  unfold request_args. intros H.
  destruct (negb _); [discriminate|].
  apply bind_Ok_inv in H as (headers & h1 & E1 & H).
  apply bind_Ok_inv in H as (params & h2 & E2 & H).
  apply bind_Ok_inv in H as (hooks & h3 & E3 & H).
  apply bind_Ok_inv in H as (prefetch & h3' & E3' & H).
  assert (h3' = h3) as ->.
  { destruct (negb _); [by injection E3'|].
    pose proof (reads_getattr self "prefetch" h3) as R.
    by rewrite E3' in R. }
  apply bind_Ok_inv in H as ([] & h4 & E4 & H).
  apply bind_Ok_inv in H as ([] & h5 & E5 & H).
  apply bind_Ok_inv in H as (a_params & h6 & E6 & H).
  apply bind_Ok_inv in H as (a_headers & h7 & E7 & H).
  apply bind_Ok_inv in H as (a_hooks & h8 & E8 & H).
  apply bind_Ok_inv in H as (a_proxies & h9 & E9 & H).
  apply bind_Ok_inv in H as (a_config & h10 & E10 & H).
  apply bind_Ok_inv in H as (poolmanager & h10' & E10' & H).
  assert (h10' = h10) as ->.
  { pose proof (reads_getattr self "poolmanager" h10) as R.
    by rewrite E10' in R. }
  apply bind_Ok_inv in H as (args1 & h11 & E11 & H).
  do 24 eexists. repeat split; eassumption.
Qed.

(** What a returning step of the loop over the tracked attributes does
    to [args]: one key at most, and never ["cookies"]. *)
Lemma merge_attr_other self args attr h args' h' k :
  merge_attr self args attr h = (Ok args', h') →
  k ≠ attr ∨ k = "cookies" →
  args' !! k = args !! k.
Proof.
  unfold merge_attr. intros H Hk.
  destruct (String.eqb attr "cookies") eqn:Ec.
  - by injection H as <- <-.
  - apply bind_Ok_inv in H as (sv & h1 & _ & H).
    apply bind_Ok_inv in H as (v & h2 & _ & H).
    injection H as <- <-. rewrite lookup_insert_ne; [done|].
    apply String.eqb_neq in Ec. destruct Hk; congruence.
Qed.

Lemma merge_attrs_other self names : ∀ args h args' h' k,
  foldM (merge_attr self) args names h = (Ok args', h') →
  k ∉ names ∨ k = "cookies" →
  args' !! k = args !! k.
Proof.
  induction names as [|a names IH]; intros args h args' h' k H Hk; simpl in H.
  - by injection H as <- <-.
  - apply bind_Ok_inv in H as (args1 & h1 & E1 & H).
    rewrite (IH _ _ _ _ _ H).
    + eapply merge_attr_other; [done|].
      destruct Hk as [Hk|Hk]; [left|by right].
      intros ->. apply Hk. by left.
    + destruct Hk as [Hk|Hk]; [left|by right].
      intros Hin. apply Hk. by right.
Qed.

(** A tracked attribute whose local value and session value are both
    dicts ends up, in the merged [args], as a new dict: their merge. *)
Lemma merge_attrs_dicts self attrs names k ll dl ld dd :
  attrs !! k = Some (VRef ld) →
  k ≠ "cookies" →
  NoDup names →
  k ∈ names →
  ∀ args h args' h',
    h !! self = Some (OInst attrs) →
    h !! ll = Some (ODict dl) →
    h !! ld = Some (ODict dd) →
    args !! k = Some (VRef ll) →
    foldM (merge_attr self) args names h = (Ok args', h') →
    ∃ l, args' !! k = Some (VRef l) ∧ h' !! l = Some (ODict (merged dl dd))
         ∧ (length h ≤ l)%nat.
Proof.
  intros Ek Hk ND. induction names as [|a names IH];
    intros Hin args h args' h' Eself El Ed Ea H.
  - by apply elem_of_nil in Hin.
  - apply NoDup_cons in ND as [Ha ND]. simpl in H.
    apply bind_Ok_inv in H as (args1 & h1 & E1 & H).
    pose proof (frames_run any_object _ _ _ _
                  (frames_merge_attr _ self args a) E1) as K1.
    destruct (decide (a = k)) as [->|Hne].
    + unfold merge_attr in E1.
      rewrite (proj2 (String.eqb_neq k "cookies") Hk) in E1.
      rewrite (bind_ok _ _ _ _ _
                 (getattr_default_inst _ _ _ k VNone Eself)) in E1.
      rewrite Ek, Ea in E1. simpl in E1.
      rewrite (bind_ok _ _ _ _ _ (merge_kwargs_dicts _ _ _ _ _ El Ed)) in E1.
      injection E1 as <- <-.
      pose proof (frames_run any_object _ _ _ _
                    (frames_foldM any_object (merge_attr self) names
                       (λ s x, frames_merge_attr _ self s x) _) H) as K.
      exists (length h). split; [|split; [|done]].
      * rewrite (merge_attrs_other _ _ _ _ _ _ k H) by (by left).
        by rewrite lookup_insert_eq.
      * eapply kept_lookup; [exact K|apply lookup_alloc_new|done].
    + apply elem_of_cons in Hin as [->|Hin]; [done|].
      destruct (IH ND Hin args1 h1 args' h') as (l & ? & ? & ?); try done.
      * by eapply kept_lookup.
      * by eapply kept_lookup.
      * by eapply kept_lookup.
      * rewrite (merge_attr_other _ _ _ _ _ _ k E1); [done|]. left. congruence.
      * exists l. repeat split; try done. destruct K1. lia.
Qed.

(** A returning cookie reconciliation changes at most the ["cookies"]
    entry of [args]. *)
Lemma merge_cookies_other self cookies args h args' h' k :
  merge_cookies self cookies args h = (Ok args', h') →
  k ≠ "cookies" →
  args' !! k = args !! k.
Proof.
  unfold merge_cookies. intros H Hk.
  apply bind_Ok_inv in H as (is_jar & h1 & _ & H).
  apply bind_Ok_inv in H as (found & h2 & Ef & H).
  apply bind_Ok_inv in H as (sc & h3 & _ & H).
  apply bind_Ok_inv in H as (cs & h4 & _ & H).
  apply bind_Ok_inv in H as ([] & h5 & _ & H).
  apply bind_Ok_inv in H as ([] & h6 & _ & H).
  injection H as <- <-.
  destruct (negb is_jar).
  - apply bind_Ok_inv in Ef as (j & h1' & _ & Ef).
    destruct (negb (is_none cookies)).
    + apply bind_Ok_inv in Ef as (its & h1'' & _ & Ef).
      injection Ef as <- <-. simpl. by rewrite lookup_insert_ne.
    + injection Ef as <- <-. simpl. by rewrite lookup_insert_ne.
  - by injection Ef as <- <-.
Qed.

Lemma or_new_dict_run v h x h1 :
  or_new_dict v h = (Ok x, h1) →
  kept any_object h h1
  ∧ ((x = v ∧ h1 = h ∧ v ≠ VNone) ∨ x = VRef (length h)).
Proof.
  unfold or_new_dict. destruct (is_none v) eqn:Ev; unfold alloc, ret;
    intros [= <- <-].
  - split; [apply kept_app|by right].
  - split; [apply kept_refl|]. left. repeat split. by intros ->.
Qed.

(** The value [request] works with for a dict-valued parameter is not a
    reference to an existing object unless the caller passed that one. *)
Lemma or_new_dict_fresh kw name h x h1 l o :
  or_new_dict (kwarg kw name VNone) h = (Ok x, h1) →
  h !! l = Some o →
  kw !! name ≠ Some (VRef l) →
  x ≠ VRef l.
Proof.
  intros E El Hkw. apply or_new_dict_run in E as [_ [(-> & _ & Hv)| ->]].
  - unfold kwarg in *. destruct (kw !! name); simpl in *; congruence.
  - intros [= <-]. apply lookup_lt_Some in El. lia.
Qed.

Lemma kwarg_lookup kw name dflt v :
  kw !! name = Some v → kwarg kw name dflt = v.
Proof. unfold kwarg. by intros ->. Qed.

Lemma or_new_dict_ref h l :
  or_new_dict (VRef l) h = (Ok (VRef l), h).
Proof. done. Qed.

Lemma lookup_kmap_cookie_key (d : gmap string value) domain path name :
  (kmap cookie_key d : jar) !! (domain, path, name)
  = if bool_decide (domain = "" ∧ path = "/") then d !! name else None.
Proof.
  case_bool_decide as Hk.
  - destruct Hk as [-> ->]. apply (lookup_kmap cookie_key).
  - apply lookup_kmap_None; [apply _|].
    intros n [= -> ->]. by destruct Hk.
Qed.

(** [request_args] on a cookies argument that is a dict: the jar of the
    call is a new object, holding the cookies of the dict overlaid with
    the session's cookies, minus the names the dict maps to [None]; the
    session's jar and the dict are as they were. *)
Lemma request_args_cookies_dict self method url kw h attrs lj js lc dc
    args h' :
  h !! self = Some (OInst attrs) →
  attrs !! "cookies" = Some (VRef lj) →
  h !! lj = Some (OJar js) →
  kw !! "cookies" = Some (VRef lc) →
  h !! lc = Some (ODict dc) →
  kw !! "hooks" ≠ Some (VRef lc) →
  kw !! "headers" ≠ Some (VRef lc) →
  request_args self method url kw h = (Ok args, h') →
  ∃ l', args !! "cookies" = Some (VRef l')
      ∧ (length h ≤ l')%nat
      ∧ h' !! l' = Some (OJar (remove_names (none_names (map_to_list dc))
                                 (js ∪ kmap cookie_key dc)))
      ∧ h' !! lj = Some (OJar js)
      ∧ h' !! lc = Some (ODict dc).
Proof.
  intros Eself Ecookies Ej Ekc Ec Hhooks Hheaders H.
  apply request_args_inv in H
    as (headers & params & hooks & prefetch & a_params & a_headers & a_hooks
        & a_proxies & a_config & poolmanager & data & files & args1
        & h1 & h2 & h3 & h4 & h5 & h6 & h7 & h8 & h9 & h10 & h11
        & E1 & E2 & E3 & E4 & E5 & E6 & E7 & E8 & E9 & E10 & E11 & E12).
  rewrite (kwarg_lookup _ _ _ _ Ekc) in E11.
  set (Φ := dict_only_at lc).
  assert (K1 : kept Φ h h1) by (eapply frames_run, E1; apply frames_or_new_dict).
  assert (K2 : kept Φ h1 h2) by (eapply frames_run, E2; apply frames_or_new_dict).
  assert (K3 : kept Φ h2 h3) by (eapply frames_run, E3; apply frames_or_new_dict).
  assert (Hh : headers ≠ VRef lc) by (eapply or_new_dict_fresh; eauto).
  assert (Hk : hooks ≠ VRef lc).
  { eapply or_new_dict_fresh; [exact E3| |done].
    eapply kept_lookup; [exact (kept_trans _ _ _ _ K1 K2)|exact Ec|done]. }
  assert (K4 : kept Φ h3 h4).
  { eapply frames_run, E4. apply frames_seed_hooks.
    intros l d -> El. simpl in El. congruence. }
  assert (K5 : kept Φ h4 h5).
  { eapply frames_run, E5. apply frames_expand_headers.
    intros l d -> El. simpl in El. congruence. }
  assert (K6 : kept Φ h5 h6)
    by (eapply frames_run, E6; apply frames_from_key_val_list).
  assert (K7 : kept Φ h6 h7)
    by (eapply frames_run, E7; apply frames_from_key_val_list).
  assert (K8 : kept Φ h7 h8)
    by (eapply frames_run, E8; apply frames_from_key_val_list).
  assert (K9 : kept Φ h8 h9)
    by (eapply frames_run, E9; apply frames_from_key_val_list).
  assert (K10 : kept Φ h9 h10)
    by (eapply frames_run, E10; apply frames_from_key_val_list).
  assert (K : kept Φ h h10) by (repeat (eapply kept_trans; [eassumption|]);
                                 apply kept_refl).
  assert (Ec10 : h10 !! lc = Some (ODict dc))
    by (by eapply kept_lookup; [exact K|exact Ec|]).
  assert (Ej10 : h10 !! lj = Some (OJar js))
    by (by eapply kept_lookup; [exact K|exact Ej|]).
  assert (Es10 : h10 !! self = Some (OInst attrs))
    by (by eapply kept_lookup; [exact K|exact Eself|]).
  rewrite (merge_cookies_dict _ _ _ _ _ _ _ _ Es10 Ecookies Ej10 Ec10) in E11.
  injection E11 as <- <-.
  assert (K12 : kept any_object
                  (h10 ++ [OJar (remove_names (none_names (map_to_list dc))
                                   (js ∪ kmap cookie_key dc))]) h')
    by (eapply frames_run, E12; apply frames_merge_attrs).
  exists (length h10). split; [|split; [|split; [|split]]].
  - rewrite (merge_attrs_other _ _ _ _ _ _ "cookies" E12) by (by right).
    by rewrite lookup_insert_eq.
  - by destruct K.
  - eapply kept_lookup; [exact K12|apply lookup_alloc_new|done].
  - eapply kept_lookup; [exact K12|by apply lookup_alloc_old|done].
  - eapply kept_lookup; [exact K12|by apply lookup_alloc_old|done].
Qed.

Lemma elem_of_none_names (d : gmap string value) name :
  name ∈ none_names (map_to_list d) ↔ d !! name = Some VNone.
Proof.
  unfold none_names. rewrite list_elem_of_fmap. split.
  - intros [[k v] [-> Hin]]. apply list_elem_of_filter in Hin as [Hv Hin].
    apply elem_of_map_to_list in Hin. simpl in *. by destruct v.
  - intros E. exists (name, VNone). split; [done|].
    apply list_elem_of_filter. split; [done|]. by apply elem_of_map_to_list.
Qed.

Lemma lookup_request_dict_cookies method url data params headers
    cookies files auth hooks timeout allow_redirects proxies config prefetch
    verify cert poolmanager :
  request_dict method url data params headers cookies files auth hooks
    timeout allow_redirects proxies config prefetch verify cert poolmanager
    !! "cookies" = Some cookies.
Proof. unfold request_dict. by simplify_map_eq. Qed.

Lemma lookup_request_dict_hooks method url data params headers
    cookies files auth hooks timeout allow_redirects proxies config prefetch
    verify cert poolmanager :
  request_dict method url data params headers cookies files auth hooks
    timeout allow_redirects proxies config prefetch verify cert poolmanager
    !! "hooks" = Some hooks.
Proof. unfold request_dict. by simplify_map_eq. Qed.

(** [request_args] on a cookies argument that is already a jar: that very
    jar is the jar of the call, and the session's cookies are upserted
    into it. *)
Lemma request_args_cookies_jar self method url kw h attrs lj js lc jc
    args h' :
  h !! self = Some (OInst attrs) →
  attrs !! "cookies" = Some (VRef lj) →
  h !! lj = Some (OJar js) →
  kw !! "cookies" = Some (VRef lc) →
  h !! lc = Some (OJar jc) →
  request_args self method url kw h = (Ok args, h') →
  args !! "cookies" = Some (VRef lc)
  ∧ h' !! lc = Some (OJar (js ∪ jc))
  ∧ (lc ≠ lj → h' !! lj = Some (OJar js)).
Proof.
  intros Eself Ecookies Ej Ekc Ec H.
  apply request_args_inv in H
    as (headers & params & hooks & prefetch & a_params & a_headers & a_hooks
        & a_proxies & a_config & poolmanager & data & files & args1
        & h1 & h2 & h3 & h4 & h5 & h6 & h7 & h8 & h9 & h10 & h11
        & E1 & E2 & E3 & E4 & E5 & E6 & E7 & E8 & E9 & E10 & E11 & E12).
  rewrite (kwarg_lookup _ _ _ _ Ekc) in E11.
  set (Φ := not_dict).
  assert (K1 : kept Φ h h1) by (eapply frames_run, E1; apply frames_or_new_dict).
  assert (K2 : kept Φ h1 h2) by (eapply frames_run, E2; apply frames_or_new_dict).
  assert (K3 : kept Φ h2 h3) by (eapply frames_run, E3; apply frames_or_new_dict).
  assert (K4 : kept Φ h3 h4)
    by (eapply frames_run, E4; apply frames_seed_hooks; by intros l d _ ?).
  assert (K5 : kept Φ h4 h5)
    by (eapply frames_run, E5; apply frames_expand_headers; by intros l d _ ?).
  assert (K6 : kept Φ h5 h6)
    by (eapply frames_run, E6; apply frames_from_key_val_list).
  assert (K7 : kept Φ h6 h7)
    by (eapply frames_run, E7; apply frames_from_key_val_list).
  assert (K8 : kept Φ h7 h8)
    by (eapply frames_run, E8; apply frames_from_key_val_list).
  assert (K9 : kept Φ h8 h9)
    by (eapply frames_run, E9; apply frames_from_key_val_list).
  assert (K10 : kept Φ h9 h10)
    by (eapply frames_run, E10; apply frames_from_key_val_list).
  assert (K : kept Φ h h10) by (repeat (eapply kept_trans; [eassumption|]);
                                 apply kept_refl).
  assert (Ec10 : h10 !! lc = Some (OJar jc))
    by (by eapply kept_lookup; [exact K|exact Ec|]).
  assert (Ej10 : h10 !! lj = Some (OJar js))
    by (by eapply kept_lookup; [exact K|exact Ej|]).
  assert (Es10 : h10 !! self = Some (OInst attrs))
    by (by eapply kept_lookup; [exact K|exact Eself|]).
  rewrite (merge_cookies_jar _ _ _ _ _ _ _ _ Es10 Ecookies Ej10 Ec10
             (lookup_request_dict_cookies _ _ _ _ _ _ _ _ _ _ _ _ _ _ _ _ _))
    in E11.
  injection E11 as <- <-.
  assert (K12 : kept any_object (<[lc := OJar (js ∪ jc)]> h10) h')
    by (eapply frames_run, E12; apply frames_merge_attrs).
  split; [|split].
  - rewrite (merge_attrs_other _ _ _ _ _ _ "cookies" E12) by (by right).
    apply lookup_request_dict_cookies.
  - eapply kept_lookup; [exact K12|by eapply lookup_store_eq|done].
  - intros Hne. eapply kept_lookup; [exact K12| |done].
    by rewrite list_lookup_insert_ne.
Qed.

(** ** [request_args] returns on well-formed input *)

Lemma same_kind_refl o : same_kind o o.
Proof. by destruct o. Qed.

Lemma same_kind_trans o1 o2 o3 :
  same_kind o1 o2 → same_kind o2 o3 → same_kind o1 o3.
Proof. destruct o1, o2, o3; simpl; congruence. Qed.

Lemma evolves_refl h : evolves h h.
Proof. split; [done|]. intros l o E. exists o. split; [done|]. apply same_kind_refl. Qed.

Lemma evolves_trans h1 h2 h3 : evolves h1 h2 → evolves h2 h3 → evolves h1 h3.
Proof.
  intros [L1 K1] [L2 K2]. split; [lia|]. intros l o E.
  destruct (K1 _ _ E) as (o' & E' & S1).
  destruct (K2 _ _ E') as (o'' & E'' & S2).
  exists o''. split; [done|]. by eapply same_kind_trans.
Qed.

Lemma evolves_app h t : evolves h (h ++ t).
Proof.
  split; [rewrite length_app; lia|]. intros l o E. exists o.
  split; [by apply lookup_app_l_Some|apply same_kind_refl].
Qed.

Lemma evolves_store h l o x :
  h !! l = Some o → same_kind o x → evolves h (<[l := x]> h).
Proof.
  intros E S. split; [by rewrite length_insert|]. intros l' o' E'.
  destruct (decide (l' = l)) as [->|Hne].
  - exists x. split; [by eapply lookup_store_eq|]. congruence.
  - exists o'. rewrite list_lookup_insert_ne by done.
    split; [done|apply same_kind_refl].
Qed.


Lemma evolves_dict h h' v :
  evolves h h' → is_Some (as_dict h v) → is_Some (as_dict h' v).
Proof.
  intros [_ K] [d E]. apply as_dict_inv in E as (l & -> & E).
  destruct (K _ _ E) as (o' & E' & S). destruct o'; try done.
  rewrite (as_dict_lookup _ _ _ E'). eauto.
Qed.

Lemma evolves_jar h h' v :
  evolves h h' → is_Some (as_jar h v) → is_Some (as_jar h' v).
Proof.
  intros [_ K] [d E]. apply as_jar_inv in E as (l & -> & E).
  destruct (K _ _ E) as (o' & E' & S). destruct o'; try done.
  rewrite (as_jar_lookup _ _ _ E'). eauto.
Qed.


Lemma evolves_dict_or_none h h' v :
  evolves h h' → dict_or_none h v → dict_or_none h' v.
Proof. intros K [->|Hd]; [by left|right; by eapply evolves_dict]. Qed.

Lemma evolves_cookies_arg h h' v :
  evolves h h' →
  dict_or_none h v ∨ is_Some (as_jar h v) →
  dict_or_none h' v ∨ is_Some (as_jar h' v).
Proof.
  intros K [Hd|Hj];
    [left; by eapply evolves_dict_or_none|right; by eapply evolves_jar].
Qed.







(** Cookie reconciliation without a cookies argument: the jar of the
    call is a new jar holding the session's cookies. *)
Lemma merge_cookies_none h self attrs lj js args :
  h !! self = Some (OInst attrs) →
  attrs !! "cookies" = Some (VRef lj) →
  h !! lj = Some (OJar js) →
  merge_cookies self VNone args h
  = (Ok (<["cookies" := VRef (length h)]> args), h ++ [OJar js]).
Proof.
  intros Eself Ecookies Ej. unfold merge_cookies.
  unfold bind at 1, isinstance_CookieJar. simpl as_jar.
  rewrite bool_decide_eq_false_2 by (by intros [? ?]).
  msimpl.
  unfold bind at 1. unfold bind at 1. unfold cookiejar_from_dict at 1.
  unfold alloc at 1. unfold ret at 1. cbv beta iota. simpl fst. simpl snd.
  mrun (getattr_inst _ _ _ _ _
          (lookup_alloc_old h (OJar ∅) _ _ Eself) Ecookies).
  unfold bind at 1, jar_cookies at 1.
  rewrite (as_jar_lookup _ _ _ (lookup_alloc_old h (OJar ∅) _ _ Ej)).
  unfold bind at 1.
  rewrite (for_set_cookie _ _ (length h) ∅);
    [|by rewrite lookup_insert_eq|by apply lookup_alloc_new].
  rewrite insert_alloc_new, upd_all_map_to_list, (right_id_L ∅ (∪)).
  done.
Qed.









(** ** Claims on [request] and the verb methods *)


Lemma call_verb_request v self url data kwargs :
  call_verb v self url data kwargs
  = request self (verb_method v) url (verb_kwargs v data kwargs).
Proof. by destruct v. Qed.


(** C1. A session whose jar holds exactly the cookies a:1 and b:2, and a
    call of [request] passing the cookies mapping {b: None, c: 3}: the jar
    used for the call is a new object holding exactly a:1 (inherited) and
    c:3 (newly provided; b is unset), and the session's own jar still
    holds exactly a:1 and b:2. *)
Theorem cookie_reconciliation_example self method url kw h attrs lj lc
    da pa db pb args h' :
  h !! self = Some (OInst attrs) →
  attrs !! "cookies" = Some (VRef lj) →
  h !! lj = Some (OJar {[ (da, pa, "a") := VInt 1;
                          (db, pb, "b") := VInt 2 ]}) →
  kw !! "cookies" = Some (VRef lc) →
  h !! lc = Some (ODict {[ "b" := VNone; "c" := VInt 3 ]}) →
  kw !! "hooks" ≠ Some (VRef lc) →
  kw !! "headers" ≠ Some (VRef lc) →
  request_args self method url kw h = (Ok args, h') →
  ∃ l', args !! "cookies" = Some (VRef l')
      ∧ (length h ≤ l')%nat
      ∧ h' !! l' = Some (OJar {[ (da, pa, "a") := VInt 1;
                                 ("", "/", "c") := VInt 3 ]})
      ∧ h' !! lj = Some (OJar {[ (da, pa, "a") := VInt 1;
                                 (db, pb, "b") := VInt 2 ]}).
Proof.
  intros Eself Ecookies Ej Ekc Ec Hhooks Hheaders H.
  destruct (request_args_cookies_dict _ _ _ _ _ _ _ _ _ _ _ _
              Eself Ecookies Ej Ekc Ec Hhooks Hheaders H)
    as (l' & Ea & Hl & EJ & Ej' & _).
  exists l'. repeat split; try done. rewrite EJ. do 2 f_equal.
  apply map_eq. intros [[d p] n]. rewrite lookup_remove_names. simpl.
  case_bool_decide as Hd.
  - apply elem_of_none_names in Hd.
    destruct (decide (n = "b")) as [->|Hn]; [|by simplify_map_eq].
    symmetry. rewrite lookup_insert_ne by congruence.
    by rewrite lookup_singleton_ne by congruence.
  - assert (Hn : n ≠ "b").
    { intros ->. apply Hd, elem_of_none_names. by simplify_map_eq. }
    rewrite lookup_union, lookup_kmap_cookie_key.
    destruct (decide ((d, p, n) = (da, pa, "a"))) as [[= -> -> ->]|Hne1].
    + rewrite !lookup_insert_eq. by case_bool_decide; simplify_map_eq.
    + rewrite (lookup_insert_ne _ (da, pa, "a")) by congruence.
      rewrite (lookup_singleton_ne (db, pb, "b")) by congruence.
      rewrite (lookup_insert_ne _ (da, pa, "a")) by congruence.
      rewrite (left_id_L None _).
      case_bool_decide as Hk.
      * destruct Hk as [-> ->].
        destruct (decide (n = "c")) as [->|Hc]; [by simplify_map_eq|].
        rewrite lookup_singleton_ne by congruence. by simplify_map_eq.
      * rewrite lookup_singleton_ne; [done|]. intros [= <- <- <-].
        by apply Hk.
Qed.


(** C10. [request] works on the caller's own hooks and headers dicts, not
    on copies: when the call returns its [args], the caller's hooks dict
    holds, besides its own entries, the session's hook for every event
    name it did not have, and every value of the caller's headers dict has
    been replaced by its expanded form. *)
Theorem caller_dicts_mutated self method url kw h attrs ls ds lh dh lhd dhd
    args h' :
  h !! self = Some (OInst attrs) →
  attrs !! "hooks" = Some (VRef ls) →
  h !! ls = Some (ODict ds) →
  kw !! "hooks" = Some (VRef lh) →
  h !! lh = Some (ODict dh) →
  kw !! "headers" = Some (VRef lhd) →
  h !! lhd = Some (ODict dhd) →
  lh ≠ lhd →
  request_args self method url kw h = (Ok args, h') →
  h' !! lh = Some (ODict (dh ∪ ds))
  ∧ h' !! lhd = Some (ODict (header_expand <$> dhd)).
Proof.
  intros Eself Ehooks Es Ekh Eh Ekhd Ehd Hne H.
  apply request_args_inv in H
    as (headers & params & hooks & prefetch & a_params & a_headers & a_hooks
        & a_proxies & a_config & poolmanager & data & files & args1
        & h1 & h2 & h3 & h4 & h5 & h6 & h7 & h8 & h9 & h10 & h11
        & E1 & E2 & E3 & E4 & E5 & E6 & E7 & E8 & E9 & E10 & E11 & E12).
  rewrite (kwarg_lookup _ _ _ _ Ekhd), or_new_dict_ref in E1.
  injection E1 as <- <-.
  rewrite (kwarg_lookup _ _ _ _ Ekh), or_new_dict_ref in E3.
  injection E3 as <- <-.
  assert (K2 : kept any_object h h2)
    by (eapply frames_run, E2; apply frames_or_new_dict).
  assert (Eself2 : h2 !! self = Some (OInst attrs))
    by (eapply kept_lookup; [exact K2|exact Eself|done]).
  assert (Es2 : h2 !! ls = Some (ODict ds))
    by (eapply kept_lookup; [exact K2|exact Es|done]).
  assert (Eh2 : h2 !! lh = Some (ODict dh))
    by (eapply kept_lookup; [exact K2|exact Eh|done]).
  assert (Ehd2 : h2 !! lhd = Some (ODict dhd))
    by (eapply kept_lookup; [exact K2|exact Ehd|done]).
  rewrite (seed_hooks_exact _ _ _ _ _ _ _ Eself2 Ehooks Es2 Eh2) in E4.
  injection E4 as <-.
  set (h4 := <[lh := ODict (dh ∪ ds)]> h2) in *.
  assert (Ehd4 : h4 !! lhd = Some (ODict dhd))
    by (unfold h4; by rewrite list_lookup_insert_ne).
  rewrite (expand_headers_exact _ _ _ Ehd4) in E5.
  injection E5 as <-.
  set (h5 := <[lhd := ODict (header_expand <$> dhd)]> h4) in *.
  assert (Ehd5 : h5 !! lhd = Some (ODict (header_expand <$> dhd)))
    by (by eapply lookup_store_eq).
  assert (Eh5 : h5 !! lh = Some (ODict (dh ∪ ds))).
  { unfold h5. rewrite list_lookup_insert_ne by done.
    by eapply lookup_store_eq. }
  set (Φ := not_jar).
  assert (K6 : kept Φ h5 h6)
    by (eapply frames_run, E6; apply frames_from_key_val_list).
  assert (K7 : kept Φ h6 h7)
    by (eapply frames_run, E7; apply frames_from_key_val_list).
  assert (K8 : kept Φ h7 h8)
    by (eapply frames_run, E8; apply frames_from_key_val_list).
  assert (K9 : kept Φ h8 h9)
    by (eapply frames_run, E9; apply frames_from_key_val_list).
  assert (K10 : kept Φ h9 h10)
    by (eapply frames_run, E10; apply frames_from_key_val_list).
  assert (K11 : kept Φ h10 h11)
    by (eapply frames_run, E11; apply frames_merge_cookies; intros ? ? []).
  assert (K12 : kept Φ h11 h')
    by (eapply frames_run, E12; apply frames_merge_attrs).
  assert (K : kept Φ h5 h') by (repeat (eapply kept_trans; [eassumption|]);
                                 apply kept_refl).
  split.
  - eapply kept_lookup; [exact K|exact Eh5|done].
  - eapply kept_lookup; [exact K|exact Ehd5|done].
Qed.

(** C7. The hooks [request] resolves for a call that passes a hooks dict.
    The caller's dict is seeded first: afterwards it holds, besides its
    own entries, the session's entry for every event name it did not
    have.  The resolved hooks are a dict in which an event name of the
    call's dict keeps the call's hook, whether or not the session has one
    for it; an event name only the session has gets the session's hook;
    no other event name appears.  Hooks are callables: an entry whose
    value is [None] is not a hook, and an event name mapped to [None], by
    the call or, when the call does not have it, by the session, resolves
    to no hook at all. *)
Theorem hooks_call_over_session self method url kw h attrs ls ds lh dh
    args h' :
  h !! self = Some (OInst attrs) →
  attrs !! "hooks" = Some (VRef ls) →
  h !! ls = Some (ODict ds) →
  kw !! "hooks" = Some (VRef lh) →
  h !! lh = Some (ODict dh) →
  kw !! "headers" ≠ Some (VRef lh) →
  kw !! "headers" ≠ Some (VRef ls) →
  request_args self method url kw h = (Ok args, h') →
  ∃ l m,
    args !! "hooks" = Some (VRef l)
    ∧ h' !! l = Some (ODict m)
    ∧ (∀ k v, dh !! k = Some v → v ≠ VNone → m !! k = Some v)
    ∧ (∀ k v, dh !! k = None → ds !! k = Some v → v ≠ VNone →
         m !! k = Some v)
    ∧ (∀ k, dh !! k = None → ds !! k = None → m !! k = None)
    ∧ (∀ k, dh !! k = Some VNone → m !! k = None)
    ∧ (∀ k, dh !! k = None → ds !! k = Some VNone → m !! k = None)
    ∧ h' !! lh = Some (ODict (dh ∪ ds)).
Proof.
  intros Eself Ehooks Es Ekh Eh Hhl Hhs H.
  apply request_args_inv in H
    as (headers & params & hooks & prefetch & a_params & a_headers & a_hooks
        & a_proxies & a_config & poolmanager & data & files & args1
        & h1 & h2 & h3 & h4 & h5 & h6 & h7 & h8 & h9 & h10 & h11
        & E1 & E2 & E3 & E4 & E5 & E6 & E7 & E8 & E9 & E10 & E11 & E12).
  assert (Hl : headers ≠ VRef lh) by (eapply or_new_dict_fresh; eauto).
  assert (Hs : headers ≠ VRef ls) by (eapply or_new_dict_fresh; eauto).
  rewrite (kwarg_lookup _ _ _ _ Ekh), or_new_dict_ref in E3.
  injection E3 as <- <-.
  assert (K1 : kept any_object h h1)
    by (eapply frames_run, E1; apply frames_or_new_dict).
  assert (K2 : kept any_object h1 h2)
    by (eapply frames_run, E2; apply frames_or_new_dict).
  pose proof (kept_trans _ _ _ _ K1 K2) as K.
  assert (Eself2 : h2 !! self = Some (OInst attrs))
    by (eapply kept_lookup; [exact K|exact Eself|done]).
  assert (Es2 : h2 !! ls = Some (ODict ds))
    by (eapply kept_lookup; [exact K|exact Es|done]).
  assert (Eh2 : h2 !! lh = Some (ODict dh))
    by (eapply kept_lookup; [exact K|exact Eh|done]).
  rewrite (seed_hooks_exact _ _ _ _ _ _ _ Eself2 Ehooks Es2 Eh2) in E4.
  injection E4 as <-.
  set (h4 := <[lh := ODict (dh ∪ ds)]> h2) in *.
  assert (Eh4 : h4 !! lh = Some (ODict (dh ∪ ds)))
    by (by eapply lookup_store_eq).
  assert (Es4 : h4 !! ls = Some (ODict ds)).
  { destruct (decide (ls = lh)) as [->|Hne].
    - rewrite Eh4. rewrite Es in Eh. injection Eh as <-.
      by rewrite (idemp_L (∪)).
    - unfold h4. by rewrite list_lookup_insert_ne. }
  assert (Eself4 : h4 !! self = Some (OInst attrs)).
  { unfold h4. rewrite list_lookup_insert_ne; [done|].
    intros <-. rewrite Eself in Eh. discriminate. }
  set (Φ := not_jar_nor headers).
  assert (K5 : kept Φ h4 h5).
  { eapply frames_run, E5. apply frames_expand_headers.
    intros l d -> HΦ. by apply HΦ. }
  assert (K6 : kept Φ h5 h6)
    by (eapply frames_run, E6; apply frames_from_key_val_list).
  assert (K7 : kept Φ h6 h7)
    by (eapply frames_run, E7; apply frames_from_key_val_list).
  assert (K47 : kept Φ h4 h7)
    by (repeat (eapply kept_trans; [eassumption|]); apply kept_refl).
  assert (Eh7 : h7 !! lh = Some (ODict (dh ∪ ds))).
  { eapply kept_lookup; [exact K47|exact Eh4|]. simpl. congruence. }
  rewrite (from_key_val_list_dict _ _ _ Eh7) in E8. injection E8 as <- <-.
  assert (K9 : kept Φ h7 h9)
    by (eapply frames_run, E9; apply frames_from_key_val_list).
  assert (K10 : kept Φ h9 h10)
    by (eapply frames_run, E10; apply frames_from_key_val_list).
  assert (K11 : kept Φ h10 h11)
    by (eapply frames_run, E11; apply frames_merge_cookies; intros ? ? []).
  assert (K' : kept Φ h4 h11).
  { eapply kept_trans; [exact K47|].
    repeat (eapply kept_trans; [eassumption|]). apply kept_refl. }
  destruct (merge_attrs_dicts self attrs __attrs__ "hooks" lh (dh ∪ ds) ls ds
              Ehooks ltac:(done) NoDup_attrs
              ltac:(apply (bool_decide_unpack _); by vm_compute)
              args1 h11 args h') as (l & Ea & El & _); try done.
  - eapply kept_lookup; [exact K'|exact Eself4|done].
  - eapply kept_lookup; [exact K'|exact Eh4|]. simpl. congruence.
  - eapply kept_lookup; [exact K'|exact Es4|]. simpl. congruence.
  - rewrite (merge_cookies_other _ _ _ _ _ _ "hooks" E11) by done.
    apply lookup_request_dict_hooks.
  - assert (K12 : kept any_object h11 h')
      by (eapply frames_run, E12; apply frames_merge_attrs).
    exists l, (merged (dh ∪ ds) ds). split_and!; try done.
    + intros k v Ek Hv. rewrite lookup_merged, lookup_union, Ek.
      destruct (ds !! k), v; done.
    + intros k v Ek Ev Hv. rewrite lookup_merged, lookup_union, Ek, Ev.
      destruct v; done.
    + intros k Ek Ev. by rewrite lookup_merged, lookup_union, Ek, Ev.
    + intros k Ek. rewrite lookup_merged, lookup_union, Ek.
      by destruct (ds !! k).
    + intros k Ek Ev. by rewrite lookup_merged, lookup_union, Ek, Ev.
    + eapply kept_lookup; [exact K12| |done].
      eapply kept_lookup; [exact K'|exact Eh4|]. simpl. congruence.
Qed.


(** C5. A verb method whose descriptor gets built and whose send step
    raises a transport error: with safe mode engaged the call returns a
    new response object that carries the error, with safe mode
    disengaged the call raises that error. *)
Theorem safe_mode_transport_failure v self url data kwargs h lr args h1 c h2 :
  request_build self (verb_method v) url (verb_kwargs v data kwargs) h
  = (Ok (VRef lr, args), h1) →
  truthy (kwarg (verb_kwargs v data kwargs) "return_response" (VBool true)) h1
  = (Ok true, h1) →
  send lr (default VNone (args !! "prefetch")) h1
  = (Raise (TransportError c), h2) →
  call_verb v self url data kwargs h
  = if safe_mode
    then (Ok (VRef (length h2)),
          h2 ++ [OInst {[ "error" := VExn (TransportError c) ]}])
    else (Raise (TransportError c), h2).
Proof.
  intros Eb Et Es. rewrite call_verb_request. unfold request.
  mrun Eb. simpl fst. simpl snd. mrun Et.
  unfold _send_request, catch_exceptions_if_in_safe_mode.
  cbv beta iota delta [negb].
  destruct safe_mode; unfold bind; by rewrite Es.
Qed.

(** ** Further properties of [merge_kwargs] *)

Lemma merged_empty_l (dd : gmap string value) : merged ∅ dd = dd.
Proof.
  apply map_eq. intros k. by rewrite lookup_merged, lookup_empty.
Qed.

Lemma merged_idemp (dl dd : gmap string value) :
  merged dl (merged dl dd) = merged dl dd.
Proof.
  apply map_eq. intros k. rewrite !lookup_merged.
  by destruct (dl !! k) as [[]|].
Qed.

(** X1. Whatever its arguments and whether it returns or raises,
    [merge_kwargs] changes no object of the store: it only adds new
    ones. *)
Theorem merge_kwargs_only_allocates local_kwarg default_kwarg h :
  ∃ t, (merge_kwargs local_kwarg default_kwarg h).2 = h ++ t.
Proof.
  destruct (merge_kwargs_run local_kwarg default_kwarg h) as (r & t & E & _).
  exists t. by rewrite E.
Qed.

(** X2. An empty local dict is answered with a copy of the session default, a
    new object with the same entries; an absent local ([None]) is
    answered with the session default itself. *)
Theorem merge_kwargs_empty_local_copies h ll ld dd :
  h !! ll = Some (ODict ∅) →
  h !! ld = Some (ODict dd) →
  merge_kwargs (VRef ll) (VRef ld) h
  = (Ok (VRef (length h)), h ++ [ODict dd])
  ∧ merge_kwargs VNone (VRef ld) h = (Ok (VRef ld), h).
Proof.
  intros El Ed. split; [|done].
  by rewrite (merge_kwargs_dicts _ _ _ _ _ El Ed), merged_empty_l.
Qed.

Lemma merge_kwargs_plain local_kwarg default_kwarg h :
  as_dict h default_kwarg = None →
  merge_kwargs local_kwarg default_kwarg h
  = (Ok (if is_none local_kwarg then default_kwarg else local_kwarg), h).
Proof.
  intros Ed. unfold merge_kwargs.
  destruct default_kwarg, local_kwarg; msimpl; try reflexivity;
    mrun (hasattr_items_other h _ Ed); msimpl; reflexivity.
Qed.

(** X4. With a session default that is not a mapping (a timeout, a flag, a
    credentials object, or nothing at all), the four early exits add up
    to one rule: the local value wins unless it is [None], and then the
    session default is the answer; the store is not touched. *)
Theorem merge_kwargs_non_mapping_default local_kwarg default_kwarg h :
  as_dict h default_kwarg = None →
  merge_kwargs local_kwarg default_kwarg h
  = (Ok (if is_none local_kwarg then default_kwarg else local_kwarg), h).
Proof.
  intros Ed. unfold merge_kwargs.
  destruct default_kwarg, local_kwarg; msimpl; try reflexivity;
    mrun (hasattr_items_other h _ Ed); msimpl; reflexivity.
Qed.

(** X3. Merging the same local dict a second time, into the result of the
    first merge, gives the same entries again. *)
Theorem merge_kwargs_twice h ll ld dl dd :
  h !! ll = Some (ODict dl) →
  h !! ld = Some (ODict dd) →
  ∃ m, (let* r := merge_kwargs (VRef ll) (VRef ld) in
        merge_kwargs (VRef ll) r) h
       = (Ok (VRef (S (length h))), h ++ [ODict m; ODict m])
     ∧ merge_kwargs (VRef ll) (VRef ld) h
       = (Ok (VRef (length h)), h ++ [ODict m]).
Proof.
  intros El Ed. exists (merged dl dd).
  split; [|by apply merge_kwargs_dicts].
  rewrite (bind_ok _ _ _ _ _ (merge_kwargs_dicts _ _ _ _ _ El Ed)).
  rewrite (merge_kwargs_dicts (h ++ [ODict (merged dl dd)]) ll (length h)
             dl (merged dl dd)).
  - rewrite merged_idemp, length_app, <- app_assoc. simpl.
    by replace (length h + 1) with (S (length h)) by lia.
  - by apply lookup_alloc_old.
  - apply lookup_alloc_new.
Qed.

(** ** Further lemmas on the loops of [request] *)

(** A tracked attribute whose session value is a plain value. *)
Lemma merge_attrs_plain self attrs names k :
  k ≠ "cookies" →
  scalar (default VNone (attrs !! k)) →
  NoDup names →
  k ∈ names →
  ∀ args h args' h',
    h !! self = Some (OInst attrs) →
    foldM (merge_attr self) args names h = (Ok args', h') →
    args' !! k = Some (if is_none (default VNone (args !! k))
                       then default VNone (attrs !! k)
                       else default VNone (args !! k)).
Proof.
  intros Hk Hs ND. induction names as [|a names IH];
    intros Hin args h args' h' Eself H.
  - by apply elem_of_nil in Hin.
  - apply NoDup_cons in ND as [Ha ND]. simpl in H.
    apply bind_Ok_inv in H as (args1 & h1 & E1 & H).
    pose proof (frames_run any_object _ _ _ _
                  (frames_merge_attr _ self args a) E1) as K1.
    assert (Eself1 : h1 !! self = Some (OInst attrs))
      by (by eapply kept_lookup).
    destruct (decide (a = k)) as [->|Hne].
    + unfold merge_attr in E1.
      rewrite (proj2 (String.eqb_neq k "cookies") Hk) in E1.
      rewrite (bind_ok _ _ _ _ _
                 (getattr_default_inst _ _ _ k VNone Eself)) in E1.
      assert (Ed : as_dict h (default VNone (attrs !! k)) = None).
      { destruct (default VNone (attrs !! k)) as [| | | | | | |l];
          try done. by destruct (Hs l). }
      rewrite (bind_ok _ _ _ _ _
                 (merge_kwargs_plain (default VNone (args !! k)) _ h Ed))
        in E1.
      injection E1 as <- <-.
      rewrite (merge_attrs_other _ _ _ _ _ _ k H) by (by left).
      by rewrite lookup_insert_eq.
    + apply elem_of_cons in Hin as [->|Hin]; [done|].
      rewrite (IH ND Hin args1 h1 args' h' Eself1 H).
      rewrite (merge_attr_other _ _ _ _ _ _ k E1); [done|]. left. congruence.
Qed.

(** The keys of [args] after the loop over the tracked attributes. *)
Lemma merge_attr_dom self args attr h args' h' k :
  merge_attr self args attr h = (Ok args', h') →
  is_Some (args' !! k) ↔ is_Some (args !! k) ∨ (k = attr ∧ k ≠ "cookies").
Proof.
  unfold merge_attr. intros H.
  destruct (String.eqb attr "cookies") eqn:Ec.
  - injection H as <- <-. apply String.eqb_eq in Ec.
    split; [by left|]. intros [?|[-> ?]]; [done|congruence].
  - apply bind_Ok_inv in H as (sv & h1 & _ & H).
    apply bind_Ok_inv in H as (v & h2 & _ & H).
    injection H as <- <-. apply String.eqb_neq in Ec.
    rewrite lookup_insert_is_Some'. split.
    + intros [<-|?]; [right; by split|by left].
    + intros [?|[-> _]]; [by right|by left].
Qed.

Lemma merge_attrs_dom self names : ∀ args h args' h' k,
  foldM (merge_attr self) args names h = (Ok args', h') →
  is_Some (args' !! k) ↔ is_Some (args !! k) ∨ (k ∈ names ∧ k ≠ "cookies").
Proof.
  induction names as [|a names IH]; intros args h args' h' k H; simpl in H.
  - injection H as <- <-. split; [by left|].
    intros [?|[Hin _]]; [done|]. by apply elem_of_nil in Hin.
  - apply bind_Ok_inv in H as (args1 & h1 & E1 & H).
    rewrite (IH _ _ _ _ k H), (merge_attr_dom _ _ _ _ _ _ k E1), elem_of_cons.
    split.
    + intros [[?|[? ?]]|[? ?]];
        [by left|right; split; [by left|done]|right; split; [by right|done]].
    + intros [?|[[?|?] ?]];
        [left; by left|left; right; by split|right; by split].
Qed.

Lemma merge_cookies_cookies self cookies args h args' h' :
  merge_cookies self cookies args h = (Ok args', h') →
  is_Some (args !! "cookies") →
  is_Some (args' !! "cookies").
Proof.
  unfold merge_cookies. intros H Hc.
  apply bind_Ok_inv in H as (is_jar & h1 & _ & H).
  apply bind_Ok_inv in H as (found & h2 & Ef & H).
  apply bind_Ok_inv in H as (sc & h3 & _ & H).
  apply bind_Ok_inv in H as (cs & h4 & _ & H).
  apply bind_Ok_inv in H as ([] & h5 & _ & H).
  apply bind_Ok_inv in H as ([] & h6 & _ & H).
  injection H as <- <-.
  destruct (negb is_jar).
  - apply bind_Ok_inv in Ef as (j & h1' & _ & Ef).
    destruct (negb (is_none cookies)).
    + apply bind_Ok_inv in Ef as (its & h1'' & _ & Ef).
      injection Ef as <- <-. simpl. rewrite lookup_insert_eq. eauto.
    + injection Ef as <- <-. simpl. rewrite lookup_insert_eq. eauto.
  - by injection Ef as <- <-.
Qed.

Lemma request_dict_keys method url data params headers cookies files auth
    hooks timeout allow_redirects proxies config prefetch verify cert
    poolmanager k :
  is_Some (request_dict method url data params headers cookies files auth
             hooks timeout allow_redirects proxies config prefetch verify
             cert poolmanager !! k)
  ↔ k ∈ args_keys.
Proof.
  assert (HN : is_Some (@None value) ↔ False)
    by (split; [intros [? ?]; discriminate|done]).
  unfold request_dict. rewrite !lookup_insert_is_Some', lookup_empty, HN.
  split.
  - intros H.
    repeat (destruct H as [<-|H];
            [apply (bool_decide_unpack _); by vm_compute|]).
    done.
  - intros H. unfold args_keys in H.
    repeat (apply elem_of_cons in H as [->|H]);
      try (by apply elem_of_nil in H);
      repeat first [by left | right].
Qed.

Lemma attrs_args_keys k : k ∈ __attrs__ → k ∈ args_keys.
Proof.
  intros Hin. unfold __attrs__ in Hin.
  repeat (apply elem_of_cons in Hin as [->|Hin]);
    try (by apply elem_of_nil in Hin);
    apply (bool_decide_unpack _); by vm_compute.
Qed.

(** ** Further properties of [request]: what a call leaves alone *)

Lemma frames_request_args Φ self method url kw :
  (∀ l d, ¬ Φ l (ODict d)) →
  (∀ l j, ¬ Φ l (OJar j)) →
  frames Φ (request_args self method url kw).
Proof.
  intros Hd Hj. unfold request_args.
  destruct (negb (forallb _ _)); [apply frames_raise|]. cbv zeta.
  repeat first
    [ apply frames_or_new_dict
    | apply frames_merge_attrs
    | (apply frames_merge_cookies; exact Hj)
    | (apply frames_seed_hooks; intros l d _; apply Hd)
    | (apply frames_expand_headers; intros l d _; apply Hd)
    | frames_step ].
Qed.

(** X5. Preparing the arguments of a call never changes an instance or a
    pool handle, whether the preparation returns or raises: the session
    object keeps every attribute it had, so nothing of a call is stored
    on the session. *)
Theorem request_args_keeps_instances self method url kw h l o :
  h !! l = Some o →
  inst_or_pool l o →
  (request_args self method url kw h).2 !! l = Some o.
Proof.
  intros E Ho. eapply kept_lookup; [|exact E|exact Ho].
  apply frames_request_args; by intros ? ? [].
Qed.

(** The stages of a returning run, with what each of them leaves alone. *)
Lemma request_args_stages self method url kw h args' h' :
  request_args self method url kw h = (Ok args', h') →
  ∃ headers params prefetch a_params a_headers a_hooks a_proxies a_config
    poolmanager data files args1 h1 h2 h4 h5 h6 h7 h8 h9 h10 h11,
    (or_new_dict (kwarg kw "headers" VNone) h = (Ok headers, h1)
     ∧ or_new_dict (kwarg kw "params" VNone) h1 = (Ok params, h2)
     ∧ expand_headers headers h4 = (Ok tt, h5)
     ∧ from_key_val_list params h5 = (Ok a_params, h6)
     ∧ from_key_val_list headers h6 = (Ok a_headers, h7)
     ∧ from_key_val_list (kwarg kw "proxies" VNone) h8 = (Ok a_proxies, h9)
     ∧ from_key_val_list (kwarg kw "config" VNone) h9 = (Ok a_config, h10)
     ∧ merge_attrs self args1 h11 = (Ok args', h'))
    ∧ (∀ k, k ≠ "cookies" →
         args1 !! k
         = request_dict (upper method) url data a_params a_headers
             (kwarg kw "cookies" VNone) files (kwarg kw "auth" VNone) a_hooks
             (kwarg kw "timeout" VNone)
             (kwarg kw "allow_redirects" (VBool true)) a_proxies a_config
             prefetch (kwarg kw "verify" VNone) (kwarg kw "cert" VNone)
             poolmanager !! k)
    ∧ (∀ l d, h !! l = Some (ODict d) → kw !! "hooks" ≠ Some (VRef l) →
         h4 !! l = Some (ODict d))
    ∧ kept (not_jar_nor headers) h4 h5
    ∧ kept not_jar h5 h6 ∧ kept not_jar h5 h8 ∧ kept not_jar h5 h9
    ∧ kept not_jar h5 h11
    ∧ kept any_object h11 h'
    ∧ kept inst_or_pool h h11
    ∧ (length h ≤ length h4)%nat.
Proof.
  intros H. apply request_args_inv in H
    as (headers & params & hooks & prefetch & a_params & a_headers & a_hooks
        & a_proxies & a_config & poolmanager & data & files & args1
        & h1 & h2 & h3 & h4 & h5 & h6 & h7 & h8 & h9 & h10 & h11
        & E1 & E2 & E3 & E4 & E5 & E6 & E7 & E8 & E9 & E10 & E11 & E12).
  assert (F : ∀ Φ : loc → object → Prop,
            (∀ l d, ¬ Φ l (ODict d)) → (∀ l j, ¬ Φ l (OJar j)) →
            kept Φ h h1 ∧ kept Φ h1 h2 ∧ kept Φ h2 h3 ∧ kept Φ h3 h4
            ∧ kept Φ h4 h5 ∧ kept Φ h5 h6 ∧ kept Φ h6 h7 ∧ kept Φ h7 h8
            ∧ kept Φ h8 h9 ∧ kept Φ h9 h10 ∧ kept Φ h10 h11).
  { intros Φ Hd Hj. split_and!.
    - eapply frames_run, E1; apply frames_or_new_dict.
    - eapply frames_run, E2; apply frames_or_new_dict.
    - eapply frames_run, E3; apply frames_or_new_dict.
    - eapply frames_run, E4; apply frames_seed_hooks; intros l d _; apply Hd.
    - eapply frames_run, E5; apply frames_expand_headers; intros l d _;
        apply Hd.
    - eapply frames_run, E6; apply frames_from_key_val_list.
    - eapply frames_run, E7; apply frames_from_key_val_list.
    - eapply frames_run, E8; apply frames_from_key_val_list.
    - eapply frames_run, E9; apply frames_from_key_val_list.
    - eapply frames_run, E10; apply frames_from_key_val_list.
    - eapply frames_run, E11; by apply frames_merge_cookies. }
  assert (K1 : kept any_object h h1)
    by (eapply frames_run, E1; apply frames_or_new_dict).
  assert (K2 : kept any_object h1 h2)
    by (eapply frames_run, E2; apply frames_or_new_dict).
  assert (K3 : kept any_object h2 h3)
    by (eapply frames_run, E3; apply frames_or_new_dict).
  assert (K4 : kept (not_jar_nor hooks) h3 h4).
  { eapply frames_run, E4. apply frames_seed_hooks.
    intros l d -> HΦ. by apply HΦ. }
  assert (K5 : kept (not_jar_nor headers) h4 h5).
  { eapply frames_run, E5. apply frames_expand_headers.
    intros l d -> HΦ. by apply HΦ. }
  assert (K6 : kept not_jar h5 h6)
    by (eapply frames_run, E6; apply frames_from_key_val_list).
  assert (K7 : kept not_jar h6 h7)
    by (eapply frames_run, E7; apply frames_from_key_val_list).
  assert (K8 : kept not_jar h7 h8)
    by (eapply frames_run, E8; apply frames_from_key_val_list).
  assert (K9 : kept not_jar h8 h9)
    by (eapply frames_run, E9; apply frames_from_key_val_list).
  assert (K10 : kept not_jar h9 h10)
    by (eapply frames_run, E10; apply frames_from_key_val_list).
  assert (K11 : kept not_jar h10 h11)
    by (eapply frames_run, E11; apply frames_merge_cookies; intros ? ? []).
  assert (K12 : kept any_object h11 h')
    by (eapply frames_run, E12; apply frames_merge_attrs).
  pose proof (kept_trans _ _ _ _ K6 (kept_trans _ _ _ _ K7 K8)) as K58.
  pose proof (kept_trans _ _ _ _ K58 K9) as K59.
  pose proof (kept_trans _ _ _ _ K59 (kept_trans _ _ _ _ K10 K11)) as K511.
  exists headers, params, prefetch, a_params, a_headers, a_hooks, a_proxies,
    a_config, poolmanager, data, files, args1, h1, h2, h4, h5, h6, h7, h8,
    h9, h10, h11.
  split; [by split_and!|].
  split; [intros k Hk; by apply (merge_cookies_other _ _ _ _ _ _ k E11)|].
  split.
  { intros l d El Hl.
    assert (El3 : h3 !! l = Some (ODict d)).
    { eapply kept_lookup; [exact K3| |done].
      eapply kept_lookup; [exact K2| |done].
      by eapply kept_lookup; [exact K1| |]. }
    eapply kept_lookup; [exact K4|exact El3|]. simpl.
    intros Heq. symmetry in Heq. revert Heq.
    eapply or_new_dict_fresh; [exact E3| |exact Hl].
    eapply kept_lookup; [exact K2| |done].
    by eapply kept_lookup; [exact K1| |]. }
  split; [exact K5|]. split; [exact K6|]. split; [exact K58|].
  split; [exact K59|]. split; [exact K511|]. split; [exact K12|].
  split.
  - destruct (F inst_or_pool) as (F1 & F2 & F3 & F4 & F5 & F6 & F7 & F8 & F9
                                   & F10 & F11); [by intros ? ? []..|].
    repeat (eapply kept_trans; [eassumption|]). apply kept_refl.
  - destruct K1, K2, K3, K4. lia.
Qed.

(** X6. A returning call leaves every dict of the store as it was, except the
    ones the caller passed as hooks or as headers: the session's own
    headers, params, hooks, proxies and config are read, never written. *)
Theorem request_args_keeps_other_dicts self method url kw h l d args h' :
  h !! l = Some (ODict d) →
  kw !! "hooks" ≠ Some (VRef l) →
  kw !! "headers" ≠ Some (VRef l) →
  request_args self method url kw h = (Ok args, h') →
  h' !! l = Some (ODict d).
Proof.
  intros El Hhooks Hheaders H.
  destruct (request_args_stages _ _ _ _ _ _ _ H)
    as (headers & params & prefetch & a_params & a_headers & a_hooks
        & a_proxies & a_config & poolmanager & data & files & args1
        & h1 & h2 & h4 & h5 & h6 & h7 & h8 & h9 & h10 & h11
        & (E1 & _) & _ & K4 & K5 & _ & _ & _ & K511 & K12 & _).
  eapply kept_lookup; [exact K12| |done].
  eapply kept_lookup; [exact K511| |done].
  eapply kept_lookup; [exact K5|by apply K4|]. simpl.
  intros Heq. symmetry in Heq. revert Heq.
  by eapply or_new_dict_fresh; [exact E1|exact El|].
Qed.

(** ** Further properties of [request]: the cookies of a call *)

(** X7. Without a cookies argument (absent, or [None]) the jar of the call is
    a new jar holding the session's cookies: a copy, so what the request
    does to it later does not reach the session's own jar. *)
Theorem request_args_no_cookies self method url kw h attrs lj js args h' :
  h !! self = Some (OInst attrs) →
  attrs !! "cookies" = Some (VRef lj) →
  h !! lj = Some (OJar js) →
  kwarg kw "cookies" VNone = VNone →
  request_args self method url kw h = (Ok args, h') →
  ∃ l', args !! "cookies" = Some (VRef l')
      ∧ (length h ≤ l')%nat
      ∧ h' !! l' = Some (OJar js)
      ∧ h' !! lj = Some (OJar js).
Proof.
  intros Eself Ecookies Ej Ekc H.
  apply request_args_inv in H
    as (headers & params & hooks & prefetch & a_params & a_headers & a_hooks
        & a_proxies & a_config & poolmanager & data & files & args1
        & h1 & h2 & h3 & h4 & h5 & h6 & h7 & h8 & h9 & h10 & h11
        & E1 & E2 & E3 & E4 & E5 & E6 & E7 & E8 & E9 & E10 & E11 & E12).
  rewrite Ekc in E11.
  set (Φ := not_dict).
  assert (K1 : kept Φ h h1) by (eapply frames_run, E1; apply frames_or_new_dict).
  assert (K2 : kept Φ h1 h2) by (eapply frames_run, E2; apply frames_or_new_dict).
  assert (K3 : kept Φ h2 h3) by (eapply frames_run, E3; apply frames_or_new_dict).
  assert (K4 : kept Φ h3 h4)
    by (eapply frames_run, E4; apply frames_seed_hooks; by intros l d _ ?).
  assert (K5 : kept Φ h4 h5)
    by (eapply frames_run, E5; apply frames_expand_headers; by intros l d _ ?).
  assert (K6 : kept Φ h5 h6)
    by (eapply frames_run, E6; apply frames_from_key_val_list).
  assert (K7 : kept Φ h6 h7)
    by (eapply frames_run, E7; apply frames_from_key_val_list).
  assert (K8 : kept Φ h7 h8)
    by (eapply frames_run, E8; apply frames_from_key_val_list).
  assert (K9 : kept Φ h8 h9)
    by (eapply frames_run, E9; apply frames_from_key_val_list).
  assert (K10 : kept Φ h9 h10)
    by (eapply frames_run, E10; apply frames_from_key_val_list).
  assert (K : kept Φ h h10) by (repeat (eapply kept_trans; [eassumption|]);
                                 apply kept_refl).
  assert (Ej10 : h10 !! lj = Some (OJar js))
    by (by eapply kept_lookup; [exact K|exact Ej|]).
  assert (Es10 : h10 !! self = Some (OInst attrs))
    by (by eapply kept_lookup; [exact K|exact Eself|]).
  rewrite (merge_cookies_none _ _ _ _ _ _ Es10 Ecookies Ej10) in E11.
  injection E11 as <- <-.
  assert (K12 : kept any_object (h10 ++ [OJar js]) h')
    by (eapply frames_run, E12; apply frames_merge_attrs).
  exists (length h10). split; [|split; [|split]].
  - rewrite (merge_attrs_other _ _ _ _ _ _ "cookies" E12) by (by right).
    by rewrite lookup_insert_eq.
  - by destruct K.
  - eapply kept_lookup; [exact K12|apply lookup_alloc_new|done].
  - eapply kept_lookup; [exact K12|by apply lookup_alloc_old|done].
Qed.

(** X8. With a cookie jar as cookies argument, the caller's jar itself is the
    jar of the call, and it is written to: afterwards it holds every
    cookie of the session, with the session's value where both had the
    key, besides the cookies only it had.  The session's jar is as it
    was. *)
Theorem request_args_jar_argument_filled self method url kw h attrs lj js lc
    jc args h' :
  h !! self = Some (OInst attrs) →
  attrs !! "cookies" = Some (VRef lj) →
  h !! lj = Some (OJar js) →
  kw !! "cookies" = Some (VRef lc) →
  h !! lc = Some (OJar jc) →
  request_args self method url kw h = (Ok args, h') →
  ∃ j : jar,
    args !! "cookies" = Some (VRef lc)
    ∧ h' !! lc = Some (OJar j)
    ∧ (∀ key v, js !! key = Some v → j !! key = Some v)
    ∧ (∀ key, js !! key = None → j !! key = jc !! key)
    ∧ h' !! lj = Some (OJar js).
Proof.
  intros Eself Ecookies Ej Ekc Ec H.
  destruct (request_args_cookies_jar _ _ _ _ _ _ _ _ _ _ _ _
              Eself Ecookies Ej Ekc Ec H) as (Ea & Ec' & Ej').
  exists (js ∪ jc). repeat split; try done.
  - intros key v E. by apply lookup_union_Some_l.
  - intros key E. by rewrite lookup_union, E, (left_id_L None _).
  - destruct (decide (lc = lj)) as [->|Hne]; [|by apply Ej'].
    rewrite Ej in Ec. injection Ec as <-.
    by rewrite Ec', (idemp_L (∪)).
Qed.

(** ** Further properties of [request]: the merged arguments *)

Lemma lookup_request_dict_headers method url data params headers
    cookies files auth hooks timeout allow_redirects proxies config prefetch
    verify cert poolmanager :
  request_dict method url data params headers cookies files auth hooks
    timeout allow_redirects proxies config prefetch verify cert poolmanager
    !! "headers" = Some headers.
Proof. unfold request_dict. by simplify_map_eq. Qed.

(** X9. The headers of a call that passes a headers dict: first every value
    of the caller's dict is expanded, then the dict is merged over the
    session's headers into a new dict.  So a header of the call replaces
    the session's, a header only the session has is inherited, and a
    header is dropped when its expanded value is [None]. *)
Theorem request_args_headers_merged self method url kw h attrs lsh dsh lhd dhd
    args h' :
  h !! self = Some (OInst attrs) →
  attrs !! "headers" = Some (VRef lsh) →
  h !! lsh = Some (ODict dsh) →
  kw !! "headers" = Some (VRef lhd) →
  h !! lhd = Some (ODict dhd) →
  lhd ≠ lsh →
  kw !! "hooks" ≠ Some (VRef lhd) →
  kw !! "hooks" ≠ Some (VRef lsh) →
  request_args self method url kw h = (Ok args, h') →
  ∃ l, args !! "headers" = Some (VRef l)
     ∧ (length h ≤ l)%nat
     ∧ h' !! l = Some (ODict (merged (header_expand <$> dhd) dsh))
     ∧ h' !! lsh = Some (ODict dsh).
Proof.
  intros Eself Eheaders Esh Ekhd Ehd Hne Hh1 Hh2 H.
  destruct (request_args_stages _ _ _ _ _ _ _ H)
    as (headers & params & prefetch & a_params & a_headers & a_hooks
        & a_proxies & a_config & poolmanager & data & files & args1
        & h1 & h2 & h4 & h5 & h6 & h7 & h8 & h9 & h10 & h11
        & (E1 & _ & E5 & _ & E7 & _ & _ & E12) & Hargs1 & K4 & _ & K6 & _ & _
        & K511 & K12 & Kinst & Hlen).
  rewrite (kwarg_lookup _ _ _ _ Ekhd), or_new_dict_ref in E1.
  injection E1 as <- <-.
  pose proof (K4 _ _ Ehd Hh1) as Ehd4.
  pose proof (K4 _ _ Esh Hh2) as Esh4.
  rewrite (expand_headers_exact _ _ _ Ehd4) in E5. injection E5 as <-.
  set (h5 := <[lhd := ODict (header_expand <$> dhd)]> h4) in *.
  assert (Ehd5 : h5 !! lhd = Some (ODict (header_expand <$> dhd)))
    by (by eapply lookup_store_eq).
  assert (Esh5 : h5 !! lsh = Some (ODict dsh))
    by (unfold h5; rewrite list_lookup_insert_ne; done).
  assert (Ehd6 : h6 !! lhd = Some (ODict (header_expand <$> dhd)))
    by (eapply kept_lookup; [exact K6|exact Ehd5|done]).
  rewrite (from_key_val_list_dict _ _ _ Ehd6) in E7. injection E7 as <- <-.
  destruct (merge_attrs_dicts self attrs __attrs__ "headers" lhd
              (header_expand <$> dhd) lsh dsh
              Eheaders ltac:(done) NoDup_attrs
              ltac:(apply (bool_decide_unpack _); by vm_compute)
              args1 h11 args h') as (l & Ea & El & Hl); try done.
  - eapply kept_lookup; [exact Kinst|exact Eself|done].
  - eapply kept_lookup; [exact K511|exact Ehd5|done].
  - eapply kept_lookup; [exact K511|exact Esh5|done].
  - rewrite Hargs1 by done. apply lookup_request_dict_headers.
  - exists l. repeat split; try done.
    + destruct K511 as [L511 _]. unfold h5 in L511.
      rewrite length_insert in L511. lia.
    + eapply kept_lookup; [exact K12| |done].
      eapply kept_lookup; [exact K511|exact Esh5|done].
Qed.

Lemma lookup_request_dict_mapping k method url data params headers
    cookies files auth hooks timeout allow_redirects proxies config prefetch
    verify cert poolmanager :
  k ∈ ["params"; "proxies"; "config"] →
  request_dict method url data params headers cookies files auth hooks
    timeout allow_redirects proxies config prefetch verify cert poolmanager
    !! k
  = Some (if String.eqb k "params" then params
          else if String.eqb k "proxies" then proxies else config).
Proof.
  intros Hk. unfold request_dict.
  repeat (apply elem_of_cons in Hk as [->|Hk]);
    try (by apply elem_of_nil in Hk); by simplify_map_eq.
Qed.

(** X10. The params, the proxies and the config of a call that passes a dict
    for them: the dict is merged over the session's dict of the same name
    into a new dict, and neither of the two is changed.  (They must not
    be the dicts the caller passes as hooks or headers, which [request]
    writes to.) *)
Theorem request_args_mapping_merged self method url kw h attrs k ll dl ld dd
    args h' :
  k ∈ ["params"; "proxies"; "config"] →
  h !! self = Some (OInst attrs) →
  attrs !! k = Some (VRef ld) →
  h !! ld = Some (ODict dd) →
  kw !! k = Some (VRef ll) →
  h !! ll = Some (ODict dl) →
  kw !! "hooks" ≠ Some (VRef ll) →
  kw !! "hooks" ≠ Some (VRef ld) →
  kw !! "headers" ≠ Some (VRef ll) →
  kw !! "headers" ≠ Some (VRef ld) →
  request_args self method url kw h = (Ok args, h') →
  ∃ l, args !! k = Some (VRef l)
     ∧ (length h ≤ l)%nat
     ∧ h' !! l = Some (ODict (merged dl dd))
     ∧ h' !! ll = Some (ODict dl)
     ∧ h' !! ld = Some (ODict dd).
Proof.
  intros Hk Eself Ek Ed Ekl El Hh1 Hh2 Hd1 Hd2 H.
  destruct (request_args_stages _ _ _ _ _ _ _ H)
    as (headers & params & prefetch & a_params & a_headers & a_hooks
        & a_proxies & a_config & poolmanager & data & files & args1
        & h1 & h2 & h4 & h5 & h6 & h7 & h8 & h9 & h10 & h11
        & (E1 & E2 & E5 & E6 & E7 & E9 & E10 & E12) & Hargs1 & K4 & K5 & K6
        & K58 & K59 & K511 & K12 & Kinst & Hlen).
  assert (Hl1 : headers ≠ VRef ll) by (eapply or_new_dict_fresh; eauto).
  assert (Hl2 : headers ≠ VRef ld) by (eapply or_new_dict_fresh; eauto).
  assert (El5 : h5 !! ll = Some (ODict dl)).
  { eapply kept_lookup; [exact K5|by apply K4|]. simpl. congruence. }
  assert (Ed5 : h5 !! ld = Some (ODict dd)).
  { eapply kept_lookup; [exact K5|by apply K4|]. simpl. congruence. }
  assert (Hkc : k ≠ "cookies").
  { intros ->. revert Hk. apply (bool_decide_unpack _). by vm_compute. }
  assert (Hka : k ∈ __attrs__).
  { repeat (apply elem_of_cons in Hk as [->|Hk]);
      try (by apply elem_of_nil in Hk);
      apply (bool_decide_unpack _); by vm_compute. }
  assert (Ea1 : args1 !! k = Some (VRef ll)).
  { rewrite Hargs1 by done. rewrite lookup_request_dict_mapping by done.
    f_equal.
    repeat (apply elem_of_cons in Hk as [->|Hk]);
      try (by apply elem_of_nil in Hk); simpl.
    - rewrite (kwarg_lookup _ _ _ _ Ekl), or_new_dict_ref in E2.
      injection E2 as <- <-.
      rewrite (from_key_val_list_dict _ _ _ El5) in E6. by injection E6.
    - rewrite (kwarg_lookup _ _ _ _ Ekl) in E9.
      rewrite (from_key_val_list_dict _ _ dl) in E9; [by injection E9|].
      eapply kept_lookup; [exact K58|exact El5|done].
    - rewrite (kwarg_lookup _ _ _ _ Ekl) in E10.
      rewrite (from_key_val_list_dict _ _ dl) in E10; [by injection E10|].
      eapply kept_lookup; [exact K59|exact El5|done]. }
  assert (El11 : h11 !! ll = Some (ODict dl))
    by (eapply kept_lookup; [exact K511|exact El5|done]).
  assert (Ed11 : h11 !! ld = Some (ODict dd))
    by (eapply kept_lookup; [exact K511|exact Ed5|done]).
  destruct (merge_attrs_dicts self attrs __attrs__ k ll dl ld dd
              Ek Hkc NoDup_attrs Hka args1 h11 args h')
    as (l & Ea & El' & Hl); try done.
  - eapply kept_lookup; [exact Kinst|exact Eself|done].
  - exists l. repeat split; try done.
    + destruct K5, K511. lia.
    + eapply kept_lookup; [exact K12|exact El11|done].
    + eapply kept_lookup; [exact K12|exact Ed11|done].
Qed.

(** What a returning run hands to the loop over the tracked attributes. *)
Lemma request_args_shape self method url kw h attrs args' h' :
  h !! self = Some (OInst attrs) →
  request_args self method url kw h = (Ok args', h') →
  ∃ a_params a_headers a_hooks a_proxies a_config poolmanager args0 args1
    h11,
    attrs !! "poolmanager" = Some poolmanager
    ∧ args0
      = request_dict (upper method) url
          (if is_none (kwarg kw "data" VNone) then VSeq []
           else kwarg kw "data" VNone)
          a_params a_headers (kwarg kw "cookies" VNone)
          (if is_none (kwarg kw "files" VNone) then VSeq []
           else kwarg kw "files" VNone)
          (kwarg kw "auth" VNone) a_hooks (kwarg kw "timeout" VNone)
          (kwarg kw "allow_redirects" (VBool true)) a_proxies a_config
          (if is_none (kwarg kw "prefetch" VNone)
           then default VNone (attrs !! "prefetch")
           else kwarg kw "prefetch" VNone)
          (kwarg kw "verify" VNone) (kwarg kw "cert" VNone) poolmanager
    ∧ (∀ k, k ≠ "cookies" → args1 !! k = args0 !! k)
    ∧ is_Some (args1 !! "cookies")
    ∧ h11 !! self = Some (OInst attrs)
    ∧ merge_attrs self args1 h11 = (Ok args', h').
Proof.
  intros Eself H. unfold request_args in H.
  destruct (negb (forallb _ _)); [discriminate|].
  apply bind_Ok_inv in H as (headers & h1 & E1 & H).
  apply bind_Ok_inv in H as (params & h2 & E2 & H).
  apply bind_Ok_inv in H as (hooks & h3 & E3 & H).
  apply bind_Ok_inv in H as (prefetch & h3' & E3' & H).
  apply bind_Ok_inv in H as ([] & h4 & E4 & H).
  apply bind_Ok_inv in H as ([] & h5 & E5 & H).
  apply bind_Ok_inv in H as (a_params & h6 & E6 & H).
  apply bind_Ok_inv in H as (a_headers & h7 & E7 & H).
  apply bind_Ok_inv in H as (a_hooks & h8 & E8 & H).
  apply bind_Ok_inv in H as (a_proxies & h9 & E9 & H).
  apply bind_Ok_inv in H as (a_config & h10 & E10 & H).
  apply bind_Ok_inv in H as (poolmanager & h10' & E10' & H).
  apply bind_Ok_inv in H as (args1 & h11 & E11 & H).
  assert (Hd : ∀ l d, ¬ inst_or_pool l (ODict d)) by (by intros ? ? []).
  assert (Hj : ∀ l j, ¬ inst_or_pool l (OJar j)) by (by intros ? ? []).
  assert (K1 : kept inst_or_pool h h1) by (eapply frames_run, E1; apply frames_or_new_dict).
  assert (K2 : kept inst_or_pool h1 h2) by (eapply frames_run, E2; apply frames_or_new_dict).
  assert (K3 : kept inst_or_pool h2 h3) by (eapply frames_run, E3; apply frames_or_new_dict).
  assert (Eself3 : h3 !! self = Some (OInst attrs)).
  { eapply (kept_lookup inst_or_pool); [|exact Eself|exact I].
    repeat (eapply kept_trans; [eassumption|]). apply kept_refl. }
  assert (Epf : prefetch
                = (if is_none (kwarg kw "prefetch" VNone)
                   then default VNone (attrs !! "prefetch")
                   else kwarg kw "prefetch" VNone) ∧ h3' = h3).
  { destruct (is_none (kwarg kw "prefetch" VNone)); simpl in E3'.
    - unfold getattr, as_inst in E3'. rewrite Eself3 in E3'.
      destruct (attrs !! "prefetch"); [|discriminate].
      by injection E3' as <- <-.
    - by injection E3' as <- <-. }
  destruct Epf as [Epf ->].
  assert (K4 : kept inst_or_pool h3 h4)
    by (eapply frames_run, E4; apply frames_seed_hooks; intros l d _;
        apply Hd).
  assert (K5 : kept inst_or_pool h4 h5)
    by (eapply frames_run, E5; apply frames_expand_headers; intros l d _;
        apply Hd).
  assert (K6 : kept inst_or_pool h5 h6)
    by (eapply frames_run, E6; apply frames_from_key_val_list).
  assert (K7 : kept inst_or_pool h6 h7)
    by (eapply frames_run, E7; apply frames_from_key_val_list).
  assert (K8 : kept inst_or_pool h7 h8)
    by (eapply frames_run, E8; apply frames_from_key_val_list).
  assert (K9 : kept inst_or_pool h8 h9)
    by (eapply frames_run, E9; apply frames_from_key_val_list).
  assert (K10 : kept inst_or_pool h9 h10)
    by (eapply frames_run, E10; apply frames_from_key_val_list).
  assert (Eself10 : h10 !! self = Some (OInst attrs)).
  { eapply (kept_lookup inst_or_pool); [|exact Eself3|exact I].
    repeat (eapply kept_trans; [eassumption|]). apply kept_refl. }
  assert (Epm : attrs !! "poolmanager" = Some poolmanager ∧ h10' = h10).
  { unfold getattr, as_inst in E10'. rewrite Eself10 in E10'.
    destruct (attrs !! "poolmanager"); [|discriminate].
    by injection E10' as <- <-. }
  destruct Epm as [Epm ->].
  assert (K11 : kept inst_or_pool h10 h11)
    by (eapply frames_run, E11; by apply frames_merge_cookies).
  eexists a_params, a_headers, a_hooks, a_proxies, a_config, poolmanager, _,
    args1, h11.
  split; [exact Epm|]. split; [reflexivity|].
  split; [|split; [|split]].
  - intros k Hk. rewrite (merge_cookies_other _ _ _ _ _ _ k E11) by done.
    by rewrite Epf.
  - eapply merge_cookies_cookies; [exact E11|].
    rewrite lookup_request_dict_cookies. eauto.
  - eapply kept_lookup; [exact K11|exact Eself10|exact I].
  - exact H.
Qed.

(** X11. The attributes that are plain values, not mappings: with a session
    value that is not a reference, the call's value is used unless it is
    absent or [None], and then the session's value.  This holds for
    [prefetch] too, which [request] resolves twice (line 237 and again in
    the loop) to the same effect. *)
Theorem request_args_plain_override self method url kw h attrs a args h' :
  h !! self = Some (OInst attrs) →
  a ∈ ["auth"; "timeout"; "verify"; "cert"; "prefetch"] →
  scalar (default VNone (attrs !! a)) →
  request_args self method url kw h = (Ok args, h') →
  args !! a = Some (if is_none (kwarg kw a VNone)
                    then default VNone (attrs !! a)
                    else kwarg kw a VNone).
Proof.
  intros Eself Ha Hs H.
  destruct (request_args_shape _ _ _ _ _ _ _ _ Eself H)
    as (a_params & a_headers & a_hooks & a_proxies & a_config & poolmanager
        & args0 & args1 & h11 & _ & E0 & Hargs1 & _ & Eself11 & Em).
  assert (Hac : a ≠ "cookies").
  { intros ->. revert Ha. apply (bool_decide_unpack _). by vm_compute. }
  assert (Haa : a ∈ __attrs__).
  { repeat (apply elem_of_cons in Ha as [->|Ha]);
      try (by apply elem_of_nil in Ha);
      apply (bool_decide_unpack _); by vm_compute. }
  rewrite (merge_attrs_plain self attrs __attrs__ a Hac Hs NoDup_attrs Haa
             args1 h11 args h' Eself11 Em).
  rewrite Hargs1 by done. subst args0. unfold request_dict. f_equal.
  repeat (apply elem_of_cons in Ha as [->|Ha]);
    try (by apply elem_of_nil in Ha); simplify_map_eq; try done.
  destruct (is_none (kwarg kw "prefetch" VNone)) eqn:Ep.
  - by destruct (is_none (default VNone (attrs !! "prefetch"))).
  - by rewrite Ep.
Qed.

(** X12. The entries of the merged arguments that are not session attributes:
    the method name in upper case (for a method name of ASCII
    characters), the url, and data and files with an empty list in place
    of [None] come straight from the call, and the pool handle from the
    session; none of the merges touches them.  The merged arguments have
    exactly the seventeen keys of [args_keys]. *)
Theorem request_args_fixed_entries self method url kw h attrs args h' :
  is_ascii method = true →
  h !! self = Some (OInst attrs) →
  request_args self method url kw h = (Ok args, h') →
  args !! "method" = Some (VStr (upper method))
  ∧ args !! "url" = Some (VStr url)
  ∧ args !! "data" = Some (if is_none (kwarg kw "data" VNone) then VSeq []
                           else kwarg kw "data" VNone)
  ∧ args !! "files" = Some (if is_none (kwarg kw "files" VNone) then VSeq []
                            else kwarg kw "files" VNone)
  ∧ args !! "_poolmanager" = attrs !! "poolmanager"
  ∧ ∀ k, is_Some (args !! k) ↔ k ∈ args_keys.
Proof.
  intros _ Eself H.
  destruct (request_args_shape _ _ _ _ _ _ _ _ Eself H)
    as (a_params & a_headers & a_hooks & a_proxies & a_config & poolmanager
        & args0 & args1 & h11 & Epm & E0 & Hargs1 & Hck & _ & Em).
  assert (Hun : ∀ k, k ∉ __attrs__ → args !! k = args0 !! k).
  { intros k Hk. rewrite (merge_attrs_other _ _ _ _ _ _ k Em) by (by left).
    apply Hargs1. intros ->. apply Hk.
    apply (bool_decide_unpack _). by vm_compute. }
  assert (Hkeys : ∀ k, is_Some (args0 !! k) ↔ k ∈ args_keys)
    by (intros k; subst args0; apply request_dict_keys).
  repeat split.
  - rewrite Hun by (apply (bool_decide_unpack _); by vm_compute).
    subst args0. unfold request_dict. by simplify_map_eq.
  - rewrite Hun by (apply (bool_decide_unpack _); by vm_compute).
    subst args0. unfold request_dict. by simplify_map_eq.
  - rewrite Hun by (apply (bool_decide_unpack _); by vm_compute).
    subst args0. unfold request_dict. by simplify_map_eq.
  - rewrite Hun by (apply (bool_decide_unpack _); by vm_compute).
    subst args0. unfold request_dict. by simplify_map_eq.
  - rewrite Hun by (apply (bool_decide_unpack _); by vm_compute).
    rewrite Epm. subst args0. unfold request_dict. by simplify_map_eq.
  - rewrite (merge_attrs_dom _ _ _ _ _ _ k Em). intros [Hs|[Hin _]].
    + destruct (decide (k = "cookies")) as [->|Hne].
      * apply (bool_decide_unpack _). by vm_compute.
      * apply Hkeys. by rewrite <- Hargs1.
    + by apply attrs_args_keys.
  - intros Hk. rewrite (merge_attrs_dom _ _ _ _ _ _ k Em). left.
    destruct (decide (k = "cookies")) as [->|Hne]; [done|].
    rewrite Hargs1 by done. by apply Hkeys.
Qed.

(** ** Further properties of [request] and the verb methods: the ends *)

Lemma verb_kwargs_keeps v data kwargs k x :
  kwargs !! k = Some x →
  k ∉ request_params →
  is_Some (verb_kwargs v data kwargs !! k).
Proof.
  intros E Hk.
  assert (Hd : k ≠ "data").
  { intros ->. apply Hk. apply (bool_decide_unpack _). by vm_compute. }
  assert (Ha : k ≠ "allow_redirects").
  { intros ->. apply Hk. apply (bool_decide_unpack _). by vm_compute. }
  destruct v; simpl; unfold kw_setdefault;
    try (destruct (kwargs !! "allow_redirects"));
    rewrite ?lookup_insert_ne by done; eauto.
Qed.

Lemma request_args_unknown_keyword self method url kw k x h :
  kw !! k = Some x →
  k ∉ request_params →
  request_args self method url kw h = (Raise TypeError, h).
Proof.
  intros E Hk. unfold request_args.
  assert (Hf : forallb (λ k, bool_decide (k ∈ request_params))
                 (map_to_list kw).*1 = false).
  { apply not_true_is_false. intros Hf. rewrite forallb_forall in Hf.
    apply Hk. eapply bool_decide_eq_true_1, Hf.
    apply list_elem_of_In, list_elem_of_fmap. exists (k, x).
    split; [done|]. by apply elem_of_map_to_list. }
  by rewrite Hf.
Qed.

(** X15. A keyword argument that is not a parameter of [request] makes every
    verb method fail with a type error before anything is done: the store
    is as it was, so neither the session nor the caller's dicts have been
    touched. *)
Theorem verb_unknown_keyword_rejected v self url data kwargs k x h :
  kwargs !! k = Some x →
  k ∉ request_params →
  call_verb v self url data kwargs h = (Raise TypeError, h).
Proof.
  intros E Hk. rewrite call_verb_request.
  destruct (verb_kwargs_keeps v data kwargs k x E Hk) as [y Ey].
  unfold request, request_build, bind.
  by rewrite (request_args_unknown_keyword _ _ _ _ _ _ _ Ey Hk).
Qed.

(** The descriptor [request_build] returns is the last object of the
    store: the arguments the hook chain gave back, with the session as
    its [session] attribute. *)
Lemma request_build_descriptor self method url kw h r args h' :
  request_build self method url kw h = (Ok (r, args), h') →
  ∃ hd, r = VRef (length hd)
      ∧ h' = hd ++ [OInst (<["session" := VRef self]> args)].
Proof.
  unfold request_build. intros H.
  apply bind_Ok_inv in H as (args1 & h1 & _ & H).
  apply bind_Ok_inv in H as (hooks & h2 & _ & H).
  apply bind_Ok_inv in H as (args2 & hd & _ & H).
  unfold bind at 1, Request, alloc in H.
  rewrite (bind_ok _ _ _ tt
             (hd ++ [OInst (<["session" := VRef self]> args2)])) in H.
  - injection H as <- <- <-. by exists hd.
  - rewrite (setattr_inst _ _ args2 _ _ (lookup_alloc_new hd _)).
    by rewrite insert_alloc_new.
Qed.

(** The steps of a returning run of [request_build]: the arguments are
    prepared, the hook chain is run on them, and the descriptor is made
    from what the chain gives back. *)
Lemma request_build_inv self method url kw h r args h1 :
  request_build self method url kw h = (Ok (r, args), h1) →
  ∃ args0 h0 hooks hd,
    request_args self method url kw h = (Ok args0, h0)
    ∧ dispatch_hook "args" hooks args0 h0 = (Ok args, hd)
    ∧ r = VRef (length hd)
    ∧ h1 = hd ++ [OInst (<["session" := VRef self]> args)].
Proof.
  unfold request_build. intros H.
  apply bind_Ok_inv in H as (args0 & h0 & E0 & H).
  apply bind_Ok_inv in H as (hooks & h0' & Eh & H).
  assert (h0' = h0) as ->.
  { pose proof (reads_args_item args0 "hooks" h0) as R. by rewrite Eh in R. }
  apply bind_Ok_inv in H as (args2 & hd & Ed & H).
  unfold bind at 1, Request, alloc in H.
  rewrite (bind_ok _ _ _ tt
             (hd ++ [OInst (<["session" := VRef self]> args2)])) in H.
  - injection H as <- <- <-. by exists args0, h0, hooks, hd.
  - rewrite (setattr_inst _ _ args2 _ _ (lookup_alloc_new hd _)).
    by rewrite insert_alloc_new.
Qed.

Lemma kwarg_verb_return_response v data kwargs dflt :
  kwarg (verb_kwargs v data kwargs) "return_response" dflt
  = kwarg kwargs "return_response" dflt.
Proof.
  unfold kwarg. destruct v; simpl; unfold kw_setdefault;
    try (destruct (kwargs !! "allow_redirects"));
    rewrite ?lookup_insert_ne by done; done.
Qed.

(** A verb method whose descriptor gets built goes on from there: it
    hands the descriptor back when [return_response] is false, and sends
    it otherwise. *)
Lemma call_verb_built v self url data kwargs h lr args h1 :
  request_build self (verb_method v) url (verb_kwargs v data kwargs) h
  = (Ok (VRef lr, args), h1) →
  call_verb v self url data kwargs h
  = (let* send_it := truthy (kwarg kwargs "return_response" (VBool true)) in
     if negb send_it then ret (VRef lr)
     else _send_request self (VRef lr) args) h1.
Proof.
  intros E. rewrite call_verb_request. unfold request. mrun E.
  simpl fst. simpl snd. by rewrite kwarg_verb_return_response.
Qed.




(** ** Further properties of the snapshot functions *)

(** [init_poolmanager] on a session whose config is a dict: a new pool
    handle sized from the config, and the ["poolmanager"] attribute set
    to it. *)
Lemma init_poolmanager_run h self attrs lcfg cfg :
  h !! self = Some (OInst attrs) →
  attrs !! "config" = Some (VRef lcfg) →
  h !! lcfg = Some (ODict cfg) →
  init_poolmanager self h
  = (Ok tt,
     <[self := OInst (<["poolmanager" := VRef (length h)]> attrs)]> h
     ++ [OPool (default VNone (cfg !! "pool_connections"))
               (default VNone (cfg !! "pool_maxsize"))]).
Proof.
  intros Eself Ecfg Ed. unfold init_poolmanager.
  mrun (getattr_inst _ _ _ _ _ Eself Ecfg).
  mrun (dict_get_dict _ _ _ "pool_connections" Ed).
  mrun (getattr_inst _ _ _ _ _ Eself Ecfg).
  mrun (dict_get_dict _ _ _ "pool_maxsize" Ed).
  unfold bind at 1, PoolManager, alloc.
  rewrite (setattr_inst _ _ attrs _ _ (lookup_alloc_old _ _ _ _ Eself)).
  f_equal. apply insert_app_l. by eapply lookup_lt_Some.
Qed.

(** X19. The snapshot of any instance, complete or not: a new dict with
    exactly the tracked attribute names as keys; an attribute the
    instance does not have is exported as [None] instead of failing, and
    an attribute that is not tracked (the pool handle, or anything else
    set on the instance) is never exported. *)
Theorem getstate_exports_tracked h self attrs :
  h !! self = Some (OInst attrs) →
  ∃ state,
    __getstate__ self h = (Ok (VRef (length h)), h ++ [ODict state])
    ∧ ∀ a, state !! a
           = if bool_decide (a ∈ __attrs__)
             then Some (default VNone (attrs !! a)) else None.
Proof.
  intros Eself. exists (dict_of_pairs (state_items attrs __attrs__)). split.
  - unfold __getstate__. by mrun (mapM_getattr _ _ _ __attrs__ Eself).
  - intros a. apply lookup_state, NoDup_attrs.
Qed.

Lemma setstate_attrs h self attrs ls state :
  h !! self = Some (OInst attrs) →
  h !! ls = Some (ODict state) →
  (let* its := dict_items (VRef ls) in
   for_ its (fun '(attr, v) => setattr self attr v)) h
  = (Ok tt, <[self := OInst (state ∪ attrs)]> h).
Proof.
  intros Eself Es. unfold bind at 1, dict_items at 1.
  rewrite (as_dict_lookup _ _ _ Es).
  by rewrite (for_setattr _ _ _ attrs Eself), upd_all_map_to_list.
Qed.

(** X20. [__setstate__] on any instance and any state dict: the entries of
    the state are laid over the attributes the instance has (an attribute
    the state does not mention stays), and then the pool handle is
    replaced by a new one, sized from the config in force after the
    overlay. *)
Theorem setstate_overlays_instance h self attrs ls state lcfg cfg :
  h !! self = Some (OInst attrs) →
  h !! ls = Some (ODict state) →
  (state ∪ attrs) !! "config" = Some (VRef lcfg) →
  h !! lcfg = Some (ODict cfg) →
  __setstate__ self (VRef ls) h
  = (Ok tt,
     <[self := OInst (<["poolmanager" := VRef (length h)]> (state ∪ attrs))]>
       h
     ++ [OPool (default VNone (cfg !! "pool_connections"))
               (default VNone (cfg !! "pool_maxsize"))]).
Proof.
  intros Eself Es Ecfg Ed.
  assert (Hne : lcfg ≠ self) by (intros ->; congruence).
  pose proof (setstate_attrs _ _ _ _ _ Eself Es) as E.
  unfold __setstate__.
  apply bind_Ok_inv in E as (its & h1 & E1 & E2).
  mrun E1. mrun E2.
  rewrite (init_poolmanager_run _ self (state ∪ attrs) lcfg cfg).
  - by rewrite length_insert, list_insert_insert_eq.
  - by eapply lookup_store_eq.
  - done.
  - by rewrite list_lookup_insert_ne.
Qed.

(** X21. [__setstate__] with no config to be found, neither in the state nor
    on the instance: the call fails with an attribute error when it
    comes to the pool handle, after the attributes of the state have been
    set; they stay set, and no pool handle is made. *)
Theorem setstate_without_config h self attrs ls state :
  h !! self = Some (OInst attrs) →
  h !! ls = Some (ODict state) →
  (state ∪ attrs) !! "config" = None →
  __setstate__ self (VRef ls) h
  = (Raise AttributeError, <[self := OInst (state ∪ attrs)]> h).
Proof.
  intros Eself Es Ecfg.
  pose proof (setstate_attrs _ _ _ _ _ Eself Es) as E.
  unfold __setstate__.
  apply bind_Ok_inv in E as (its & h1 & E1 & E2).
  mrun E1. mrun E2.
  unfold init_poolmanager, bind at 1, getattr, as_inst.
  by rewrite (lookup_store_eq _ _ _ _ Eself), Ecfg.
Qed.

(** ** The constructor *)

Lemma setattr_run h self attrs name v :
  h !! self = Some (OInst attrs) →
  ∃ h', setattr self name v h = (Ok tt, h')
      ∧ h' !! self = Some (OInst (<[name := v]> attrs))
      ∧ kept (other_than self) h h'.
Proof.
  intros E. eexists. split; [by apply setattr_inst|].
  split; [by eapply lookup_store_eq|].
  apply kept_store. intros o _ Hne. by apply Hne.
Qed.

(** What is known of the values of a call carries over to a store in
    which only the instance [self] has changed. *)
Lemma kept_other_dict h h' self attrs v :
  kept (other_than self) h h' →
  h !! self = Some (OInst attrs) →
  is_Some (as_dict h v) → is_Some (as_dict h' v).
Proof.
  intros K Eself [d Ed]. apply as_dict_inv in Ed as (l & -> & El).
  exists d. apply as_dict_lookup. eapply kept_lookup; [exact K|exact El|].
  intros ->. congruence.
Qed.

Lemma kept_other_jar h h' self attrs v :
  kept (other_than self) h h' →
  h !! self = Some (OInst attrs) →
  is_Some (as_jar h v) → is_Some (as_jar h' v).
Proof.
  intros K Eself [j Ej]. apply as_jar_inv in Ej as (l & -> & El).
  exists j. apply as_jar_lookup. eapply kept_lookup; [exact K|exact El|].
  intros ->. congruence.
Qed.

Lemma kept_other_dict_or_none h h' self attrs v :
  kept (other_than self) h h' →
  h !! self = Some (OInst attrs) →
  dict_or_none h v → dict_or_none h' v.
Proof.
  intros K Eself [->|Hd]; [by left|right]. by eapply kept_other_dict.
Qed.

Lemma kept_other_ref h h' self attrs l d :
  kept (other_than self) h h' →
  h !! self = Some (OInst attrs) →
  h !! l = Some (ODict d) → h' !! l = Some (ODict d).
Proof.
  intros K Eself El. eapply kept_lookup; [exact K|exact El|].
  intros ->. pose proof (eq_trans (eq_sym Eself) El). discriminate.
Qed.

(** A mapping attribute of the constructor: the attribute becomes a
    dict, the caller's own when that is a non-empty dict and a new empty
    one otherwise; nothing but the instance changes. *)
Lemma init_mapping_run h self attrs name v dflt :
  h !! self = Some (OInst attrs) →
  dict_or_none h v →
  dflt = ret (VSeq []) ∨ dflt = alloc (ODict ∅) →
  ∃ h' ld d,
    init_mapping self name v dflt h = (Ok tt, h')
    ∧ h' !! self = Some (OInst (<[name := VRef ld]> attrs))
    ∧ h' !! ld = Some (ODict d)
    ∧ kept (other_than self) h h'
    ∧ (∀ l d0, v = VRef l → h !! l = Some (ODict d0) →
         ∀ k x, d0 !! k = Some x → d !! k = Some x).
Proof.
  intros Eself Hv Hd.
  assert (Hlt : (self < length h)%nat) by (by eapply lookup_lt_Some).
  assert (Hfresh :
    (let* x := dflt in
     let* d := from_key_val_list x in setattr self name d) h
    = (Ok tt, <[self := OInst (<[name := VRef (length h)]> attrs)]>
                (h ++ [ODict ∅]))).
  { destruct Hd as [->| ->].
    - assert (Eempty : from_key_val_list (VSeq []) h
                       = (Ok (VRef (length h)), h ++ [ODict ∅]))
        by reflexivity.
      unfold bind at 1, ret at 1. mrun Eempty.
      by rewrite (setattr_inst _ _ attrs _ _
                    (lookup_alloc_old _ _ _ _ Eself)).
    - unfold bind at 1, alloc at 1.
      rewrite (bind_ok _ _ _ _ _
                 (from_key_val_list_dict _ _ _ (lookup_alloc_new h _))).
      by rewrite (setattr_inst _ _ attrs _ _
                    (lookup_alloc_old _ _ _ _ Eself)). }
  assert (Hnew : ∀ p : Prop, p →
    truthy v h = (Ok false, h) →
    (∀ l d0, v = VRef l → h !! l = Some (ODict d0) → d0 = ∅) →
    ∃ h' ld d,
      init_mapping self name v dflt h = (Ok tt, h')
      ∧ h' !! self = Some (OInst (<[name := VRef ld]> attrs))
      ∧ h' !! ld = Some (ODict d)
      ∧ kept (other_than self) h h'
      ∧ (∀ l d0, v = VRef l → h !! l = Some (ODict d0) →
           ∀ k x, d0 !! k = Some x → d !! k = Some x)).
  { intros _ _ Et Hempty.
    exists (<[self := OInst (<[name := VRef (length h)]> attrs)]>
              (h ++ [ODict ∅])), (length h), ∅.
    split; [|split; [|split; [|split]]].
    - unfold init_mapping. mrun Et. exact Hfresh.
    - eapply lookup_store_eq. by apply lookup_alloc_old.
    - rewrite list_lookup_insert_ne by lia. apply lookup_alloc_new.
    - eapply kept_trans; [apply kept_app|].
      apply kept_store. intros o _ Hne. by apply Hne.
    - intros l d0 Ev El k x Ek. rewrite (Hempty _ _ Ev El) in Ek.
      by rewrite lookup_empty in Ek. }
  destruct Hv as [->|[d0 Ed0]].
  - apply (Hnew True I); [done|]. intros l d0 [=].
  - apply as_dict_inv in Ed0 as (l & -> & El).
    destruct (Nat.eqb (size d0) 0) eqn:Esz.
    + apply (Hnew True I).
      * unfold truthy. by rewrite El, Esz.
      * intros l' d1 [= <-] El'. rewrite El in El'. injection El' as <-.
        by apply Nat.eqb_eq, map_size_empty_inv in Esz.
    + assert (Hne : l ≠ self) by (intros ->; congruence).
      exists (<[self := OInst (<[name := VRef l]> attrs)]> h), l, d0.
      split; [|split; [|split; [|split]]].
      * unfold init_mapping, bind at 1, truthy. rewrite El, Esz. simpl negb.
        cbv iota. unfold bind at 1, ret at 1.
        rewrite (bind_ok _ _ _ _ _ (from_key_val_list_dict _ _ _ El)).
        by apply setattr_inst.
      * by eapply lookup_store_eq.
      * by rewrite list_lookup_insert_ne.
      * apply kept_store. intros o _ Hn. by apply Hn.
      * intros l' d1 [= <-] El'. rewrite El in El'. by injection El' as <-.
Qed.

(** The loop over the defaults: the config dict gets every default it
    lacks and keeps what it has; the instance is as it was and every
    other object still is what it was. *)
Lemma seed_config_run self lcfg its : ∀ h attrs cfg,
  (∀ v, only_allocates (deepcopy v)) →
  h !! self = Some (OInst attrs) →
  attrs !! "config" = Some (VRef lcfg) →
  h !! lcfg = Some (ODict cfg) →
  ∃ h' cfg',
    for_ its (fun '(k, v) =>
      let* config := getattr self "config" in
      let* v' := deepcopy v in
      dict_setdefault config k v') h = (Ok tt, h')
    ∧ h' !! self = Some (OInst attrs)
    ∧ h' !! lcfg = Some (ODict cfg')
    ∧ evolves h h'
    ∧ (∀ k x, cfg !! k = Some x → cfg' !! k = Some x)
    ∧ (∀ k, k ∈ its.*1 → is_Some (cfg' !! k)).
Proof.
  induction its as [|[k v] its IH]; intros h attrs cfg Hcopy Eself Ecfg Ed.
  - exists h, cfg. split; [done|]. split; [done|]. split; [done|].
    split; [apply evolves_refl|]. split; [done|].
    intros k Hk. by apply elem_of_nil in Hk.
  - assert (Hne : lcfg ≠ self) by (intros ->; congruence).
    destruct (Hcopy v h) as (v' & t & Ev).
    assert (Eself1 : (h ++ t) !! self = Some (OInst attrs))
      by (by apply lookup_app_l_Some).
    assert (Ed1 : (h ++ t) !! lcfg = Some (ODict cfg))
      by (by apply lookup_app_l_Some).
    assert (Estep : ∃ h1 cfg1,
      (let* config := getattr self "config" in
       let* v' := deepcopy v in
       dict_setdefault config k v') h = (Ok tt, h1)
      ∧ h1 !! self = Some (OInst attrs)
      ∧ h1 !! lcfg = Some (ODict cfg1)
      ∧ evolves h h1
      ∧ (∀ k' x, cfg !! k' = Some x → cfg1 !! k' = Some x)
      ∧ is_Some (cfg1 !! k)).
    { destruct (cfg !! k) as [x|] eqn:Ek.
      - exists (h ++ t), cfg. split; [|split; [|split; [|split; [|split]]]].
        + mrun (getattr_inst _ _ _ _ _ Eself Ecfg). mrun Ev.
          unfold dict_setdefault. rewrite (as_dict_lookup _ _ _ Ed1).
          by rewrite Ek.
        + exact Eself1.
        + exact Ed1.
        + apply evolves_app.
        + done.
        + eauto.
      - exists (<[lcfg := ODict (<[k := v']> cfg)]> (h ++ t)),
          (<[k := v']> cfg).
        split; [|split; [|split; [|split; [|split]]]].
        + mrun (getattr_inst _ _ _ _ _ Eself Ecfg). mrun Ev.
          unfold dict_setdefault. rewrite (as_dict_lookup _ _ _ Ed1).
          by rewrite Ek.
        + by rewrite list_lookup_insert_ne.
        + by eapply lookup_store_eq.
        + eapply evolves_trans; [apply evolves_app|].
          by eapply evolves_store.
        + intros k' x Ek'. rewrite lookup_insert_ne; [done|]. congruence.
        + rewrite lookup_insert_eq. eauto. }
    destruct Estep as (h1 & cfg1 & E1 & Eself' & Ed' & K1 & Hkeep1 & Hk1).
    destruct (IH h1 attrs cfg1 Hcopy Eself' Ecfg Ed')
      as (h' & cfg' & E' & Eself'' & Ed'' & K' & Hkeep' & Hkeys').
    exists h', cfg'. split; [|split; [|split; [|split; [|split]]]];
      try done.
    + simpl. by mrun E1.
    + by eapply evolves_trans.
    + intros k' x Ek'. by apply Hkeep', Hkeep1.
    + intros k' Hin. rewrite fmap_cons in Hin. simpl in Hin.
      apply elem_of_cons in Hin as [->|Hin]; [|by apply Hkeys'].
      destruct Hk1 as [x Ex]. exists x. by apply Hkeep'.
Qed.

(** The constructor on well-formed arguments, step by step. *)
Lemma init_run self kw h attrs0 :
  (∀ v, only_allocates (deepcopy v)) →
  h !! self = Some (OInst attrs0) →
  wf_init h kw →
  ∃ h' attrs lhooks lcfg cfg lj pm,
    __init__ self kw h = (Ok tt, h')
    ∧ h' !! self = Some (OInst attrs)
    ∧ attrs !! "hooks" = Some (VRef lhooks)
    ∧ is_Some (as_dict h' (VRef lhooks))
    ∧ attrs !! "config" = Some (VRef lcfg)
    ∧ h' !! lcfg = Some (ODict cfg)
    ∧ (∀ k, k ∈ defaults.*1 → is_Some (cfg !! k))
    ∧ (∀ l d0, kwarg kw "config" VNone = VRef l →
         h !! l = Some (ODict d0) →
         ∀ k x, d0 !! k = Some x → cfg !! k = Some x)
    ∧ attrs !! "poolmanager" = Some (VRef pm)
    ∧ h' !! pm = Some (OPool (default VNone (cfg !! "pool_connections"))
                             (default VNone (cfg !! "pool_maxsize")))
    ∧ attrs !! "cookies" = Some (VRef lj)
    ∧ is_Some (as_jar h' (VRef lj))
    ∧ (is_Some (as_jar h (kwarg kw "cookies" VNone)) →
         kwarg kw "cookies" VNone = VRef lj)
    ∧ attrs !! "auth" = Some (kwarg kw "auth" VNone)
    ∧ attrs !! "timeout" = Some (kwarg kw "timeout" VNone)
    ∧ attrs !! "prefetch" = Some (kwarg kw "prefetch" (VBool true))
    ∧ attrs !! "verify" = Some (kwarg kw "verify" (VBool true))
    ∧ attrs !! "cert" = Some (kwarg kw "cert" VNone).
Proof.
  intros Hcopy Eself (Hvalid & Hdicts & Hck & _).
  assert (Hd1 : dict_or_none h (kwarg kw "headers" VNone))
    by (apply Hdicts, (bool_decide_unpack _); by vm_compute).
  assert (Hd2 : dict_or_none h (kwarg kw "proxies" VNone))
    by (apply Hdicts, (bool_decide_unpack _); by vm_compute).
  assert (Hd3 : dict_or_none h (kwarg kw "hooks" VNone))
    by (apply Hdicts, (bool_decide_unpack _); by vm_compute).
  assert (Hd4 : dict_or_none h (kwarg kw "params" VNone))
    by (apply Hdicts, (bool_decide_unpack _); by vm_compute).
  assert (Hd5 : dict_or_none h (kwarg kw "config" VNone))
    by (apply Hdicts, (bool_decide_unpack _); by vm_compute).
  clear Hdicts.
  unfold __init__. rewrite Hvalid. change (negb true) with false. cbv iota.
  (* headers *)
  destruct (init_mapping_run h self attrs0 "headers" _ (ret (VSeq []))
              Eself Hd1 ltac:(by left))
    as (h1 & l1 & d1 & E1 & Eself1 & _ & K1 & _).
  mrun E1.
  pose proof (kept_other_dict_or_none _ _ _ _ _ K1 Eself Hd2) as Hd2'.
  pose proof (kept_other_dict_or_none _ _ _ _ _ K1 Eself Hd3) as Hd3'.
  pose proof (kept_other_dict_or_none _ _ _ _ _ K1 Eself Hd4) as Hd4'.
  pose proof (kept_other_dict_or_none _ _ _ _ _ K1 Eself Hd5) as Hd5'.
  clear Hd1 Hd2 Hd3 Hd4 Hd5.
  (* auth, timeout *)
  destruct (setattr_run h1 self _ "auth" (kwarg kw "auth" VNone) Eself1)
    as (h2 & E2 & Eself2 & K2).
  mrun E2.
  destruct (setattr_run h2 self _ "timeout" (kwarg kw "timeout" VNone)
              Eself2) as (h3 & E3 & Eself3 & K3).
  mrun E3.
  pose proof (kept_trans _ _ _ _ K2 K3) as K13.
  pose proof (kept_other_dict_or_none _ _ _ _ _ K13 Eself1 Hd2') as Hd2.
  pose proof (kept_other_dict_or_none _ _ _ _ _ K13 Eself1 Hd3') as Hd3.
  pose proof (kept_other_dict_or_none _ _ _ _ _ K13 Eself1 Hd4') as Hd4.
  pose proof (kept_other_dict_or_none _ _ _ _ _ K13 Eself1 Hd5') as Hd5''.
  clear Hd2' Hd3' Hd4' Hd5'.
  (* proxies *)
  destruct (init_mapping_run h3 self _ "proxies" _ (ret (VSeq []))
              Eself3 Hd2 ltac:(by left))
    as (h4 & l4 & d4 & E4 & Eself4 & _ & K4 & _).
  mrun E4.
  pose proof (kept_other_dict_or_none _ _ _ _ _ K4 Eself3 Hd3) as Hd3'.
  pose proof (kept_other_dict_or_none _ _ _ _ _ K4 Eself3 Hd4) as Hd4'.
  pose proof (kept_other_dict_or_none _ _ _ _ _ K4 Eself3 Hd5'') as Hd5'.
  clear Hd2 Hd3 Hd4 Hd5''.
  (* hooks *)
  destruct (init_mapping_run h4 self _ "hooks" _ (alloc (ODict ∅))
              Eself4 Hd3' ltac:(by right))
    as (h5 & lhooks & dhooks & E5 & Eself5 & Ehooks5 & K5 & _).
  mrun E5.
  pose proof (kept_other_dict_or_none _ _ _ _ _ K5 Eself4 Hd4') as Hd4.
  pose proof (kept_other_dict_or_none _ _ _ _ _ K5 Eself4 Hd5') as Hd5.
  clear Hd3' Hd4' Hd5'.
  (* params *)
  destruct (init_mapping_run h5 self _ "params" _ (ret (VSeq []))
              Eself5 Hd4 ltac:(by left))
    as (h6 & l6 & d6 & E6 & Eself6 & _ & K6 & _).
  mrun E6.
  pose proof (kept_other_dict_or_none _ _ _ _ _ K6 Eself5 Hd5) as Hd5'.
  clear Hd4 Hd5.
  (* config *)
  destruct (init_mapping_run h6 self _ "config" _ (alloc (ODict ∅))
              Eself6 Hd5' ltac:(by right))
    as (h7 & lcfg & d7 & E7 & Eself7 & Ecfg7 & K7 & Hkeep7).
  mrun E7.
  (* prefetch, verify, cert *)
  destruct (setattr_run h7 self _ "prefetch"
              (kwarg kw "prefetch" (VBool true)) Eself7)
    as (h8 & E8 & Eself8 & K8).
  mrun E8.
  destruct (setattr_run h8 self _ "verify"
              (kwarg kw "verify" (VBool true)) Eself8)
    as (h9 & E9 & Eself9 & K9).
  mrun E9.
  destruct (setattr_run h9 self _ "cert" (kwarg kw "cert" VNone) Eself9)
    as (h10 & E10 & Eself10 & K10).
  mrun E10.
  pose proof (kept_trans _ _ _ _ K8 (kept_trans _ _ _ _ K9 K10)) as K710.
  pose proof (kept_other_ref _ _ _ _ _ _ K710 Eself7 Ecfg7) as Ecfg10.
  (* the defaults *)
  match type of Eself10 with _ = Some (OInst ?a) => set (attrs10 := a) in * end.
  assert (Eac : attrs10 !! "config" = Some (VRef lcfg))
    by (unfold attrs10; by simplify_map_eq).
  destruct (seed_config_run self lcfg defaults h10 attrs10 d7 Hcopy Eself10
              Eac Ecfg10)
    as (h11 & cfg & E11 & Eself11 & Ecfg11 & K11 & Hkeep11 & Hkeys).
  unfold seed_config at 1. mrun E11.
  (* the pool handle *)
  rewrite (bind_ok _ _ _ _ _
             (init_poolmanager_run _ _ _ _ _ Eself11 Eac Ecfg11)).
  set (attrs12 := <["poolmanager" := VRef (length h11)]> attrs10).
  set (pool := OPool (default VNone (cfg !! "pool_connections"))
                     (default VNone (cfg !! "pool_maxsize"))).
  set (h12 := <[self := OInst attrs12]> h11 ++ [pool]).
  assert (Hlt : (self < length h11)%nat) by (by eapply lookup_lt_Some).
  assert (Eself12 : h12 !! self = Some (OInst attrs12)).
  { unfold h12. apply lookup_alloc_old. by eapply lookup_store_eq. }
  assert (K12 : kept (other_than self) h11 h12).
  { unfold h12. eapply kept_trans; [|apply kept_app].
    apply kept_store. intros o _ Hn. by apply Hn. }
  assert (Epool : h12 !! length h11 = Some pool).
  { unfold h12. rewrite <- (length_insert h11 self (OInst attrs12)).
    apply lookup_alloc_new. }
  assert (Ecfg12 : h12 !! lcfg = Some (ODict cfg))
    by (by eapply kept_other_ref).
  (* what the caller passed, in the stores on the way *)
  pose proof (kept_trans _ _ _ _ K1 (kept_trans _ _ _ _ K13
                (kept_trans _ _ _ _ K4 (kept_trans _ _ _ _ K5 K6)))) as K06.
  pose proof (kept_trans _ _ _ _ K06 K7) as K07.
  assert (Hhooks12 : is_Some (as_dict h12 (VRef lhooks))).
  { eapply kept_other_dict; [exact K12|exact Eself11|].
    eapply evolves_dict; [exact K11|].
    eapply kept_other_dict; [exact K710|exact Eself7|].
    eapply kept_other_dict; [exact K7|exact Eself6|].
    eapply kept_other_dict; [exact K6|exact Eself5|].
    exists dhooks. by apply as_dict_lookup. }
  assert (Hck12 : dict_or_none h12 (kwarg kw "cookies" VNone)
                  ∨ is_Some (as_jar h12 (kwarg kw "cookies" VNone))).
  { assert (Hck7 : dict_or_none h7 (kwarg kw "cookies" VNone)
                   ∨ is_Some (as_jar h7 (kwarg kw "cookies" VNone))).
    { destruct Hck as [Hc|Hc]; [left|right].
      - by eapply kept_other_dict_or_none.
      - by eapply kept_other_jar. }
    assert (Hck10 : dict_or_none h10 (kwarg kw "cookies" VNone)
                    ∨ is_Some (as_jar h10 (kwarg kw "cookies" VNone))).
    { destruct Hck7 as [Hc|Hc]; [left|right].
      - by eapply kept_other_dict_or_none.
      - by eapply kept_other_jar. }
    apply (evolves_cookies_arg _ _ _ K11) in Hck10.
    destruct Hck10 as [Hc|Hc]; [left|right].
    - by eapply kept_other_dict_or_none.
    - by eapply kept_other_jar. }
  assert (Hjar12 : is_Some (as_jar h (kwarg kw "cookies" VNone)) →
                   is_Some (as_jar h12 (kwarg kw "cookies" VNone))).
  { intros Hc.
    eapply kept_other_jar; [exact K12|exact Eself11|].
    eapply evolves_jar; [exact K11|].
    eapply kept_other_jar; [exact K710|exact Eself7|].
    by eapply kept_other_jar; [exact K07|exact Eself|]. }
  (* the cookies *)
  assert (Hfin : ∀ lj h13,
    h13 !! self = Some (OInst (<["cookies" := VRef lj]> attrs12)) →
    kept (other_than self) h12 h13 →
    is_Some (as_jar h13 (VRef lj)) →
    (is_Some (as_jar h (kwarg kw "cookies" VNone)) →
       kwarg kw "cookies" VNone = VRef lj) →
    ∃ attrs lhooks lcfg cfg lj pm,
      h13 !! self = Some (OInst attrs)
      ∧ attrs !! "hooks" = Some (VRef lhooks)
      ∧ is_Some (as_dict h13 (VRef lhooks))
      ∧ attrs !! "config" = Some (VRef lcfg)
      ∧ h13 !! lcfg = Some (ODict cfg)
      ∧ (∀ k, k ∈ defaults.*1 → is_Some (cfg !! k))
      ∧ (∀ l d0, kwarg kw "config" VNone = VRef l →
           h !! l = Some (ODict d0) →
           ∀ k x, d0 !! k = Some x → cfg !! k = Some x)
      ∧ attrs !! "poolmanager" = Some (VRef pm)
      ∧ h13 !! pm = Some (OPool (default VNone (cfg !! "pool_connections"))
                                (default VNone (cfg !! "pool_maxsize")))
      ∧ attrs !! "cookies" = Some (VRef lj)
      ∧ is_Some (as_jar h13 (VRef lj))
      ∧ (is_Some (as_jar h (kwarg kw "cookies" VNone)) →
           kwarg kw "cookies" VNone = VRef lj)
      ∧ attrs !! "auth" = Some (kwarg kw "auth" VNone)
      ∧ attrs !! "timeout" = Some (kwarg kw "timeout" VNone)
      ∧ attrs !! "prefetch" = Some (kwarg kw "prefetch" (VBool true))
      ∧ attrs !! "verify" = Some (kwarg kw "verify" (VBool true))
      ∧ attrs !! "cert" = Some (kwarg kw "cert" VNone)).
  { intros lj h13 Eself13 K13' Hj Hsame.
    exists (<["cookies" := VRef lj]> attrs12), lhooks, lcfg, cfg, lj,
      (length h11).
    split_and!; try done;
      try (unfold attrs12, attrs10; by simplify_map_eq).
    - by eapply kept_other_dict.
    - by eapply kept_other_ref.
    - intros l d0 Ev El k x Ek. apply Hkeep11. eapply Hkeep7; [exact Ev| |exact Ek].
      by eapply kept_other_ref; [exact K06|exact Eself|].
    - eapply kept_lookup; [exact K13'|exact Epool|].
      unfold other_than. lia. }
  unfold bind at 1, isinstance_CookieJar.
  destruct (as_jar h12 (kwarg kw "cookies" VNone)) as [jc|] eqn:Ejc.
  - rewrite bool_decide_eq_true_2 by eauto.
    apply as_jar_inv in Ejc as (lc & Ekc & Elc).
    destruct (setattr_run h12 self attrs12 "cookies"
                (kwarg kw "cookies" VNone) Eself12)
      as (h13 & E13 & Eself13 & K13').
    rewrite E13. rewrite Ekc in Eself13.
    destruct (Hfin lc h13 Eself13 K13') as (a & b & c & d & e & f & Hres).
    + exists jc. apply as_jar_lookup.
      eapply kept_lookup; [exact K13'|exact Elc|].
      intros ->. rewrite Eself12 in Elc. discriminate.
    + done.
    + by exists h13, a, b, c, d, e, f.
  - rewrite bool_decide_eq_false_2 by (by intros [? ?]).
    assert (Hnj : ¬ is_Some (as_jar h (kwarg kw "cookies" VNone))).
    { intros Hc. destruct (Hjar12 Hc) as [? ?]. congruence. }
    destruct Hck12 as [Hc|[? ?]]; [|congruence].
    assert (Ecj : ∃ j, cookiejar_from_dict (kwarg kw "cookies" VNone) h12
                       = (Ok (VRef (length h12)), h12 ++ [OJar j])).
    { destruct Hc as [->|[dc Edc]]; [by exists ∅|].
      exists (kmap cookie_key dc).
      apply as_dict_inv in Edc as (lc & -> & Elc).
      unfold cookiejar_from_dict, bind, read_heap.
      by rewrite (as_dict_lookup _ _ _ Elc). }
    destruct Ecj as (j & Ecj).
    destruct (setattr_run (h12 ++ [OJar j]) self attrs12 "cookies"
                (VRef (length h12)) (lookup_alloc_old _ _ _ _ Eself12))
      as (h13 & E13 & Eself13 & K13').
    cbv iota. unfold negb. mrun Ecj. rewrite E13.
    destruct (Hfin (length h12) h13 Eself13) as (a & b & c & d & e & f & Hres).
    + eapply kept_trans; [apply kept_app|exact K13'].
    + exists j. apply as_jar_lookup.
      eapply kept_lookup; [exact K13'|apply lookup_alloc_new|].
      unfold other_than. apply lookup_lt_Some in Eself12. lia.
    + intros Hc'. by destruct Hnj.
    + by exists h13, a, b, c, d, e, f.
Qed.

(** The constructor call on well-formed arguments: the new session is
    the next object of the store, and it holds what [__init__] set. *)
Lemma session_run kw h :
  (∀ v, only_allocates (deepcopy v)) →
  wf_init h kw →
  ∃ h' attrs lhooks lcfg cfg lj pm,
    session kw h = (Ok (VRef (length h)), h')
    ∧ h' !! length h = Some (OInst attrs)
    ∧ attrs !! "hooks" = Some (VRef lhooks)
    ∧ is_Some (as_dict h' (VRef lhooks))
    ∧ attrs !! "config" = Some (VRef lcfg)
    ∧ h' !! lcfg = Some (ODict cfg)
    ∧ (∀ k, k ∈ defaults.*1 → is_Some (cfg !! k))
    ∧ (∀ l d0, kwarg kw "config" VNone = VRef l →
         h !! l = Some (ODict d0) →
         ∀ k x, d0 !! k = Some x → cfg !! k = Some x)
    ∧ attrs !! "poolmanager" = Some (VRef pm)
    ∧ h' !! pm = Some (OPool (default VNone (cfg !! "pool_connections"))
                             (default VNone (cfg !! "pool_maxsize")))
    ∧ attrs !! "cookies" = Some (VRef lj)
    ∧ is_Some (as_jar h' (VRef lj))
    ∧ (is_Some (as_jar h (kwarg kw "cookies" VNone)) →
         kwarg kw "cookies" VNone = VRef lj)
    ∧ attrs !! "auth" = Some (kwarg kw "auth" VNone)
    ∧ attrs !! "timeout" = Some (kwarg kw "timeout" VNone)
    ∧ attrs !! "prefetch" = Some (kwarg kw "prefetch" (VBool true))
    ∧ attrs !! "verify" = Some (kwarg kw "verify" (VBool true))
    ∧ attrs !! "cert" = Some (kwarg kw "cert" VNone).
Proof.
  intros Hcopy (Hvalid & Hdicts & Hck & Hsc).
  pose proof (evolves_app h [OInst ∅]) as K.
  assert (Hwf : wf_init (h ++ [OInst ∅]) kw).
  { split; [done|]. split; [|split; [|done]].
    - intros k Hk. eapply evolves_dict_or_none; [exact K|by apply Hdicts].
    - by eapply evolves_cookies_arg. }
  destruct (init_run (length h) kw (h ++ [OInst ∅]) ∅ Hcopy
              (lookup_alloc_new h _) Hwf)
    as (h' & attrs & lhooks & lcfg & cfg & lj & pm & E & Eself & Ehooks
        & Hhooks & Ecfg & Ecfg' & Hkeys & Hkeep & Epm & Epool & Ecookies
        & Hjar & Hsame & Hplain).
  exists h', attrs, lhooks, lcfg, cfg, lj, pm.
  split_and!; try done.
  - unfold session, Session, bind at 1, alloc at 1. by mrun E.
  - intros l d0 Ev El. eapply Hkeep; [exact Ev|]. by apply lookup_alloc_old.
  - intros Hc. apply Hsame. by eapply evolves_jar.
  - apply Hplain.
  - apply Hplain.
  - apply Hplain.
  - apply Hplain.
  - apply Hplain.
Qed.


(** X23. The config of a new session: it has an entry for every key of the
    defaults and keeps every entry of the config dict the caller passed;
    the pool handle is made after that, so its sizes are the caller's
    where the caller's config gives them and the defaults' otherwise. *)
Theorem session_config_seeded kw h :
  (∀ v, only_allocates (deepcopy v)) →
  wf_init h kw →
  ∃ h' attrs lcfg cfg pm,
    session kw h = (Ok (VRef (length h)), h')
    ∧ h' !! length h = Some (OInst attrs)
    ∧ attrs !! "config" = Some (VRef lcfg)
    ∧ h' !! lcfg = Some (ODict cfg)
    ∧ (∀ k, k ∈ defaults.*1 → is_Some (cfg !! k))
    ∧ (∀ l d0, kw !! "config" = Some (VRef l) →
         h !! l = Some (ODict d0) →
         ∀ k x, d0 !! k = Some x → cfg !! k = Some x)
    ∧ attrs !! "poolmanager" = Some (VRef pm)
    ∧ h' !! pm = Some (OPool (default VNone (cfg !! "pool_connections"))
                             (default VNone (cfg !! "pool_maxsize"))).
Proof.
  intros Hcopy Hwf.
  destruct (session_run kw h Hcopy Hwf)
    as (h' & attrs & lhooks & lcfg & cfg & lj & pm & E & Eself & Ehooks
        & Hhooks & Ecfg & Ecfg' & Hkeys & Hkeep & Epm & Epool & _).
  exists h', attrs, lcfg, cfg, pm. split_and!; try done.
  intros l d0 Ekw. apply Hkeep. by apply kwarg_lookup.
Qed.

(** X24. The cookies and the plain attributes of a new session: a cookie jar
    passed to the constructor becomes the session's jar itself, not a
    copy, so the caller and the session share it; the session's jar is a
    jar in any case; auth, timeout and cert are the caller's values or
    [None], prefetch and verify the caller's values or [True]. *)
Theorem session_attributes kw h :
  (∀ v, only_allocates (deepcopy v)) →
  wf_init h kw →
  ∃ h' attrs lj,
    session kw h = (Ok (VRef (length h)), h')
    ∧ h' !! length h = Some (OInst attrs)
    ∧ attrs !! "cookies" = Some (VRef lj)
    ∧ is_Some (as_jar h' (VRef lj))
    ∧ (∀ lc jc, kw !! "cookies" = Some (VRef lc) →
         h !! lc = Some (OJar jc) → lj = lc)
    ∧ attrs !! "auth" = Some (kwarg kw "auth" VNone)
    ∧ attrs !! "timeout" = Some (kwarg kw "timeout" VNone)
    ∧ attrs !! "cert" = Some (kwarg kw "cert" VNone)
    ∧ attrs !! "prefetch" = Some (kwarg kw "prefetch" (VBool true))
    ∧ attrs !! "verify" = Some (kwarg kw "verify" (VBool true)).
Proof.
  intros Hcopy Hwf.
  destruct (session_run kw h Hcopy Hwf)
    as (h' & attrs & lhooks & lcfg & cfg & lj & pm & E & Eself & Ehooks
        & Hhooks & Ecfg & Ecfg' & Hkeys & Hkeep & Epm & Epool & Ecookies
        & Hjar & Hsame & Eauth & Etimeout & Eprefetch & Everify & Ecert).
  exists h', attrs, lj. split_and!; try done.
  intros lc jc Ekw Elc.
  rewrite (kwarg_lookup _ _ _ _ Ekw) in Hsame.
  assert (Hc : is_Some (as_jar h (VRef lc)))
    by (exists jc; by apply as_jar_lookup).
  specialize (Hsame Hc). by injection Hsame.
Qed.

(** ** Further properties of [request]: calls on a well-formed session *)


(** X13. The hooks of a call that passes none: a new dict holding exactly
    the session's hooks, that is, the session's entries whose value is
    not [None]; an event name the session maps to [None] and an event
    name the session does not have are both absent.  The session's own
    hooks dict is not the one handed on, and it is unchanged. *)
Theorem request_args_default_hooks self method url kw h attrs ls ds args h' :
  h !! self = Some (OInst attrs) →
  attrs !! "hooks" = Some (VRef ls) →
  h !! ls = Some (ODict ds) →
  kwarg kw "hooks" VNone = VNone →
  dict_or_none h (kwarg kw "headers" VNone) →
  kw !! "headers" ≠ Some (VRef ls) →
  request_args self method url kw h = (Ok args, h') →
  ∃ l m,
    args !! "hooks" = Some (VRef l)
    ∧ (length h ≤ l)%nat
    ∧ l ≠ ls
    ∧ h' !! l = Some (ODict m)
    ∧ (∀ k v, ds !! k = Some v → v ≠ VNone → m !! k = Some v)
    ∧ (∀ k, ds !! k = Some VNone → m !! k = None)
    ∧ (∀ k, ds !! k = None → m !! k = None)
    ∧ h' !! ls = Some (ODict ds).
Proof.
  intros Eself Ehooks Es Ekh Hhd Hhs H.
  apply request_args_inv in H
    as (headers & params & hooks & prefetch & a_params & a_headers & a_hooks
        & a_proxies & a_config & poolmanager & data & files & args1
        & h1 & h2 & h3 & h4 & h5 & h6 & h7 & h8 & h9 & h10 & h11
        & E1 & E2 & E3 & E4 & E5 & E6 & E7 & E8 & E9 & E10 & E11 & E12).
  assert (Hs : headers ≠ VRef ls) by (eapply or_new_dict_fresh; eauto).
  assert (K1 : kept any_object h h1)
    by (eapply frames_run, E1; apply frames_or_new_dict).
  assert (K2 : kept any_object h1 h2)
    by (eapply frames_run, E2; apply frames_or_new_dict).
  pose proof (kept_trans _ _ _ _ K1 K2) as K.
  assert (Hl : headers ≠ VRef (length h2)).
  { destruct K1 as [L1 _], K2 as [L2 _].
    unfold or_new_dict in E1.
    destruct (is_none (kwarg kw "headers" VNone)) eqn:En.
    - unfold alloc in E1. injection E1 as <- <-.
      rewrite length_app in L2. simpl in L2. intros [= Heq]. lia.
    - unfold ret in E1. injection E1 as <- <-.
      destruct Hhd as [Hn|[d Hd]]; [by rewrite Hn in En|].
      apply as_dict_inv in Hd as (l & -> & Hd).
      apply lookup_lt_Some in Hd. intros [= Heq]. lia. }
  rewrite Ekh in E3. unfold or_new_dict, alloc in E3. simpl in E3.
  injection E3 as <- <-.
  assert (Eself3 : (h2 ++ [ODict ∅]) !! self = Some (OInst attrs)).
  { apply lookup_alloc_old. by eapply kept_lookup; [exact K|exact Eself|]. }
  assert (Es3 : (h2 ++ [ODict ∅]) !! ls = Some (ODict ds)).
  { apply lookup_alloc_old. by eapply kept_lookup; [exact K|exact Es|]. }
  rewrite (seed_hooks_exact _ _ _ _ _ _ _ Eself3 Ehooks Es3
             (lookup_alloc_new h2 _)) in E4.
  injection E4 as <-.
  rewrite insert_alloc_new, (left_id_L ∅ (∪)) in *.
  set (h4 := h2 ++ [ODict ds]) in *.
  assert (Eh4 : h4 !! length h2 = Some (ODict ds))
    by apply lookup_alloc_new.
  assert (Hne : length h2 ≠ ls).
  { apply lookup_lt_Some in Es. destruct K as [L _]. lia. }
  assert (Es4 : h4 !! ls = Some (ODict ds)).
  { apply lookup_alloc_old. by eapply kept_lookup; [exact K|exact Es|]. }
  assert (Eself4 : h4 !! self = Some (OInst attrs)).
  { apply lookup_alloc_old. by eapply kept_lookup; [exact K|exact Eself|]. }
  set (Φ := not_jar_nor headers).
  assert (K5 : kept Φ h4 h5).
  { eapply frames_run, E5. apply frames_expand_headers.
    intros l d -> HΦ. by apply HΦ. }
  assert (K6 : kept Φ h5 h6)
    by (eapply frames_run, E6; apply frames_from_key_val_list).
  assert (K7 : kept Φ h6 h7)
    by (eapply frames_run, E7; apply frames_from_key_val_list).
  pose proof (kept_trans _ _ _ _ K5 (kept_trans _ _ _ _ K6 K7)) as K47.
  assert (Eh7 : h7 !! length h2 = Some (ODict ds)).
  { eapply kept_lookup; [exact K47|exact Eh4|]. simpl. congruence. }
  rewrite (from_key_val_list_dict _ _ _ Eh7) in E8. injection E8 as <- <-.
  assert (K9 : kept Φ h7 h9)
    by (eapply frames_run, E9; apply frames_from_key_val_list).
  assert (K10 : kept Φ h9 h10)
    by (eapply frames_run, E10; apply frames_from_key_val_list).
  assert (K11 : kept Φ h10 h11)
    by (eapply frames_run, E11; apply frames_merge_cookies; intros ? ? []).
  pose proof (kept_trans _ _ _ _ K47
                (kept_trans _ _ _ _ K9 (kept_trans _ _ _ _ K10 K11))) as K'.
  assert (K12 : kept any_object h11 h')
    by (eapply frames_run, E12; apply frames_merge_attrs).
  assert (Es11 : h11 !! ls = Some (ODict ds)).
  { eapply kept_lookup; [exact K'|exact Es4|]. simpl. congruence. }
  destruct (merge_attrs_dicts self attrs __attrs__ "hooks" (length h2) ds
              ls ds Ehooks ltac:(done) NoDup_attrs
              ltac:(apply (bool_decide_unpack _); by vm_compute)
              args1 h11 args h') as (l & Ea & El & Hlen); try done.
  - eapply kept_lookup; [exact K'|exact Eself4|done].
  - eapply kept_lookup; [exact K'|exact Eh4|]. simpl. congruence.
  - rewrite (merge_cookies_other _ _ _ _ _ _ "hooks" E11) by done.
    apply lookup_request_dict_hooks.
  - assert (Hge : (length h ≤ l)%nat).
    { destruct K as [L _], K' as [L' _]. unfold h4 in L'.
      rewrite length_app in L'. simpl in L'. lia. }
    exists l, (merged ds ds). split_and!; try done.
    + apply lookup_lt_Some in Es. lia.
    + intros k v Ek Hv. rewrite lookup_merged, Ek. by destruct v.
    + intros k Ek. by rewrite lookup_merged, Ek.
    + intros k Ek. by rewrite lookup_merged, Ek.
    + eapply kept_lookup; [exact K12|exact Es11|done].
Qed.

(** The method and the data in the arguments a verb method prepares. *)
Lemma verb_args_method_data v self url data kwargs h attrs args h' :
  h !! self = Some (OInst attrs) →
  request_args self (verb_method v) url (verb_kwargs v data kwargs) h
  = (Ok args, h') →
  args !! "method"
  = Some (VStr match v with
               | GET => "GET" | OPTIONS => "OPTIONS" | HEAD => "HEAD"
               | POST => "POST" | PUT => "PUT" | PATCH => "PATCH"
               | DELETE => "DELETE"
               end)
  ∧ args !! "data"
    = Some match v with
           | POST | PUT | PATCH => if is_none data then VSeq [] else data
           | _ => if is_none (kwarg kwargs "data" VNone) then VSeq []
                  else kwarg kwargs "data" VNone
           end.
Proof.
  intros Eself H.
  destruct (request_args_shape _ _ _ _ _ _ _ _ Eself H)
    as (a_params & a_headers & a_hooks & a_proxies & a_config & poolmanager
        & args0 & args1 & h11 & Epm & E0 & Hargs1 & Hck & _ & Em).
  assert (Hun : ∀ k, k ∉ __attrs__ → args !! k = args0 !! k).
  { intros k Hk. rewrite (merge_attrs_other _ _ _ _ _ _ k Em) by (by left).
    apply Hargs1. intros ->. apply Hk.
    apply (bool_decide_unpack _). by vm_compute. }
  split.
  - rewrite Hun by (apply (bool_decide_unpack _); by vm_compute).
    subst args0. unfold request_dict. rewrite lookup_insert_eq.
    by destruct v.
  - rewrite Hun by (apply (bool_decide_unpack _); by vm_compute).
    subst args0. unfold request_dict.
    rewrite lookup_insert_ne by done. rewrite lookup_insert_ne by done.
    rewrite lookup_insert_eq. f_equal.
    assert (Hk : kwarg (verb_kwargs v data kwargs) "data" VNone
                 = match v with
                   | POST | PUT | PATCH => data
                   | _ => kwarg kwargs "data" VNone
                   end).
    { unfold kwarg. destruct v; simpl; unfold kw_setdefault;
        try (destruct (kwargs !! "allow_redirects"));
        rewrite ?lookup_insert_eq, ?lookup_insert_ne by done; done. }
    rewrite Hk. by destruct v.
Qed.

(** X16. The descriptor a verb method builds (line 301), which it then
    hands back or sends, names the verb's own method in upper case;
    post, put and patch pass their [data] parameter on to it (an empty
    list standing for [None]), the other verbs a [data] keyword argument
    if there is one; provided the hook chain of the call did not rewrite
    these two entries. *)
Theorem verb_method_and_data v self url data kwargs h attrs lr args h1 :
  h !! self = Some (OInst attrs) →
  hook_kept "method" self (verb_method v) url (verb_kwargs v data kwargs)
    h args →
  hook_kept "data" self (verb_method v) url (verb_kwargs v data kwargs)
    h args →
  request_build self (verb_method v) url (verb_kwargs v data kwargs) h
  = (Ok (VRef lr, args), h1) →
  ∃ attrs_r,
    h1 !! lr = Some (OInst attrs_r)
    ∧ attrs_r !! "method"
      = Some (VStr match v with
                   | GET => "GET" | OPTIONS => "OPTIONS" | HEAD => "HEAD"
                   | POST => "POST" | PUT => "PUT" | PATCH => "PATCH"
                   | DELETE => "DELETE"
                   end)
    ∧ attrs_r !! "data"
      = Some match v with
             | POST | PUT | PATCH => if is_none data then VSeq [] else data
             | _ => if is_none (kwarg kwargs "data" VNone) then VSeq []
                    else kwarg kwargs "data" VNone
             end
    ∧ call_verb v self url data kwargs h
      = (let* send_it :=
           truthy (kwarg kwargs "return_response" (VBool true)) in
         if negb send_it then ret (VRef lr)
         else _send_request self (VRef lr) args) h1.
Proof.
  intros Eself Hm Hd E.
  destruct (request_build_inv _ _ _ _ _ _ _ _ E)
    as (args0 & h0 & hooks & hd & E0 & Ed & Er & Eh1).
  destruct (verb_args_method_data _ _ _ _ _ _ _ _ _ Eself E0) as [Em Edata].
  exists (<["session" := VRef self]> args). split_and!.
  - injection Er as ->. rewrite Eh1. apply lookup_alloc_new.
  - rewrite lookup_insert_ne by done. by rewrite (Hm _ _ E0).
  - rewrite lookup_insert_ne by done. by rewrite (Hd _ _ E0).
  - by apply call_verb_built.
Qed.

(** X18. A call that is sent and whose send step returns: the result is the
    response the send step left on the descriptor, with safe mode
    engaged or not; the send step is told the prefetch setting of the
    arguments as the hook chain returned them. *)
Theorem request_returns_response self method url kw h lr args h1 h2 ra
    resp :
  request_build self method url kw h = (Ok (VRef lr, args), h1) →
  truthy (kwarg kw "return_response" (VBool true)) h1 = (Ok true, h1) →
  send lr (default VNone (args !! "prefetch")) h1 = (Ok tt, h2) →
  h2 !! lr = Some (OInst ra) →
  ra !! "response" = Some resp →
  request self method url kw h = (Ok resp, h2).
Proof.
  intros Eb Et Es Er Eresp. unfold request.
  mrun Eb. simpl fst. simpl snd. mrun Et.
  unfold _send_request, catch_exceptions_if_in_safe_mode.
  cbv beta iota delta [negb].
  rewrite (bind_ok _ _ _ _ _ Es), (getattr_inst _ _ _ _ _ Er Eresp).
  by destruct safe_mode.
Qed.

End Request.

(** ** A call that is not sent *)


(** ** The claims on the concrete session *)

(** C3, as stated, fails for an empty (but present) session default: a
    local [None] is answered with the session default, not with [None]. *)
Lemma merge_kwargs_default_empty_not_identity :
  (merge_kwargs VNone (VRef 0) [ODict ∅]).1 ≠ Ok VNone.
Proof. vm_compute. discriminate. Qed.

(** C2 on a session default {b: 2} and a local {b: None}. *)
Lemma merge_kwargs_none_deletes_witness :
  ∃ m, merge_kwargs (VRef 0) (VRef 1)
         [ODict {[ "b" := VNone ]}; ODict {[ "b" := VInt 2 ]}]
       = (Ok (VRef 2),
          [ODict {[ "b" := VNone ]}; ODict {[ "b" := VInt 2 ]}; ODict m])
     ∧ m !! "b" = None.
Proof.
  destruct (merge_kwargs_none_deletes
              [ODict {[ "b" := VNone ]}; ODict {[ "b" := VInt 2 ]}]
              0 1 {[ "b" := VNone ]} {[ "b" := VInt 2 ]}
              eq_refl eq_refl) as (m & E & Hnone & _).
  exists m. split; [exact E|]. apply Hnone. reflexivity.
Defined.


Lemma ex_hook_kept key self method url kw h r args h1 :
  request_build ex_header_expand ex_dispatch_hook self method url kw h
  = (Ok (r, args), h1) →
  hook_kept ex_header_expand key self method url kw h args.
Proof.
  intros E args0 h0 E0.
  destruct (request_build_inv _ _ _ _ _ _ _ _ _ _ E)
    as (args0' & h0' & hooks & hd & E0' & Ed & _).
  rewrite E0 in E0'. injection E0' as <- <-.
  unfold ex_dispatch_hook, ret in Ed. by injection Ed as <- <-.
Qed.



(** C1 on the concrete session, with cookies, headers and hooks passed. *)
Lemma cookie_reconciliation_example_witness :
  ∃ args h' l',
    request_args ex_header_expand 7 "get" "http://example.org/" ex_kwargs
      ex_store = (Ok args, h')
    ∧ args !! "cookies" = Some (VRef l')
    ∧ h' !! l' = Some (OJar {[ ("", "/", "a") := VInt 1;
                               ("", "/", "c") := VInt 3 ]})
    ∧ h' !! 1 = Some (OJar {[ ("", "/", "a") := VInt 1;
                              ("", "/", "b") := VInt 2 ]}).
Proof.
  assert (Hok : is_ok (request_args ex_header_expand 7 "get"
                         "http://example.org/" ex_kwargs ex_store).1 = true)
    by (vm_compute; reflexivity).
  destruct (ok_run _ _ Hok) as (args & h' & E).
  destruct (cookie_reconciliation_example ex_header_expand 7 "get"
              "http://example.org/" ex_kwargs ex_store ex_attrs 1 8
              "" "/" "" "/" args h' eq_refl
              ltac:(vm_compute; reflexivity) eq_refl
              ltac:(vm_compute; reflexivity) eq_refl
              ltac:(vm_compute; discriminate) ltac:(vm_compute; discriminate)
              E) as (l' & Ea & _ & Ej & Es).
  exists args, h', l'. exact (conj E (conj Ea (conj Ej Es))).
Defined.


(** C5 on the concrete session, with safe mode engaged and a send step
    that raises. *)
Lemma safe_mode_transport_failure_witness :
  ∃ l h2,
    call_verb ex_header_expand ex_dispatch_hook ex_send true GET 7
      "http://example.org/" VNone ∅ ex_store
    = (Ok (VRef l), h2 ++ [OInst {[ "error" := VExn (TransportError 7) ]}]).
Proof.
  assert (Hok : is_built (request_build ex_header_expand ex_dispatch_hook 7
                            (verb_method GET) "http://example.org/"
                            (verb_kwargs GET VNone ∅) ex_store).1 = true)
    by (vm_compute; reflexivity).
  destruct (built_run _ _ Hok) as (lr & args & h1 & E).
  exists (length h1), h1.
  exact (safe_mode_transport_failure ex_header_expand ex_dispatch_hook
           ex_send true GET 7 "http://example.org/" VNone ∅ ex_store
           lr args h1 7 h1 E eq_refl eq_refl).
Defined.

(** C7 on the concrete session: the call's response hook wins, the
    hooks under the two other event names both survive, and the caller's
    dict at location 10 has been seeded with the session's hooks. *)
Lemma hooks_call_over_session_witness :
  ∃ args h' l m,
    request_args ex_header_expand 7 "get" "http://example.org/" ex_kwargs
      ex_store = (Ok args, h')
    ∧ args !! "hooks" = Some (VRef l)
    ∧ h' !! l = Some (ODict m)
    ∧ m !! "response" = Some (VFun 1)
    ∧ m !! "args" = Some (VFun 2)
    ∧ m !! "pre_request" = Some (VFun 3)
    ∧ h' !! 10
      = Some (ODict ({[ "response" := VFun 1; "args" := VFun 2 ]}
                     ∪ {[ "response" := VFun 0; "pre_request" := VFun 3 ]})).
Proof.
  assert (Hok : is_ok (request_args ex_header_expand 7 "get"
                         "http://example.org/" ex_kwargs ex_store).1 = true)
    by (vm_compute; reflexivity).
  destruct (ok_run _ _ Hok) as (args & h' & E).
  destruct (hooks_call_over_session ex_header_expand 7 "get"
              "http://example.org/" ex_kwargs ex_store ex_attrs 3
              {[ "response" := VFun 0; "pre_request" := VFun 3 ]} 10
              {[ "response" := VFun 1; "args" := VFun 2 ]} args h'
              eq_refl ltac:(vm_compute; reflexivity) eq_refl
              ltac:(vm_compute; reflexivity) eq_refl
              ltac:(vm_compute; discriminate) ltac:(vm_compute; discriminate)
              E) as (l & m & Ea & El & Hcall & Hsess & _ & _ & _ & Eseed).
  exists args, h', l, m.
  refine (conj E (conj Ea (conj El (conj _ (conj _ (conj _ Eseed)))))).
  - apply Hcall; [vm_compute; reflexivity|discriminate].
  - apply Hcall; [vm_compute; reflexivity|discriminate].
  - apply Hsess;
      [vm_compute; reflexivity|vm_compute; reflexivity|discriminate].
Defined.

(** C8 on the concrete session. *)
Lemma getstate_setstate_round_trip_witness :
  ∃ state attrs',
    __getstate__ 7 ex_store = (Ok (VRef 12), ex_store ++ [ODict state])
    ∧ state !! "poolmanager" = None
    ∧ restore (VRef 12) (ex_store ++ [ODict state])
      = (Ok (VRef 13),
         ex_store ++ [ODict state; OInst attrs'; OPool (VInt 10) (VInt 10)])
    ∧ attrs' !! "cookies" = Some (VRef 1)
    ∧ attrs' !! "poolmanager" = Some (VRef 14).
Proof.
  assert (Hall : ∀ a, a ∈ __attrs__ → is_Some (ex_attrs !! a)).
  { apply (Forall_forall (λ a, is_Some (ex_attrs !! a))).
    repeat constructor; eexists; vm_compute; reflexivity. }
  destruct (getstate_setstate_round_trip ex_store 7 ex_attrs 5
              {[ "pool_connections" := VInt 10; "pool_maxsize" := VInt 10 ]}
              eq_refl Hall ltac:(vm_compute; reflexivity) eq_refl)
    as (state & attrs' & Eg & _ & Hpm & Er & Hattrs & Hpool).
  exists state, attrs'.
  refine (conj Eg (conj Hpm (conj Er (conj _ Hpool)))).
  rewrite (Hattrs "cookies").
  - vm_compute; reflexivity.
  - apply (bool_decide_unpack _). vm_compute; reflexivity.
Defined.


(** C10 on the concrete session: the dicts at locations 10 and 9 are the
    caller's hooks and headers. *)
Lemma caller_dicts_mutated_witness :
  ∃ args h',
    request_args ex_header_expand 7 "get" "http://example.org/" ex_kwargs
      ex_store = (Ok args, h')
    ∧ h' !! 10 = Some (ODict ({[ "response" := VFun 1; "args" := VFun 2 ]}
                              ∪ {[ "response" := VFun 0;
                                   "pre_request" := VFun 3 ]}))
    ∧ h' !! 9 = Some (ODict (ex_header_expand <$>
                 {[ "Accept" := VSeq [VStr "text/html"; VStr "text/plain"] ]})).
Proof.
  assert (Hok : is_ok (request_args ex_header_expand 7 "get"
                         "http://example.org/" ex_kwargs ex_store).1 = true)
    by (vm_compute; reflexivity).
  destruct (ok_run _ _ Hok) as (args & h' & E).
  exists args, h'.
  exact (conj E
           (caller_dicts_mutated ex_header_expand 7 "get"
              "http://example.org/" ex_kwargs ex_store ex_attrs 3
              {[ "response" := VFun 0; "pre_request" := VFun 3 ]} 10
              {[ "response" := VFun 1; "args" := VFun 2 ]} 9
              {[ "Accept" := VSeq [VStr "text/html"; VStr "text/plain"] ]}
              args h'
              eq_refl ltac:(vm_compute; reflexivity) eq_refl
              ltac:(vm_compute; reflexivity) eq_refl
              ltac:(vm_compute; reflexivity) eq_refl
              ltac:(discriminate) E)).
Defined.

(** ** Further properties on concrete stores *)

Lemma merge_kwargs_empty_local_copies_witness :
  merge_kwargs (VRef 0) (VRef 1) [ODict ∅; ODict {[ "a" := VInt 1 ]}]
  = (Ok (VRef 2), [ODict ∅; ODict {[ "a" := VInt 1 ]};
                   ODict {[ "a" := VInt 1 ]}]).
Proof.
  exact (proj1 (merge_kwargs_empty_local_copies
                  [ODict ∅; ODict {[ "a" := VInt 1 ]}] 0 1
                  {[ "a" := VInt 1 ]} eq_refl eq_refl)).
Defined.

Lemma merge_kwargs_non_mapping_default_witness :
  merge_kwargs (VInt 5) (VInt 30) [] = (Ok (VInt 5), [])
  ∧ merge_kwargs VNone (VInt 30) [] = (Ok (VInt 30), []).
Proof.
  split.
  - exact (merge_kwargs_non_mapping_default (VInt 5) (VInt 30) [] eq_refl).
  - exact (merge_kwargs_non_mapping_default VNone (VInt 30) [] eq_refl).
Defined.

Lemma merge_kwargs_twice_witness :
  ∃ m, (let* r := merge_kwargs (VRef 0) (VRef 1) in
        merge_kwargs (VRef 0) r)
         [ODict {[ "b" := VNone ]}; ODict {[ "b" := VInt 2 ]}]
       = (Ok (VRef 3),
          [ODict {[ "b" := VNone ]}; ODict {[ "b" := VInt 2 ]};
           ODict m; ODict m]).
Proof.
  destruct (merge_kwargs_twice
              [ODict {[ "b" := VNone ]}; ODict {[ "b" := VInt 2 ]}] 0 1
              {[ "b" := VNone ]} {[ "b" := VInt 2 ]} eq_refl eq_refl)
    as (m & E & _).
  exists m. exact E.
Defined.

Lemma request_args_keeps_instances_witness :
  (request_args ex_header_expand 7 "get" "http://example.org/" ex_kwargs
     ex_store).2 !! 7 = Some (OInst ex_attrs).
Proof.
  exact (request_args_keeps_instances ex_header_expand 7 "get"
           "http://example.org/" ex_kwargs ex_store 7 (OInst ex_attrs)
           eq_refl I).
Defined.

Lemma request_args_keeps_other_dicts_witness :
  ∃ args h',
    request_args ex_header_expand 7 "get" "http://example.org/" ex_kwargs
      ex_store = (Ok args, h')
    ∧ h' !! 3
      = Some (ODict {[ "response" := VFun 0; "pre_request" := VFun 3 ]}).
Proof.
  assert (Hok : is_ok (request_args ex_header_expand 7 "get"
                         "http://example.org/" ex_kwargs ex_store).1 = true)
    by (vm_compute; reflexivity).
  destruct (ok_run _ _ Hok) as (args & h' & E).
  exists args, h'.
  exact (conj E (request_args_keeps_other_dicts ex_header_expand 7 "get"
                   "http://example.org/" ex_kwargs ex_store 3
                   {[ "response" := VFun 0; "pre_request" := VFun 3 ]}
                   args h' eq_refl
                   ltac:(vm_compute; discriminate)
                   ltac:(vm_compute; discriminate) E)).
Defined.

Lemma request_args_no_cookies_witness :
  ∃ args h' l',
    request_args ex_header_expand 7 "get" "http://example.org/" ∅ ex_store
    = (Ok args, h')
    ∧ args !! "cookies" = Some (VRef l')
    ∧ h' !! l'
      = Some (OJar {[ ("", "/", "a") := VInt 1; ("", "/", "b") := VInt 2 ]}).
Proof.
  assert (Hok : is_ok (request_args ex_header_expand 7 "get"
                         "http://example.org/" ∅ ex_store).1 = true)
    by (vm_compute; reflexivity).
  destruct (ok_run _ _ Hok) as (args & h' & E).
  destruct (request_args_no_cookies ex_header_expand 7 "get"
              "http://example.org/" ∅ ex_store ex_attrs 1
              {[ ("", "/", "a") := VInt 1; ("", "/", "b") := VInt 2 ]}
              args h' eq_refl ltac:(vm_compute; reflexivity) eq_refl
              eq_refl E) as (l' & Ea & _ & Ej & _).
  exists args, h', l'. exact (conj E (conj Ea Ej)).
Defined.

Lemma request_args_jar_argument_filled_witness :
  ∃ args h' (j : jar),
    request_args ex_header_expand 7 "get" "http://example.org/"
      ex_kwargs_jar ex_store_jar = (Ok args, h')
    ∧ args !! "cookies" = Some (VRef 12)
    ∧ h' !! 12 = Some (OJar j)
    ∧ j !! ("", "/", "a") = Some (VInt 1)
    ∧ j !! ("", "/", "z") = Some (VInt 8).
Proof.
  assert (Hok : is_ok (request_args ex_header_expand 7 "get"
                         "http://example.org/" ex_kwargs_jar
                         ex_store_jar).1 = true)
    by (vm_compute; reflexivity).
  destruct (ok_run _ _ Hok) as (args & h' & E).
  destruct (request_args_jar_argument_filled ex_header_expand 7 "get"
              "http://example.org/" ex_kwargs_jar ex_store_jar ex_attrs 1
              {[ ("", "/", "a") := VInt 1; ("", "/", "b") := VInt 2 ]}
              12 ex_jar args h' eq_refl ltac:(vm_compute; reflexivity)
              eq_refl eq_refl eq_refl E) as (j & Ea & Ej & Hs & Hc & _).
  exists args, h', j.
  exact (conj E (conj Ea (conj Ej
           (conj (Hs ("", "/", "a") (VInt 1) ltac:(vm_compute; reflexivity))
                 (eq_trans
                    (Hc ("", "/", "z") ltac:(vm_compute; reflexivity))
                    ltac:(vm_compute; reflexivity)))))).
Defined.

Lemma request_args_headers_merged_witness :
  ∃ args h' l,
    request_args ex_header_expand 7 "get" "http://example.org/" ex_kwargs
      ex_store = (Ok args, h')
    ∧ args !! "headers" = Some (VRef l)
    ∧ h' !! l
      = Some (ODict (merged
                (ex_header_expand
                 <$> {[ "Accept" := VSeq [VStr "text/html";
                                          VStr "text/plain"] ]}) ∅)).
Proof.
  assert (Hok : is_ok (request_args ex_header_expand 7 "get"
                         "http://example.org/" ex_kwargs ex_store).1 = true)
    by (vm_compute; reflexivity).
  destruct (ok_run _ _ Hok) as (args & h' & E).
  destruct (request_args_headers_merged ex_header_expand 7 "get"
              "http://example.org/" ex_kwargs ex_store ex_attrs 0 ∅ 9
              {[ "Accept" := VSeq [VStr "text/html"; VStr "text/plain"] ]}
              args h' eq_refl ltac:(vm_compute; reflexivity) eq_refl
              ltac:(vm_compute; reflexivity) eq_refl
              ltac:(vm_compute; discriminate)
              ltac:(vm_compute; discriminate)
              ltac:(vm_compute; discriminate) E) as (l & Ea & _ & El & _).
  exists args, h', l. exact (conj E (conj Ea El)).
Defined.

Lemma request_args_mapping_merged_witness :
  ∃ args h' l,
    request_args ex_header_expand 7 "get" "http://example.org/"
      ex_kwargs_plain ex_store = (Ok args, h')
    ∧ args !! "params" = Some (VRef l)
    ∧ h' !! l
      = Some (ODict (merged {[ "a" := VInt 9; "b" := VNone ]} ∅)).
Proof.
  assert (Hok : is_ok (request_args ex_header_expand 7 "get"
                         "http://example.org/" ex_kwargs_plain
                         ex_store).1 = true)
    by (vm_compute; reflexivity).
  destruct (ok_run _ _ Hok) as (args & h' & E).
  destruct (request_args_mapping_merged ex_header_expand 7 "get"
              "http://example.org/" ex_kwargs_plain ex_store ex_attrs
              "params" 11 {[ "a" := VInt 9; "b" := VNone ]} 4 ∅ args h'
              ltac:(apply (bool_decide_unpack _); by vm_compute)
              eq_refl ltac:(vm_compute; reflexivity) eq_refl
              ltac:(vm_compute; reflexivity) eq_refl
              ltac:(vm_compute; discriminate)
              ltac:(vm_compute; discriminate)
              ltac:(vm_compute; discriminate)
              ltac:(vm_compute; discriminate) E)
    as (l & Ea & _ & El & _).
  exists args, h', l. exact (conj E (conj Ea El)).
Defined.

Lemma request_args_plain_override_witness :
  ∃ args h',
    request_args ex_header_expand 7 "get" "http://example.org/"
      ex_kwargs_plain ex_store = (Ok args, h')
    ∧ args !! "timeout" = Some (VInt 30).
Proof.
  assert (Hok : is_ok (request_args ex_header_expand 7 "get"
                         "http://example.org/" ex_kwargs_plain
                         ex_store).1 = true)
    by (vm_compute; reflexivity).
  destruct (ok_run _ _ Hok) as (args & h' & E).
  exists args, h'.
  exact (conj E
           (eq_trans
              (request_args_plain_override ex_header_expand 7 "get"
                 "http://example.org/" ex_kwargs_plain ex_store ex_attrs
                 "timeout" args h' eq_refl
                 ltac:(apply (bool_decide_unpack _); by vm_compute)
                 ltac:(intros l; vm_compute; discriminate) E)
              ltac:(vm_compute; reflexivity))).
Defined.

Lemma request_args_fixed_entries_witness :
  ∃ args h',
    request_args ex_header_expand 7 "get" "http://example.org/" ex_kwargs
      ex_store = (Ok args, h')
    ∧ args !! "method" = Some (VStr (upper "get"))
    ∧ args !! "_poolmanager" = ex_attrs !! "poolmanager".
Proof.
  assert (Hok : is_ok (request_args ex_header_expand 7 "get"
                         "http://example.org/" ex_kwargs ex_store).1 = true)
    by (vm_compute; reflexivity).
  destruct (ok_run _ _ Hok) as (args & h' & E).
  destruct (request_args_fixed_entries ex_header_expand 7 "get"
              "http://example.org/" ex_kwargs ex_store ex_attrs args h'
              eq_refl eq_refl E) as (Em & _ & _ & _ & Ep & _).
  exists args, h'. exact (conj E (conj Em Ep)).
Defined.

Lemma verb_unknown_keyword_rejected_witness :
  call_verb ex_header_expand ex_dispatch_hook ex_send false POST 7
    "http://example.org/" VNone {[ "verbose" := VBool true ]} ex_store
  = (Raise TypeError, ex_store).
Proof.
  exact (verb_unknown_keyword_rejected ex_header_expand ex_dispatch_hook
           ex_send false POST 7 "http://example.org/" VNone
           {[ "verbose" := VBool true ]} "verbose" (VBool true) ex_store
           eq_refl ltac:(apply (bool_decide_unpack _); by vm_compute)).
Defined.


Lemma getstate_exports_tracked_witness :
  ∃ state,
    __getstate__ 0 [OInst {[ "auth" := VInt 1; "poolmanager" := VRef 9 ]}]
    = (Ok (VRef 1),
       [OInst {[ "auth" := VInt 1; "poolmanager" := VRef 9 ]}; ODict state])
    ∧ state !! "auth" = Some (VInt 1)
    ∧ state !! "timeout" = Some VNone
    ∧ state !! "poolmanager" = None.
Proof.
  destruct (getstate_exports_tracked
              [OInst {[ "auth" := VInt 1; "poolmanager" := VRef 9 ]}] 0
              {[ "auth" := VInt 1; "poolmanager" := VRef 9 ]} eq_refl)
    as (state & E & Hs).
  exists state.
  exact (conj E (conj (Hs "auth") (conj (Hs "timeout") (Hs "poolmanager")))).
Defined.

Lemma setstate_overlays_instance_witness :
  ∃ h',
    __setstate__ 0 (VRef 1)
      [OInst {[ "auth" := VInt 1 ]}; ODict {[ "config" := VRef 2 ]};
       ODict {[ "pool_maxsize" := VInt 4 ]}]
    = (Ok tt, h').
Proof.
  assert (Ecfg : (({[ "config" := VRef 2 ]} : gmap string value)
                  ∪ {[ "auth" := VInt 1 ]}) !! "config" = Some (VRef 2))
    by (vm_compute; reflexivity).
  eexists.
  exact (setstate_overlays_instance
           [OInst {[ "auth" := VInt 1 ]}; ODict {[ "config" := VRef 2 ]};
            ODict {[ "pool_maxsize" := VInt 4 ]}]
           0 _ 1 _ 2 _ eq_refl eq_refl Ecfg eq_refl).
Defined.

Lemma setstate_without_config_witness :
  ∃ h',
    __setstate__ 0 (VRef 1)
      [OInst {[ "auth" := VInt 1 ]}; ODict {[ "timeout" := VInt 3 ]}]
    = (Raise AttributeError, h').
Proof.
  assert (Ecfg : (({[ "timeout" := VInt 3 ]} : gmap string value)
                  ∪ {[ "auth" := VInt 1 ]}) !! "config" = None)
    by (vm_compute; reflexivity).
  eexists.
  exact (setstate_without_config
           [OInst {[ "auth" := VInt 1 ]}; ODict {[ "timeout" := VInt 3 ]}]
           0 _ 1 _ eq_refl eq_refl Ecfg).
Defined.

(** The constructor on a concrete call. *)
Lemma ex_init_well_formed :
  (∀ v, only_allocates (ex_deepcopy v)) ∧ wf_init ex_init_store ex_init_kwargs.
Proof.
  split.
  - intros v h. exists v, []. by rewrite app_nil_r.
  - split; [vm_compute; reflexivity|]. split; [|split].
    + intros k Hk.
      repeat (apply elem_of_cons in Hk as [->|Hk]);
        try (by apply elem_of_nil in Hk);
        try (left; vm_compute; reflexivity);
        right; eexists; vm_compute; reflexivity.
    + right. eexists. vm_compute; reflexivity.
    + intros a Ha.
      repeat (apply elem_of_cons in Ha as [->|Ha]);
        try (by apply elem_of_nil in Ha); by intros l.
Qed.


Lemma session_config_seeded_witness :
  ∃ h' attrs lcfg cfg,
    session ex_defaults ex_deepcopy ex_init_kwargs ex_init_store
    = (Ok (VRef 2), h')
    ∧ h' !! 2 = Some (OInst attrs)
    ∧ attrs !! "config" = Some (VRef lcfg)
    ∧ h' !! lcfg = Some (ODict cfg)
    ∧ cfg !! "pool_maxsize" = Some (VInt 4)
    ∧ is_Some (cfg !! "pool_connections").
Proof.
  destruct (session_config_seeded ex_defaults ex_deepcopy ex_init_kwargs
              ex_init_store
              (proj1 ex_init_well_formed) (proj2 ex_init_well_formed))
    as (h' & attrs & lcfg & cfg & pm & E & Eself & Ecfg & Ecfg' & Hkeys
        & Hkeep & _).
  exists h', attrs, lcfg, cfg.
  exact (conj E (conj Eself (conj Ecfg (conj Ecfg'
           (conj (Hkeep 0 {[ "pool_maxsize" := VInt 4 ]}
                    ltac:(vm_compute; reflexivity) eq_refl
                    "pool_maxsize" (VInt 4) ltac:(vm_compute; reflexivity))
                 (Hkeys "pool_connections"
                    ltac:(apply (bool_decide_unpack _); by vm_compute))))))).
Defined.

Lemma session_attributes_witness :
  ∃ h' attrs,
    session ex_defaults ex_deepcopy ex_init_kwargs ex_init_store
    = (Ok (VRef 2), h')
    ∧ h' !! 2 = Some (OInst attrs)
    ∧ attrs !! "cookies" = Some (VRef 1)
    ∧ attrs !! "timeout" = Some (VInt 30)
    ∧ attrs !! "verify" = Some (VBool true).
Proof.
  destruct (session_attributes ex_defaults ex_deepcopy ex_init_kwargs
              ex_init_store
              (proj1 ex_init_well_formed) (proj2 ex_init_well_formed))
    as (h' & attrs & lj & E & Eself & Ecookies & _ & Hsame & _ & Etimeout
        & _ & _ & Everify).
  exists h', attrs.
  pose proof (Hsame 1 ex_jar ltac:(vm_compute; reflexivity) eq_refl) as Hlj.
  exact (conj E (conj Eself
           (conj (eq_trans Ecookies (f_equal (λ l, Some (VRef l)) Hlj))
           (conj (eq_trans Etimeout ltac:(vm_compute; reflexivity))
                 (eq_trans Everify ltac:(vm_compute; reflexivity)))))).
Defined.


Lemma request_args_default_hooks_witness :
  ∃ args h' l m,
    request_args ex_header_expand 7 "get" "http://example.org/" ∅ ex_store
    = (Ok args, h')
    ∧ args !! "hooks" = Some (VRef l)
    ∧ h' !! l = Some (ODict m)
    ∧ m !! "response" = Some (VFun 0).
Proof.
  assert (Hok : is_ok (request_args ex_header_expand 7 "get"
                         "http://example.org/" ∅ ex_store).1 = true)
    by (vm_compute; reflexivity).
  destruct (ok_run _ _ Hok) as (args & h' & E).
  destruct (request_args_default_hooks ex_header_expand 7 "get"
              "http://example.org/" ∅ ex_store ex_attrs 3
              {[ "response" := VFun 0; "pre_request" := VFun 3 ]}
              args h' eq_refl ltac:(vm_compute; reflexivity) eq_refl
              eq_refl (or_introl eq_refl)
              ltac:(vm_compute; discriminate) E)
    as (l & m & Ea & _ & _ & El & Hm & _).
  exists args, h', l, m.
  exact (conj E (conj Ea (conj El
           (Hm "response" (VFun 0) ltac:(vm_compute; reflexivity)
               ltac:(discriminate))))).
Defined.

Lemma verb_method_and_data_witness :
  ∃ lr args h1 attrs_r,
    request_build ex_header_expand ex_dispatch_hook 7 (verb_method POST)
      "http://example.org/" (verb_kwargs POST (VStr "body") ex_kwargs)
      ex_store = (Ok (VRef lr, args), h1)
    ∧ h1 !! lr = Some (OInst attrs_r)
    ∧ attrs_r !! "method" = Some (VStr "POST")
    ∧ attrs_r !! "data" = Some (VStr "body")
    ∧ call_verb ex_header_expand ex_dispatch_hook ex_send true POST 7
        "http://example.org/" (VStr "body") ex_kwargs ex_store
      = (let* send_it :=
           truthy (kwarg ex_kwargs "return_response" (VBool true)) in
         if negb send_it then ret (VRef lr)
         else _send_request ex_send true 7 (VRef lr) args) h1.
Proof.
  assert (Hok : is_built (request_build ex_header_expand ex_dispatch_hook 7
                            (verb_method POST) "http://example.org/"
                            (verb_kwargs POST (VStr "body") ex_kwargs)
                            ex_store).1 = true)
    by (vm_compute; reflexivity).
  destruct (built_run _ _ Hok) as (lr & args & h1 & E).
  destruct (verb_method_and_data ex_header_expand ex_dispatch_hook ex_send
              true POST 7 "http://example.org/" (VStr "body") ex_kwargs
              ex_store ex_attrs lr args h1 eq_refl
              (ex_hook_kept "method" _ _ _ _ _ _ _ _ E)
              (ex_hook_kept "data" _ _ _ _ _ _ _ _ E) E)
    as (attrs_r & El & Em & Ed & Ec).
  exists lr, args, h1, attrs_r.
  exact (conj E (conj El (conj Em (conj Ed Ec)))).
Defined.

Lemma request_returns_response_witness :
  ∃ lr args h1,
    request_build ex_header_expand ex_dispatch_hook 7 "get"
      "http://example.org/" ex_kwargs ex_store = (Ok (VRef lr, args), h1)
    ∧ request ex_header_expand ex_dispatch_hook
        (λ r _, setattr r "response" (VInt 200)) true 7 "get"
        "http://example.org/" ex_kwargs ex_store
      = (Ok (VInt 200),
         <[lr := OInst (<["response" := VInt 200]>
                          (<["session" := VRef 7]> args))]> h1).
Proof.
  assert (Hok : is_built (request_build ex_header_expand ex_dispatch_hook 7
                            "get" "http://example.org/" ex_kwargs
                            ex_store).1 = true)
    by (vm_compute; reflexivity).
  destruct (built_run _ _ Hok) as (lr & args & h1 & E).
  destruct (request_build_descriptor _ _ _ _ _ _ _ _ _ _ E)
    as (hd & [= Hlr] & Hh1).
  assert (El : h1 !! lr = Some (OInst (<["session" := VRef 7]> args))).
  { rewrite Hlr, Hh1. apply lookup_alloc_new. }
  exists lr, args, h1.
  exact (conj E
           (request_returns_response ex_header_expand ex_dispatch_hook
              (λ r _, setattr r "response" (VInt 200)) true 7 "get"
              "http://example.org/" ex_kwargs ex_store lr args h1 _ _
              (VInt 200) E ltac:(vm_compute; reflexivity)
              (setattr_inst _ _ _ _ _ El)
              (lookup_store_eq _ _ _ _ El)
              (lookup_insert_eq _ _ _))).
Defined.
